(** * ax206vncclient: the AX206 picture-frame driver of the VNC client

    A shallow embedding of [client_examples/ax206vncclient.c]: the RGB565
    pixel conversion, the dirty-rectangle tracker ([drv_set_pixel] and the
    tail of [update]), the blit dispatcher ([dpf_ax_screen_blit]) and the
    bulk-only command transport ([wrap_scsi]).

    Conventions.
    - C integers are [Z].  Index arithmetic carried out in [int] behind the
      bounds check of [drv_set_pixel] is written with the exact operations
      of [Z]; every conversion to a narrower or to an unsigned type
      ([unsigned char], [short], [unsigned int], [unsigned long], and [int]
      from [unsigned long]) is written out as the wrap-around of module
      [CInt] (LP64, two's complement), and so is the one [int] product that
      arguments of the declared type can take out of range ([blit_len]).
    - [unsigned char] arrays are [list Z]; [a[i]] is [rd a i] and
      [a[i] = v] is [wr a i v].
    - The globals of the file ([dpf], [DROWS], [DCOLS]) are the record
      [dpf_t]; the statics of the transport ([g_excmd], [g_buf], [ansbuf])
      live, with the USB device, in the record [usb_t].  Every function
      takes the state it reads and returns the state it leaves. *)

From Stdlib Require Import ZArith Lia Bool.
From stdpp Require Import base list.

Local Open Scope Z_scope.

(** ** C integer conversions *)

Module CInt.

Definition to_uchar (z : Z) : Z := z mod 256.
Definition to_short (z : Z) : Z := (z + 32768) mod 65536 - 32768.
Definition to_int (z : Z) : Z := (z + 2147483648) mod 4294967296 - 2147483648.
Definition to_uint (z : Z) : Z := z mod 4294967296.
Definition to_ulong (z : Z) : Z := z mod 18446744073709551616.

Definition is_uchar (z : Z) : Prop := 0 <= z < 256.

End CInt.
Import CInt.

(** ** Byte arrays *)

Definition rd (a : list Z) (i : Z) : Z := default 0 (a !! Z.to_nat i).
Definition wr (a : list Z) (i : Z) (v : Z) : list Z := <[Z.to_nat i := v]> a.

(** [memcpy (dst + off, src, n)]. *)
Definition memcpy (dst : list Z) (off : Z) (src : list Z) (n : Z) : list Z :=
  let chunk := take (Z.to_nat n) src in
  take (Z.to_nat off) dst ++ chunk ++ drop (Z.to_nat off + length chunk) dst.

(** ** Pixel converter *)

Record RGBA := { R : Z; G : Z; B : Z; A : Z }.

Definition DPF_BPP : Z := 2.

(** [#define _RGB565_0(p) (( ((p.R) & 0xf8) ) | (((p.G) & 0xe0) >> 5))] *)
Definition RGB565_0 (p : RGBA) : Z :=
  Z.lor (Z.land (R p) 248) (Z.shiftr (Z.land (G p) 224) 5).

(** [#define _RGB565_1(p) (( ((p.G) & 0x1c) << 3 ) | (((p.B) & 0xf8) >> 3))] *)
Definition RGB565_1 (p : RGBA) : Z :=
  Z.lor (Z.shiftl (Z.land (G p) 28) 3) (Z.shiftr (Z.land (B p) 248) 3).

(** The two bytes [c1], [c2] that [drv_set_pixel] stores for a pixel. *)
Definition convert (p : RGBA) : list Z :=
  [to_uchar (RGB565_0 p); to_uchar (RGB565_1 p)].

(** ** Driver state *)

(** [DPFContext]: the handle returned by [dpf_ax_open]. *)
Record DPFContext := { udev : Z; width : Z; height : Z }.

(** What [ErrorLog] is called with by the driver. *)
Inductive diag :=
| OutOfBounds (x y lx ly : Z).

(** The global [dpf], the globals [DROWS] and [DCOLS], and the lines the
    driver has written with [ErrorLog]. *)
Record dpf_t := {
  lcdBuf : list Z;
  xferBuf : list Z;
  dpfh : DPFContext;
  pwidth : Z;
  pheight : Z;
  minx : Z;
  maxx : Z;
  miny : Z;
  maxy : Z;
  backlight : Z;
  DROWS : Z;
  DCOLS : Z;
  errlog : list diag
}.

Definition with_lcdBuf (b : list Z) (s : dpf_t) : dpf_t :=
  {| lcdBuf := b; xferBuf := xferBuf s; dpfh := dpfh s;
     pwidth := pwidth s; pheight := pheight s;
     minx := minx s; maxx := maxx s; miny := miny s; maxy := maxy s;
     backlight := backlight s; DROWS := DROWS s; DCOLS := DCOLS s;
     errlog := errlog s |}.

Definition with_xferBuf (b : list Z) (s : dpf_t) : dpf_t :=
  {| lcdBuf := lcdBuf s; xferBuf := b; dpfh := dpfh s;
     pwidth := pwidth s; pheight := pheight s;
     minx := minx s; maxx := maxx s; miny := miny s; maxy := maxy s;
     backlight := backlight s; DROWS := DROWS s; DCOLS := DCOLS s;
     errlog := errlog s |}.

Definition with_dpfh (h : DPFContext) (s : dpf_t) : dpf_t :=
  {| lcdBuf := lcdBuf s; xferBuf := xferBuf s; dpfh := h;
     pwidth := pwidth s; pheight := pheight s;
     minx := minx s; maxx := maxx s; miny := miny s; maxy := maxy s;
     backlight := backlight s; DROWS := DROWS s; DCOLS := DCOLS s;
     errlog := errlog s |}.

Definition with_rect (x0 x1 y0 y1 : Z) (s : dpf_t) : dpf_t :=
  {| lcdBuf := lcdBuf s; xferBuf := xferBuf s; dpfh := dpfh s;
     pwidth := pwidth s; pheight := pheight s;
     minx := x0; maxx := x1; miny := y0; maxy := y1;
     backlight := backlight s; DROWS := DROWS s; DCOLS := DCOLS s;
     errlog := errlog s |}.

Definition ErrorLog (d : diag) (s : dpf_t) : dpf_t :=
  {| lcdBuf := lcdBuf s; xferBuf := xferBuf s; dpfh := dpfh s;
     pwidth := pwidth s; pheight := pheight s;
     minx := minx s; maxx := maxx s; miny := miny s; maxy := maxy s;
     backlight := backlight s; DROWS := DROWS s; DCOLS := DCOLS s;
     errlog := errlog s ++ [d] |}.

(** The dirty rectangle as the tuple (minx, maxx, miny, maxy). *)
Definition dirty (s : dpf_t) : Z * Z * Z * Z := (minx s, maxx s, miny s, maxy s).

(** ** Dirty-rectangle tracker: [drv_set_pixel] *)

(** C's [%] truncates towards zero: it is [Z.rem]. *)
Definition drv_set_pixel (x y : Z) (pix : RGBA) (s : dpf_t) : dpf_t :=
  let sx := DCOLS s in
  let sy := DROWS s in
  let lx := Z.rem x sx in
  let ly := Z.rem y sy in
  if (lx <? 0) || (lx >=? pwidth s) || (ly <? 0) || (ly >=? pheight s) then
    ErrorLog (OutOfBounds x y lx ly) s
  else
    let c1 := to_uchar (RGB565_0 pix) in
    let c2 := to_uchar (RGB565_1 pix) in
    let i := to_uint ((ly * pwidth s + lx) * DPF_BPP) in
    let changed :=
      negb (rd (lcdBuf s) i =? c1) || negb (rd (lcdBuf s) (i + 1) =? c2) in
    if changed then
      let s1 := with_lcdBuf (wr (wr (lcdBuf s) i c1) (i + 1) c2) s in
      let x0 := if lx <? minx s1 then lx else minx s1 in
      let x1 := if lx >? maxx s1 then lx else maxx s1 in
      let y0 := if ly <? miny s1 then ly else miny s1 in
      let y1 := if ly >? maxy s1 then ly else maxy s1 in
      with_rect x0 x1 y0 y1 s1
    else s.

(** ** The USB device

    [libusb_bulk_transfer] belongs to libusb, not to this program: it is the
    environment.  The device is a script of replies, one consumed by each
    bulk transfer, and the record of the transfers that were issued.  A
    reply gives the return value of [libusb_bulk_transfer], the value it
    stores in [transfered], and, for an IN endpoint, the bytes it writes at
    the start of the caller's buffer.  With no reply left the transfer times
    out ([LIBUSB_ERROR_TIMEOUT], nothing transferred). *)

Record bulk_call := {
  bc_dev : Z;
  bc_endpoint : Z;
  bc_bytes : list Z;
  bc_length : Z;
  bc_timeout : Z
}.

Record bulk_reply := {
  br_ret : Z;
  br_transferred : Z;
  br_data : list Z
}.

(** What [wrap_scsi] prints on [stderr]. *)
Inductive usb_msg :=
| BulkWriteError
| BulkReadError
| AckReadError (ret transfered expected : Z)
| InvalidReply.

(** The device, the statics of the transport and its [stderr]. *)
Record usb_t := {
  pending : list bulk_reply;
  issued : list bulk_call;
  g_excmd : list Z;
  g_buf : list Z;
  ansbuf : list Z;
  stderr : list usb_msg
}.

Definition LIBUSB_ERROR_TIMEOUT : Z := -7.

Definition timed_out : bulk_reply :=
  {| br_ret := LIBUSB_ERROR_TIMEOUT; br_transferred := 0; br_data := [] |}.

Definition ENDPT_OUT : Z := 1.
Definition ENDPT_IN : Z := 129.
Definition DIR_IN : Z := 0.
Definition DIR_OUT : Z := 1.
Definition USBCMD_BLIT : Z := 18.

(** Bit 7 of an endpoint address is its direction. *)
Definition is_in_endpoint (ep : Z) : bool := Z.testbit ep 7.

(** [libusb_bulk_transfer (dev, ep, buf, len, &transfered, timeout)]:
    returns [(ret, transfered, buf)] and the device after the transfer. *)
Definition libusb_bulk_transfer (dev ep : Z) (buf : list Z) (len timeout : Z)
    (w : usb_t) : Z * Z * list Z * usb_t :=
  let r := hd timed_out (pending w) in
  let got := take (Z.to_nat len) (br_data r) in
  let buf' := if is_in_endpoint ep then got ++ drop (length got) buf else buf in
  let sent := if is_in_endpoint ep then [] else take (Z.to_nat len) buf in
  let c := {| bc_dev := dev; bc_endpoint := ep; bc_bytes := sent;
              bc_length := len; bc_timeout := timeout |} in
  (br_ret r, br_transferred r, buf',
   {| pending := tl (pending w); issued := issued w ++ [c];
      g_excmd := g_excmd w; g_buf := g_buf w; ansbuf := ansbuf w;
      stderr := stderr w |}).

Definition with_g_excmd (b : list Z) (w : usb_t) : usb_t :=
  {| pending := pending w; issued := issued w; g_excmd := b;
     g_buf := g_buf w; ansbuf := ansbuf w; stderr := stderr w |}.

Definition with_g_buf (b : list Z) (w : usb_t) : usb_t :=
  {| pending := pending w; issued := issued w; g_excmd := g_excmd w;
     g_buf := b; ansbuf := ansbuf w; stderr := stderr w |}.

Definition with_ansbuf (b : list Z) (w : usb_t) : usb_t :=
  {| pending := pending w; issued := issued w; g_excmd := g_excmd w;
     g_buf := g_buf w; ansbuf := b; stderr := stderr w |}.

Definition fprintf (m : usb_msg) (w : usb_t) : usb_t :=
  {| pending := pending w; issued := issued w; g_excmd := g_excmd w;
     g_buf := g_buf w; ansbuf := ansbuf w; stderr := stderr w ++ [m] |}.

(** The initial values of the statics. *)
Definition g_excmd_init : list Z :=
  [205; 0; 0; 0; 0; 6; 0; 0; 0; 0; 0; 0; 0; 0; 0; 0].

Definition g_buf_init : list Z :=
  [85; 83; 66; 67; 222; 173; 190; 239; 0; 128; 0; 0; 0; 0; 16;
   205; 0; 0; 0; 0; 6; 17; 248; 112; 0; 64; 0; 0; 0; 0; 0].

Definition ansbuf_init : list Z := replicate 13 0.

(** A freshly started program talking to a device that will answer with
    [replies]. *)
Definition usb_init (replies : list bulk_reply) : usb_t :=
  {| pending := replies; issued := []; g_excmd := g_excmd_init;
     g_buf := g_buf_init; ansbuf := ansbuf_init; stderr := [] |}.

(** ** Command transport: [wrap_scsi] *)

(** [strncmp (a, b, n)] on NUL-terminated byte strings: zero when the
    strings agree up to [n] characters or up to a common NUL. *)
Fixpoint strncmp (a b : list Z) (n : nat) : Z :=
  match n with
  | O => 0
  | S n' =>
      let ca := hd 0 a in
      let cb := hd 0 b in
      if ca =? cb then
        if ca =? 0 then 0 else strncmp (tl a) (tl b) n'
      else ca - cb
  end.

(** The string literal ["USBS"]. *)
Definition USBS : list Z := [85; 83; 66; 83; 0].

(** The loop that reads the status block:
[[
    int retry = 0;
    do { timeout = 0; ret = libusb_bulk_transfer (.., ansbuf, len, .., 5000);
         if ((ret != 0) || (transfered != (int) len)) { fprintf (..); timeout = 1; }
         retry++;
    } while (timeout && retry < 5);
]]
    [more] is the number of further iterations that [retry < 5] still
    allows after this one, 4 on entry.  Returns the last [ret], the last
    [timeout] flag and the state. *)
Fixpoint ack_loop (more : nat) (dev len : Z) (w : usb_t) : Z * bool * usb_t :=
  let '(ret, transfered, ans, w1) :=
    libusb_bulk_transfer dev ENDPT_IN (ansbuf w) len 5000 w in
  let w2 := with_ansbuf ans w1 in
  let timeout := negb (ret =? 0) || negb (transfered =? to_int len) in
  let w3 := if timeout then fprintf (AckReadError ret transfered len) w2 else w2 in
  match more with
  | S more' => if timeout then ack_loop more' dev len w3 else (ret, timeout, w3)
  | O => (ret, timeout, w3)
  end.

(** The tail of [wrap_scsi], from the comment [get ACK] on. *)
Definition wrap_scsi_status (h : DPFContext) (w : usb_t) : Z * usb_t :=
  let len := 13 in
  let '(_, _, w1) := ack_loop 4 (udev h) len w in
  if negb (strncmp (ansbuf w1) USBS 4 =? 0) then
    (-1, fprintf InvalidReply w1)
  else
    (rd (ansbuf w1) 12, w1).

(** [wrap_scsi (h, cmd, cmdlen, out, data, block_len)]; [data] is [None]
    for a null pointer.  Returns the return code, the data buffer as the
    call leaves it, and the state. *)
Definition wrap_scsi (h : DPFContext) (cmd : list Z) (cmdlen : Z) (out : Z)
    (data : option (list Z)) (block_len : Z) (w : usb_t)
    : Z * option (list Z) * usb_t :=
  let g1 := wr (g_buf w) 14 (to_uchar cmdlen) in
  let g2 := memcpy g1 15 cmd cmdlen in
  let g3 := wr g2 8 (to_uchar block_len) in
  let g4 := wr g3 9 (to_uchar (Z.shiftr block_len 8)) in
  let g5 := wr g4 10 (to_uchar (Z.shiftr block_len 16)) in
  let g6 := wr g5 11 (to_uchar (Z.shiftr block_len 24)) in
  let w0 := with_g_buf g6 w in
  let '(ret, _, _, w1) :=
    libusb_bulk_transfer (udev h) ENDPT_OUT (g_buf w0) 31 1000 w0 in
  if negb (ret =? 0) then (ret, data, w1)
  else
    match data with
    | None =>
        let '(r, w2) := wrap_scsi_status h w1 in (r, data, w2)
    | Some d =>
        if out =? DIR_OUT then
          let '(ret, transfered, _, w2) :=
            libusb_bulk_transfer (udev h) ENDPT_OUT d (to_int block_len) 3000 w1 in
          if negb (ret =? 0) || negb (transfered =? to_int block_len) then
            (ret, data, fprintf BulkWriteError w2)
          else
            let '(r, w3) := wrap_scsi_status h w2 in (r, data, w3)
        else
          let '(ret, transfered, d', w2) :=
            libusb_bulk_transfer (udev h) ENDPT_IN d (to_int block_len) 4000 w1 in
          if negb (ret =? 0) || negb (transfered =? to_int block_len) then
            (ret, Some d', fprintf BulkReadError w2)
          else
            let '(r, w3) := wrap_scsi_status h w2 in (r, Some d', w3)
    end.

(** ** Blit dispatcher: [dpf_ax_screen_blit] *)

(** [short rect[4]]: the tuple [(x0, y0, x1, y1)]. *)
Definition rect_t : Type := Z * Z * Z * Z.

(** [unsigned long len = (rect[2] - rect[0]) * (rect[3] - rect[1]); len <<= 1;]
    The product is computed in [int] and can leave its range for shorts, so
    its wrap-around is written out before the conversion to [unsigned long]. *)
Definition blit_len (rect : rect_t) : Z :=
  let '(r0, r1, r2, r3) := rect in
  let len := to_ulong (to_int ((r2 - r0) * (r3 - r1))) in
  to_ulong (Z.shiftl len 1).

(** The assignments [cmd[6] = USBCMD_BLIT; ... cmd[15] = 0;] on [g_excmd]. *)
Definition blit_cmd (cmd : list Z) (rect : rect_t) : list Z :=
  let '(r0, r1, r2, r3) := rect in
  let cmd := wr cmd 6 (to_uchar USBCMD_BLIT) in
  let cmd := wr cmd 7 (to_uchar r0) in
  let cmd := wr cmd 8 (to_uchar (Z.shiftr r0 8)) in
  let cmd := wr cmd 9 (to_uchar r1) in
  let cmd := wr cmd 10 (to_uchar (Z.shiftr r1 8)) in
  let cmd := wr cmd 11 (to_uchar (r2 - 1)) in
  let cmd := wr cmd 12 (to_uchar (Z.shiftr (r2 - 1) 8)) in
  let cmd := wr cmd 13 (to_uchar (r3 - 1)) in
  let cmd := wr cmd 14 (to_uchar (Z.shiftr (r3 - 1) 8)) in
  wr cmd 15 0.

(** [void dpf_ax_screen_blit (h, buf, rect)]: the function is [void], the
    value of [wrap_scsi] is dropped. *)
Definition dpf_ax_screen_blit (h : DPFContext) (buf : list Z) (rect : rect_t)
    (w : usb_t) : unit * usb_t :=
  let len := blit_len rect in
  let cmd := blit_cmd (g_excmd w) rect in
  let w1 := with_g_excmd cmd w in
  let '(_, _, w2) := wrap_scsi h cmd 16 DIR_OUT (Some buf) len w1 in
  (tt, w2).

(** ** The update callback: [update] *)

(** The pixel read from [cl->frameBuffer] for [(lx, ly)]; [pixel.A] is never
    assigned, and never read. *)
Definition fb_pixel (fb : list Z) (s : dpf_t) (lx ly : Z) : RGBA :=
  {| R := rd fb ((ly * pwidth s + lx) * 4);
     G := rd fb ((ly * pwidth s + lx) * 4 + 1);
     B := rd fb ((ly * pwidth s + lx) * 4 + 2);
     A := 0 |}.

(** [for (lx = x; lx < x + w; lx++) drv_set_pixel (lx, ly, pixel);] *)
Definition update_row (fb : list Z) (x w ly : Z) (s : dpf_t) : dpf_t :=
  fold_left (fun s lx => drv_set_pixel lx ly (fb_pixel fb s lx ly) s) (seqZ x w) s.

(** [for (ly = y; ly < y + h; ly++) ...] *)
Definition update_pixels (fb : list Z) (x y w h : Z) (s : dpf_t) : dpf_t :=
  fold_left (fun s ly => update_row fb x w ly s) (seqZ y h) s.

(** The copy of the dirty rectangle into [xferBuf]:
[[
    for (ly = dpf.miny; ly <= dpf.maxy; ly++) {
        memcpy (pd, ps, cpylength); ps += dpf.pwidth * DPF_BPP; pd += cpylength; }
]]
    [ps] and [pd] are offsets into [lcdBuf] and [xferBuf]. *)
Definition copy_rows (s : dpf_t) : list Z :=
  let cpylength := to_uint ((maxx s - minx s + 1) * DPF_BPP) in
  let ps0 := (miny s * pwidth s + minx s) * DPF_BPP in
  let step (acc : Z * Z * list Z) (_ : Z) :=
    let '(ps, pd, xfer) := acc in
    (ps + pwidth s * DPF_BPP, pd + cpylength,
     memcpy xfer pd (drop (Z.to_nat ps) (lcdBuf s)) cpylength) in
  snd (fold_left step (seqZ (miny s) (maxy s - miny s + 1)) (ps0, 0, xferBuf s)).

(** The tail of [update], from the comment [If nothing has changed, skip
    transfer] on: the flush of the dirty rectangle. *)
Definition update_flush (s : dpf_t) (w : usb_t) : dpf_t * usb_t :=
  if (minx s >? maxx s) || (miny s >? maxy s) then (s, w)
  else
    let s1 := with_xferBuf (copy_rows s) s in
    let rect : rect_t :=
      (to_short (minx s1), to_short (miny s1),
       to_short (maxx s1 + 1), to_short (maxy s1 + 1)) in
    let '(_, w1) := dpf_ax_screen_blit (dpfh s1) (xferBuf s1) rect w in
    (with_rect (pwidth s1 - 1) 0 (pheight s1 - 1) 0 s1, w1).

(** [update (cl, x, y, w, h)], with [fb] the client's frame buffer. *)
Definition update (fb : list Z) (x y w h : Z) (s : dpf_t) (u : usb_t)
    : dpf_t * usb_t :=
  update_flush (update_pixels fb x y w h s) u.

(** ** Start-up *)

(** [dpf_ax_open] once the device is found, opened and claimed (from
    [dpf->udev = u] on): the query of the LCD parameters.  [None] is the
    null handle. *)
Definition get_parameters_cmd : list Z :=
  [205; 0; 0; 0; 0; 2; 0; 0; 0; 0; 0; 0; 0; 0; 0; 0].

Definition dpf_ax_open_query (u : Z) (w : usb_t) : option DPFContext * usb_t :=
  let dpf := {| udev := u; width := 0; height := 0 |} in
  let buf := replicate 5 0 in
  let '(r, buf', w1) := wrap_scsi dpf get_parameters_cmd 16 DIR_IN (Some buf) 5 w in
  if r =? 0 then
    let b := default buf buf' in
    (Some {| udev := u;
             width := to_uint (Z.lor (rd b 0) (Z.shiftl (rd b 1) 8));
             height := to_uint (Z.lor (rd b 2) (Z.shiftl (rd b 3) 8)) |}, w1)
  else (None, w1).

(** The state [main] sets up after [dpf_ax_open] has returned [h]:
[[
    dpf.pwidth = 480; dpf.pheight = 320;
    dpf.lcdBuf = malloc (..); dpf.xferBuf = malloc (..); memset (dpf.lcdBuf, 0, ..);
    dpf.minx = 0; dpf.maxx = dpf.pwidth - 1; dpf.miny = 0; dpf.maxy = dpf.pheight - 1;
    DROWS = dpf.pheight; DCOLS = dpf.pwidth;
]]
    [heap] is what [malloc] leaves in [xferBuf]. *)
Definition main_init (h : DPFContext) (heap : list Z) : dpf_t :=
  let pw := 480 in
  let ph := 320 in
  let size := Z.to_nat (pw * ph * DPF_BPP) in
  {| lcdBuf := replicate size 0;
     xferBuf := resize size 0 heap;
     dpfh := h;
     pwidth := pw; pheight := ph;
     minx := 0; maxx := pw - 1; miny := 0; maxy := ph - 1;
     backlight := 0;
     DROWS := ph; DCOLS := pw;
     errlog := [] |}.

(** ** Concrete inputs *)

Definition red : RGBA := {| R := 255; G := 0; B := 0; A := 255 |}.
Definition green : RGBA := {| R := 0; G := 255; B := 0; A := 255 |}.
Definition black : RGBA := {| R := 0; G := 0; B := 0; A := 255 |}.

(** A reply that completes a transfer of [n] bytes. *)
Definition ok_reply (n : Z) (d : list Z) : bulk_reply :=
  {| br_ret := 0; br_transferred := n; br_data := d |}.

(** The status block a device sends for return code [rc]. *)
Definition csw (rc : Z) : list Z := [85; 83; 66; 83; 0; 0; 0; 0; 0; 0; 0; 0; rc].

Definition h0 : DPFContext := {| udev := 7; width := 480; height := 320 |}.

(** [main_init], then a first [update] of nothing that flushes the whole
    panel. *)
Definition flushed : dpf_t * usb_t :=
  update [] 0 0 0 0 (main_init h0 [])
    (usb_init [ok_reply 31 []; ok_reply 307200 []; ok_reply 13 (csw 0)]).

(** ** Vocabulary of the specification *)

(** The invariant [main] establishes: a 480x320 panel, a logical canvas of
    the same size, and a resident buffer of two bytes per pixel. *)
Definition panel_ok (s : dpf_t) : Prop :=
  pwidth s = 480 /\ pheight s = 320 /\ DCOLS s = 480 /\ DROWS s = 320 /\
  Z.of_nat (length (lcdBuf s)) = 307200.

(** A coordinate inside the panel. *)
Definition in_panel (s : dpf_t) (c : Z * Z) : Prop :=
  0 <= c.1 < pwidth s /\ 0 <= c.2 < pheight s.

(** The two bytes the resident buffer holds for the pixel at [c]. *)
Definition stored (s : dpf_t) (c : Z * Z) : list Z :=
  let i := (c.2 * pwidth s + c.1) * DPF_BPP in
  [rd (lcdBuf s) i; rd (lcdBuf s) (i + 1)].

(** A sequence of [drv_set_pixel] calls, first call first. *)
Definition set_pixels (cs : list (Z * Z * RGBA)) (s : dpf_t) : dpf_t :=
  fold_left (fun s c => drv_set_pixel c.1.1 c.1.2 c.2 s) cs s.

Definition coords (cs : list (Z * Z * RGBA)) : list (Z * Z) := map fst cs.

(** A call whose colour differs from the one [s] stores for its pixel, and
    the calls of a sequence that are such. *)
Definition changes (s : dpf_t) (c : Z * Z * RGBA) : bool :=
  negb (bool_decide (convert c.2 = stored s c.1)).

Definition changing (s : dpf_t) (cs : list (Z * Z * RGBA)) : list (Z * Z * RGBA) :=
  List.filter (changes s) cs.

(** The empty rectangle a flush leaves behind. *)
Definition reset_rect (s : dpf_t) : Z * Z * Z * Z :=
  (pwidth s - 1, 0, pheight s - 1, 0).

(** [r = (minx, maxx, miny, maxy)] is the tight bounding box of the
    coordinates [cs]: it contains all of them and each of its four sides
    touches one of them. *)
Definition tight_bbox (cs : list (Z * Z)) (r : Z * Z * Z * Z) : Prop :=
  let '(x0, x1, y0, y1) := r in
  (forall c, In c cs -> x0 <= c.1 <= x1 /\ y0 <= c.2 <= y1) /\
  (exists c, In c cs /\ c.1 = x0) /\ (exists c, In c cs /\ c.1 = x1) /\
  (exists c, In c cs /\ c.2 = y0) /\ (exists c, In c cs /\ c.2 = y1).

(** The bounding box computed: minimum and maximum of each coordinate. *)
Definition bbox_of (cs : list (Z * Z)) : option (Z * Z * Z * Z) :=
  match cs with
  | [] => None
  | (x, y) :: r =>
      Some (foldr Z.min x (map fst r), foldr Z.max x (map fst r),
            foldr Z.min y (map snd r), foldr Z.max y (map snd r))
  end.

(** The 16-bit little-endian encoding of [v] (two's complement). *)
Definition le16 (v : Z) : list Z := [v mod 65536 mod 256; v mod 65536 / 256].

(** The fixed first six bytes of [g_excmd]. *)
Definition excmd_header : list Z := [205; 0; 0; 0; 0; 6].

(** The static [g_excmd] is 16 bytes long and starts with its header. *)
Definition excmd_ok (w : usb_t) : Prop :=
  exists t, g_excmd w = excmd_header ++ t /\ length t = 10%nat.

(** A status read that [wrap_scsi] takes as failed: a transport error or a
    transfer of other than 13 bytes. *)
Definition status_failed (r : bulk_reply) : Prop :=
  br_ret r <> 0 \/ br_transferred r <> 13.

(** The replies under which the data phase of [wrap_scsi] completes: none
    when there is no buffer, one full transfer otherwise. *)
Definition data_phase_ok (data : option (list Z)) (block_len : Z)
    (rs : list bulk_reply) : Prop :=
  match data with
  | None => rs = []
  | Some _ =>
      exists r, rs = [r] /\ br_ret r = 0 /\ br_transferred r = to_int block_len
  end.

(** The signature of a status block. *)
Definition signature : list Z := [85; 83; 66; 83].

(** The reset state of the panel of [main]: everything black, nothing dirty. *)
Definition idle : dpf_t := with_rect 479 0 319 0 (main_init h0 []).

(** The state of the transport after a first command the device accepted
    with return code 0. *)
Definition after_one_command : usb_t :=
  snd (wrap_scsi h0 get_parameters_cmd 16 DIR_IN (Some (replicate 5 0)) 5
         (usb_init [ok_reply 31 []; ok_reply 5 [224; 1; 64; 1; 0];
                    ok_reply 13 (csw 0)])).

(** ** Device locator: [dpf_ax_open] and [dpf_ax_close]

    libusb is the environment here too.  The bus says what [libusb_init]
    and [libusb_get_device_list] return and, for each device, what its
    descriptor holds and what [libusb_get_device_descriptor], [libusb_open]
    and [libusb_claim_interface] return for it.  Every libusb call that
    acquires or releases something, and [malloc] and [free] of the context,
    is recorded as an event; the lines written with [ErrorLog] and
    [DefaultLog] are recorded as messages. *)

Definition AX206_VID : Z := 6408.
Definition AX206_PID : Z := 258.

Record usb_device := {
  ud_desc_ret : Z;
  ud_vendor : Z;
  ud_product : Z;
  ud_open_ret : Z;
  ud_handle : Z;
  ud_claim_ret : Z
}.

Inductive bus_event :=
| EvInit
| EvExit
| EvGetList
| EvFreeList
| EvMalloc
| EvFree
| EvOpen (ret u : Z)
| EvClaim (u ret : Z)
| EvRelease (u : Z)
| EvClose (u : Z).

Inductive open_msg :=
| WrongDevice
| InitFailed (r : Z)
| ListFailed (r : Z)
| DescriptorFailed
| FoundAX206 (n : Z)
| NoMatch
| AllocFailed
| OpenFailed
| ClaimFailed (r : Z)
| GotDimensions (w h : Z)
| ReadDimensionsFailed.

(** [bus_list] is [None] when [libusb_get_device_list] returns a negative
    count; [bus_malloc_ok] says whether [malloc] returns a block. *)
Record bus_t := {
  bus_init_ret : Z;
  bus_list : option (list usb_device);
  bus_malloc_ok : bool;
  bus_events : list bus_event;
  bus_log : list open_msg
}.

Definition bus_event_add (e : bus_event) (b : bus_t) : bus_t :=
  {| bus_init_ret := bus_init_ret b; bus_list := bus_list b;
     bus_malloc_ok := bus_malloc_ok b;
     bus_events := bus_events b ++ [e]; bus_log := bus_log b |}.

Definition bus_log_add (m : open_msg) (b : bus_t) : bus_t :=
  {| bus_init_ret := bus_init_ret b; bus_list := bus_list b;
     bus_malloc_ok := bus_malloc_ok b;
     bus_events := bus_events b; bus_log := bus_log b ++ [m] |}.

Definition bus_log_set (l : list open_msg) (b : bus_t) : bus_t :=
  {| bus_init_ret := bus_init_ret b; bus_list := bus_list b;
     bus_malloc_ok := bus_malloc_ok b;
     bus_events := bus_events b; bus_log := l |}.

(** [strlen]: the number of characters before the first NUL; a list that
    ends without one is followed by the terminator. *)
Fixpoint strlen (s : list Z) : Z :=
  match s with
  | [] => 0
  | c :: r => if c =? 0 then 0 else 1 + strlen r
  end.

(** The string literals ["usb"] and ["dpf"]. *)
Definition str_usb : list Z := [117; 115; 98; 0].
Definition str_dpf : list Z := [100; 112; 102; 0].

(** The index [dpf_ax_open] reads from its argument; [None] is the null
    pointer.
[[
    int index = -1;
    if (dev && strlen (dev) == 4 &&
        (strncmp (dev, "usb", 3) == 0 || strncmp (dev, "dpf", 3) == 0))
        index = dev[3] - '0';
]] *)
Definition selector_index (dev : option (list Z)) : Z :=
  match dev with
  | None => -1
  | Some s =>
      if (strlen s =? 4) &&
         ((strncmp s str_usb 3 =? 0) || (strncmp s str_dpf 3 =? 0))
      then rd s 3 - 48
      else -1
  end.

Inductive scan_result :=
| ScanFailed
| ScanFound (d : usb_device)
| ScanNone.

(** The loop over the device list:
[[
    for (i = 0; devs[i]; i++) {
        r = libusb_get_device_descriptor (devs[i], &desc);
        if (r < 0) { ErrorLog (..); return NULL; }
        if ((desc.idVendor == AX206_VID) && (desc.idProduct == AX206_PID)) {
            DefaultLog (.., enumeration + 1);
            if (enumeration == index) { d = devs[i]; break; } else { enumeration++; }
        }
    }
]] *)
Fixpoint scan_devices (devs : list usb_device) (index enumeration : Z)
    (log : list open_msg) : scan_result * list open_msg :=
  match devs with
  | [] => (ScanNone, log)
  | dv :: rest =>
      if ud_desc_ret dv <? 0 then (ScanFailed, log ++ [DescriptorFailed])
      else if (ud_vendor dv =? AX206_VID) && (ud_product dv =? AX206_PID) then
        let log1 := log ++ [FoundAX206 (enumeration + 1)] in
        if enumeration =? index then (ScanFound dv, log1)
        else scan_devices rest index (enumeration + 1) log1
      else scan_devices rest index enumeration log
  end.

(** [dpf_ax_close (h)]. *)
Definition dpf_ax_close (h : DPFContext) (b : bus_t) : bus_t :=
  bus_event_add EvFree
    (bus_event_add (EvClose (udev h)) (bus_event_add (EvRelease (udev h)) b)).

(** [dpf_ax_open (dev)]; the query of the LCD parameters at its end is
    [dpf_ax_open_query]. *)
Definition dpf_ax_open (dev : option (list Z)) (b : bus_t) (w : usb_t)
    : option DPFContext * bus_t * usb_t :=
  let index := selector_index dev in
  if (index <? 0) || (index >? 9) then (None, bus_log_add WrongDevice b, w)
  else
    let b := bus_event_add EvInit b in
    let r := bus_init_ret b in
    if r <? 0 then (None, bus_log_add (InitFailed r) b, w)
    else
      let b := bus_event_add EvGetList b in
      match bus_list b with
      | None => (None, bus_log_add (ListFailed r) (bus_event_add EvExit b), w)
      | Some devs =>
          let '(found, log) := scan_devices devs index 0 (bus_log b) in
          let b := bus_log_set log b in
          match found with
          | ScanFailed => (None, b, w)
          | ScanNone => (None, bus_log_add NoMatch b, w)
          | ScanFound d =>
              let b := bus_event_add EvMalloc b in
              if negb (bus_malloc_ok b) then (None, bus_log_add AllocFailed b, w)
              else
                let r := ud_open_ret d in
                let u := ud_handle d in
                let b := bus_event_add (EvOpen r u) b in
                if negb (r =? 0) || (u =? 0) then
                  (None, bus_event_add EvFree (bus_log_add OpenFailed b), w)
                else
                  let b := bus_event_add EvFreeList b in
                  let r := ud_claim_ret d in
                  let b := bus_event_add (EvClaim u r) b in
                  if r <? 0 then
                    (None,
                     bus_event_add EvFree
                       (bus_event_add (EvClose u) (bus_log_add (ClaimFailed r) b)),
                     w)
                  else
                    match dpf_ax_open_query u w with
                    | (Some h, w1) =>
                        (Some h, bus_log_add (GotDimensions (width h) (height h)) b, w1)
                    | (None, w1) =>
                        (None,
                         dpf_ax_close {| udev := u; width := 0; height := 0 |}
                           (bus_log_add ReadDimensionsFailed b),
                         w1)
                    end
          end
      end.

(** ** Further vocabulary *)

(** The 32-bit little-endian encoding of the low 32 bits of [v]. *)
Definition le32 (v : Z) : list Z :=
  [v mod 256; v / 256 mod 256; v / 65536 mod 256; v / 16777216 mod 256].

(** Signature and tag of the command block wrapper. *)
Definition cbw_header : list Z := [85; 83; 66; 67; 222; 173; 190; 239].

(** The static [g_buf] keeps its layout: signature, tag, four length bytes,
    zero flags and LUN, a command length and 16 command bytes. *)
Definition gbuf_ok (w : usb_t) : Prop :=
  exists l4 c t,
    g_buf w = cbw_header ++ l4 ++ [0; 0; c] ++ t /\
    length l4 = 4%nat /\ length t = 16%nat.

(** The 31-byte wrapper of a 16-byte command. *)
Definition envelope (cmd : list Z) (block_len : Z) : list Z :=
  cbw_header ++ le32 block_len ++ [0; 0; 16] ++ cmd.

(** The three kinds of bulk transfer [wrap_scsi] issues. *)
Definition envelope_call (h : DPFContext) (cmd : list Z) (block_len : Z) : bulk_call :=
  {| bc_dev := udev h; bc_endpoint := ENDPT_OUT; bc_bytes := envelope cmd block_len;
     bc_length := 31; bc_timeout := 1000 |}.

Definition data_call (h : DPFContext) (out : Z) (d : list Z) (block_len : Z) : bulk_call :=
  if out =? DIR_OUT then
    {| bc_dev := udev h; bc_endpoint := ENDPT_OUT;
       bc_bytes := take (Z.to_nat (to_int block_len)) d;
       bc_length := to_int block_len; bc_timeout := 3000 |}
  else
    {| bc_dev := udev h; bc_endpoint := ENDPT_IN; bc_bytes := [];
       bc_length := to_int block_len; bc_timeout := 4000 |}.

Definition status_call (dev : Z) : bulk_call :=
  {| bc_dev := dev; bc_endpoint := ENDPT_IN; bc_bytes := [];
     bc_length := 13; bc_timeout := 5000 |}.

(** The dirty rectangle lies inside the panel, field by field. *)
Definition rect_in_panel (s : dpf_t) : Prop :=
  0 <= minx s < pwidth s /\ 0 <= maxx s < pwidth s /\
  0 <= miny s < pheight s /\ 0 <= maxy s < pheight s.

(** The invariant of a session: the panel of [main], a rectangle inside it,
    and a transfer buffer of the size of the panel. *)
Definition driver_inv (s : dpf_t) : Prop :=
  panel_ok s /\ rect_in_panel s /\ Z.of_nat (length (xferBuf s)) = 307200.

(** The coordinate [c] lies inside the dirty rectangle. *)
Definition inside_dirty (s : dpf_t) (c : Z * Z) : Prop :=
  minx s <= c.1 <= maxx s /\ miny s <= c.2 <= maxy s.

(** The coordinate [c] lies in the region [x, x + w) x [y, y + h). *)
Definition in_region (x y w h : Z) (c : Z * Z) : Prop :=
  x <= c.1 < x + w /\ y <= c.2 < y + h.

(** The characters of a C string: those before the first NUL. *)
Fixpoint c_string (s : list Z) : list Z :=
  match s with
  | [] => []
  | c :: r => if c =? 0 then [] else c :: c_string r
  end.

(** A device with the identity of the AX206. *)
Definition is_ax206 (d : usb_device) : bool :=
  (ud_vendor d =? AX206_VID) && (ud_product d =? AX206_PID).

(** A handle that was opened and not closed again. *)
Definition handle_leaked (events : list bus_event) (u : Z) : Prop :=
  In (EvOpen 0 u) events /\ ~ In (EvClose u) events.

(** A selector [dpf_ax_open] accepts: the C string is ["usb"] or ["dpf"]
    followed by one decimal digit [d]. *)
Definition selector_of (s : list Z) (d : Z) : Prop :=
  c_string s = [117; 115; 98; d] \/ c_string s = [100; 112; 102; d].

Definition valid_selector (dev : option (list Z)) : Prop :=
  exists s d, dev = Some s /\ 48 <= d <= 57 /\ selector_of s d.

(** The devices of the bus with the identity of the AX206, in bus order. *)
Definition ax206_devices (devs : list usb_device) : list usb_device :=
  List.filter is_ax206 devs.

(** A bus on which [libusb_init] and [libusb_get_device_list] succeed and
    every descriptor can be read. *)
Definition bus_readable (b : bus_t) (devs : list usb_device) : Prop :=
  0 <= bus_init_ret b /\ bus_list b = Some devs /\
  Forall (fun d => 0 <= ud_desc_ret d) devs.

(** Concrete buses: one without devices, and one with a mouse and two
    AX206 frames that open and claim without error. *)
Definition quiet_bus : bus_t :=
  {| bus_init_ret := 0; bus_list := Some []; bus_malloc_ok := true;
     bus_events := []; bus_log := [] |}.

Definition frame (u : Z) : usb_device :=
  {| ud_desc_ret := 0; ud_vendor := AX206_VID; ud_product := AX206_PID;
     ud_open_ret := 0; ud_handle := u; ud_claim_ret := 0 |}.

Definition mouse : usb_device :=
  {| ud_desc_ret := 0; ud_vendor := 1133; ud_product := 49271;
     ud_open_ret := 0; ud_handle := 3; ud_claim_ret := 0 |}.

Definition two_frames : bus_t :=
  {| bus_init_ret := 0; bus_list := Some [frame 11; mouse; frame 12];
     bus_malloc_ok := true; bus_events := []; bus_log := [] |}.
(** ** Sanity checks on concrete inputs *)

Example convert_red : convert red = [248; 0].
Proof. reflexivity. Qed.

Example convert_green : convert green = [7; 224].
Proof. reflexivity. Qed.

Example flushed_dirty : dirty (fst flushed) = (479, 0, 319, 0).
Proof. vm_compute. reflexivity. Qed.

Example scenario_two_pixels :
  let s := drv_set_pixel 20 20 green (drv_set_pixel 10 10 red (fst flushed)) in
  let '(s', w') :=
    update_flush s (usb_init [ok_reply 31 []; ok_reply 242 []; ok_reply 13 (csw 0)]) in
  dirty s = (10, 20, 10, 20) /\
  map bc_length (issued w') = [31; 242; 13] /\
  (bc_bytes <$> issued w' !! 0%nat) =
    Some ([85; 83; 66; 67; 222; 173; 190; 239; 242; 0; 0; 0; 0; 0; 16] ++
          [205; 0; 0; 0; 0; 6; 18; 10; 0; 10; 0; 20; 0; 20; 0; 0]) /\
  dirty s' = (479, 0, 319, 0).
Proof. vm_compute. repeat split; reflexivity. Qed.

(** The state [idle] is what the first flush leaves of [main]'s state, up
    to the contents of the transfer buffer. *)
Example flushed_idle :
  lcdBuf (fst flushed) = lcdBuf idle /\
  dirty (fst flushed) = dirty idle /\
  map bc_length (issued (snd flushed)) = [31; 307200; 13].
Proof.
  split; [apply (bool_decide_unpack _); vm_compute; exact I |].
  split; vm_compute; reflexivity.
Qed.

Example strncmp_short : strncmp [85; 83; 0; 1] USBS 4 = -66.
Proof. reflexivity. Qed.

Example le16_minus_one : le16 (-1) = [255; 255].
Proof. reflexivity. Qed.

Example blit_len_inverted : blit_len (1, 0, 0, 1) = 18446744073709551614.
Proof. reflexivity. Qed.

(** ** Pixel converter *)

Lemma byte_bit_cases (i : Z) :
  0 <= i < 8 -> i = 0 \/ i = 1 \/ i = 2 \/ i = 3 \/ i = 4 \/ i = 5 \/ i = 6 \/ i = 7.
Proof. lia. Qed.

Lemma to_uchar_range (z : Z) : 0 <= to_uchar z < 256.
Proof. unfold to_uchar. apply Z.mod_pos_bound. lia. Qed.

Lemma to_uchar_bit (z i : Z) : 0 <= i < 8 -> Z.testbit (to_uchar z) i = Z.testbit z i.
Proof.
  intros Hi. unfold to_uchar. change 256 with (2 ^ 8).
  apply Z.mod_pow2_bits_low. lia.
Qed.

Lemma RGB565_0_bit (p : RGBA) (i : Z) :
  0 <= i < 8 ->
  Z.testbit (RGB565_0 p) i =
    if i <? 3 then Z.testbit (G p) (i + 5) else Z.testbit (R p) i.
Proof.
  intros Hi. unfold RGB565_0.
  rewrite Z.lor_spec, Z.land_spec, Z.shiftr_spec, Z.land_spec by lia.
  destruct (byte_bit_cases i Hi) as [-> | [-> | [-> | [-> | [-> | [-> | [-> | ->]]]]]]];
    cbn; rewrite ?andb_true_r, ?andb_false_r, ?orb_false_r, ?orb_false_l;
    reflexivity.
Qed.

Lemma RGB565_1_bit (p : RGBA) (i : Z) :
  0 <= i < 8 ->
  Z.testbit (RGB565_1 p) i =
    if i <? 5 then Z.testbit (B p) (i + 3) else Z.testbit (G p) (i - 3).
Proof.
  intros Hi. unfold RGB565_1.
  rewrite Z.lor_spec, Z.shiftr_spec, Z.land_spec by lia.
  destruct (byte_bit_cases i Hi) as [-> | [-> | [-> | [-> | [-> | [-> | [-> | ->]]]]]]];
    rewrite ?Z.shiftl_spec, ?Z.land_spec by lia;
    cbn; rewrite ?andb_true_r, ?andb_false_r, ?orb_false_r, ?orb_false_l;
    reflexivity.
Qed.

(** C9.  [convert] is a function of the pixel that returns exactly two
    bytes.  Bits 7..3 of byte 0 are bits 7..3 of R (its top five bits) and
    bits 2..0 are bits 7..5 of G (its top three bits); bits 7..5 of byte 1
    are bits 4..2 of G (its next three bits) and bits 4..0 are bits 7..3 of
    B (its top five bits).  The alpha component has no influence. *)
Theorem convert_rgb565 (r g b a : Z) :
  exists b0 b1,
    convert {| R := r; G := g; B := b; A := a |} = [b0; b1] /\
    is_uchar b0 /\ is_uchar b1 /\
    (forall i, 3 <= i < 8 -> Z.testbit b0 i = Z.testbit r i) /\
    (forall i, 0 <= i < 3 -> Z.testbit b0 i = Z.testbit g (i + 5)) /\
    (forall i, 5 <= i < 8 -> Z.testbit b1 i = Z.testbit g (i - 3)) /\
    (forall i, 0 <= i < 5 -> Z.testbit b1 i = Z.testbit b (i + 3)) /\
    (forall a', convert {| R := r; G := g; B := b; A := a' |} = [b0; b1]).
Proof.
  eexists _, _. split; [reflexivity |].
  split; [apply to_uchar_range |]. split; [apply to_uchar_range |].
  repeat split; intros i Hi.
  - rewrite to_uchar_bit, RGB565_0_bit by lia. cbn [R G].
    destruct (Z.ltb_spec i 3); [lia | reflexivity].
  - rewrite to_uchar_bit, RGB565_0_bit by lia. cbn [R G].
    destruct (Z.ltb_spec i 3); [reflexivity | lia].
  - rewrite to_uchar_bit, RGB565_1_bit by lia. cbn [B G].
    destruct (Z.ltb_spec i 5); [lia | reflexivity].
  - rewrite to_uchar_bit, RGB565_1_bit by lia. cbn [B G].
    destruct (Z.ltb_spec i 5); [reflexivity | lia].
Qed.

(** ** Dirty-rectangle tracker *)

(** The bounds check of [drv_set_pixel], both ways. *)
Lemma drv_set_pixel_outside (x y : Z) (pix : RGBA) (s : dpf_t) :
  ~ (0 <= Z.rem x (DCOLS s) < pwidth s /\ 0 <= Z.rem y (DROWS s) < pheight s) ->
  drv_set_pixel x y pix s =
    ErrorLog (OutOfBounds x y (Z.rem x (DCOLS s)) (Z.rem y (DROWS s))) s.
Proof.
  intros Hout. unfold drv_set_pixel.
  destruct (Z.ltb_spec (Z.rem x (DCOLS s)) 0); [reflexivity |].
  destruct (Z.geb_spec (Z.rem x (DCOLS s)) (pwidth s)); [reflexivity |].
  destruct (Z.ltb_spec (Z.rem y (DROWS s)) 0); [reflexivity |].
  destruct (Z.geb_spec (Z.rem y (DROWS s)) (pheight s)); [reflexivity |].
  exfalso. apply Hout. lia.
Qed.

Lemma drv_set_pixel_inside (x y : Z) (pix : RGBA) (s : dpf_t) :
  0 <= Z.rem x (DCOLS s) < pwidth s /\ 0 <= Z.rem y (DROWS s) < pheight s ->
  errlog (drv_set_pixel x y pix s) = errlog s.
Proof.
  intros [Hx Hy]. unfold drv_set_pixel.
  destruct (Z.ltb_spec (Z.rem x (DCOLS s)) 0); [lia |].
  destruct (Z.geb_spec (Z.rem x (DCOLS s)) (pwidth s)); [lia |].
  destruct (Z.ltb_spec (Z.rem y (DROWS s)) 0); [lia |].
  destruct (Z.geb_spec (Z.rem y (DROWS s)) (pheight s)); [lia |].
  cbn [orb]. destruct (_ || _); reflexivity.
Qed.

(** [drv_set_pixel] never touches the dimensions, the handle or the
    transfer buffer, and keeps the size of the resident buffer. *)
Lemma drv_set_pixel_fields (x y : Z) (pix : RGBA) (s : dpf_t) :
  let s' := drv_set_pixel x y pix s in
  pwidth s' = pwidth s /\ pheight s' = pheight s /\
  DCOLS s' = DCOLS s /\ DROWS s' = DROWS s /\
  dpfh s' = dpfh s /\ xferBuf s' = xferBuf s /\
  length (lcdBuf s') = length (lcdBuf s).
Proof.
  unfold drv_set_pixel.
  destruct (_ || _); [cbn; repeat split |].
  destruct (_ || _); cbn; unfold wr; rewrite ?length_insert; repeat split.
Qed.

(** C7.  When the coordinates reduced modulo the logical canvas fall outside
    the panel, [drv_set_pixel] only logs the diagnostic: the resident
    buffer, the transfer buffer, the dirty rectangle and every other field
    of the driver are as before, and the call returns normally (the function
    is total and has no result to report a failure with). *)
Theorem drv_set_pixel_out_of_bounds (x y : Z) (pix : RGBA) (s : dpf_t) :
  let lx := Z.rem x (DCOLS s) in
  let ly := Z.rem y (DROWS s) in
  ~ (0 <= lx < pwidth s /\ 0 <= ly < pheight s) ->
  drv_set_pixel x y pix s = ErrorLog (OutOfBounds x y lx ly) s /\
  lcdBuf (drv_set_pixel x y pix s) = lcdBuf s /\
  xferBuf (drv_set_pixel x y pix s) = xferBuf s /\
  dirty (drv_set_pixel x y pix s) = dirty s /\
  errlog (drv_set_pixel x y pix s) = errlog s ++ [OutOfBounds x y lx ly].
Proof.
  intros lx ly Hout.
  rewrite (drv_set_pixel_outside x y pix s Hout). repeat split.
Qed.

Lemma drv_set_pixel_out_of_bounds_witness :
  drv_set_pixel (-1) 5 red idle = ErrorLog (OutOfBounds (-1) 5 (-1) 5) idle.
Proof.
  apply (drv_set_pixel_out_of_bounds (-1) 5 red idle).
  vm_compute. intros [[H _] _]. apply H. reflexivity.
Defined.

(** C10.  With an empty dirty rectangle the flush returns at once: no bulk
    transfer is issued, no reply of the device is consumed, and the driver
    state (resident buffer, transfer buffer, dirty rectangle) and the
    statics of the transport are unchanged. *)
Theorem update_flush_empty (s : dpf_t) (w : usb_t) :
  minx s > maxx s \/ miny s > maxy s ->
  update_flush s w = (s, w) /\
  issued (snd (update_flush s w)) = issued w /\
  pending (snd (update_flush s w)) = pending w /\
  lcdBuf (fst (update_flush s w)) = lcdBuf s /\
  xferBuf (fst (update_flush s w)) = xferBuf s /\
  dirty (fst (update_flush s w)) = dirty s.
Proof.
  intros Hempty.
  assert (E : update_flush s w = (s, w)).
  { unfold update_flush.
    destruct (Z.gtb_spec (minx s) (maxx s)); [reflexivity |].
    destruct (Z.gtb_spec (miny s) (maxy s)); [reflexivity |].
    lia. }
  rewrite E. repeat split.
Qed.

Lemma update_flush_empty_witness :
  update_flush idle (usb_init []) = (idle, usb_init []).
Proof.
  apply (update_flush_empty idle (usb_init [])).
  left. vm_compute. reflexivity.
Defined.

Lemma update_flush_nonempty (s : dpf_t) (w : usb_t) :
  minx s <= maxx s -> miny s <= maxy s ->
  update_flush s w =
    (with_rect (pwidth s - 1) 0 (pheight s - 1) 0 (with_xferBuf (copy_rows s) s),
     snd (dpf_ax_screen_blit (dpfh s) (copy_rows s)
            (to_short (minx s), to_short (miny s),
             to_short (maxx s + 1), to_short (maxy s + 1)) w)).
Proof.
  intros Hx Hy. unfold update_flush.
  destruct (Z.gtb_spec (minx s) (maxx s)); [lia |].
  destruct (Z.gtb_spec (miny s) (maxy s)); [lia |].
  cbn [orb with_xferBuf xferBuf dpfh minx maxx miny maxy pwidth pheight].
  destruct (dpf_ax_screen_blit _ _ _ _) as [u w1]. reflexivity.
Qed.

(** C3.  A flush of a non-empty dirty rectangle leaves the rectangle empty
    ([minx > maxx]) whatever the device answers, that is whether the blit
    went through or not; a flush that follows immediately has nothing to
    send, so the changes of a failed transfer are not sent again.  The panel
    is more than one pixel wide ([main] makes it 480). *)
Theorem update_flush_resets (s : dpf_t) (w : usb_t) :
  minx s <= maxx s -> miny s <= maxy s -> 1 < pwidth s ->
  let s' := fst (update_flush s w) in
  minx s' > maxx s' /\
  dirty s' = reset_rect s /\
  forall w', update_flush s' w' = (s', w').
Proof.
  intros Hx Hy Hw s'.
  assert (E : dirty s' = reset_rect s).
  { unfold s'. rewrite update_flush_nonempty by assumption. reflexivity. }
  assert (Hempty : minx s' > maxx s').
  { unfold dirty, reset_rect in E. injection E as E1 E2 E3 E4. lia. }
  repeat split; [exact Hempty | exact E |].
  intros w'. unfold update_flush.
  destruct (Z.gtb_spec (minx s') (maxx s')); [reflexivity | lia].
Qed.

Lemma update_flush_resets_witness :
  let s' := fst (update_flush (drv_set_pixel 10 10 red idle) (usb_init [])) in
  minx s' > maxx s' /\ dirty s' = (479, 0, 319, 0).
Proof.
  destruct (update_flush_resets (drv_set_pixel 10 10 red idle) (usb_init []))
    as (H1 & H2 & _).
  - vm_compute. discriminate.
  - vm_compute. discriminate.
  - vm_compute. reflexivity.
  - split; [exact H1 | exact H2].
Defined.

(** ** Blit dispatcher *)

Lemma to_int_small (z : Z) : -2147483648 <= z <= 2147483647 -> to_int z = z.
Proof. intros H. unfold to_int. rewrite Z.mod_small; lia. Qed.

Lemma to_ulong_small (z : Z) : 0 <= z < 18446744073709551616 -> to_ulong z = z.
Proof. intros H. unfold to_ulong. apply Z.mod_small. lia. Qed.

Lemma to_uint_small (z : Z) : 0 <= z < 4294967296 -> to_uint z = z.
Proof. intros H. unfold to_uint. apply Z.mod_small. lia. Qed.

(** The two stores [cmd[k] = v; cmd[k + 1] = v >> 8] are the little-endian
    encoding of the low 16 bits of [v]. *)
Lemma le16_stores (v : Z) : [to_uchar v; to_uchar (Z.shiftr v 8)] = le16 v.
Proof.
  unfold le16, to_uchar. rewrite Z.shiftr_div_pow2 by lia. change (2 ^ 8) with 256.
  f_equal; [| f_equal]; Z.div_mod_to_equations; lia.
Qed.

Lemma le16_range (v : Z) : Forall is_uchar (le16 v).
Proof.
  unfold le16, is_uchar. repeat constructor; Z.div_mod_to_equations; lia.
Qed.

Lemma blit_cmd_bytes (g : list Z) (t : list Z) (x0 y0 x1 y1 : Z) :
  g = excmd_header ++ t -> length t = 10%nat ->
  blit_cmd g (x0, y0, x1, y1) =
    excmd_header ++ [USBCMD_BLIT] ++ le16 x0 ++ le16 y0 ++
    le16 (x1 - 1) ++ le16 (y1 - 1) ++ [0].
Proof.
  intros -> Ht.
  do 10 (destruct t as [| ? t]; [discriminate Ht |]).
  destruct t; [| discriminate Ht].
  pose proof (le16_stores x0) as E0. pose proof (le16_stores y0) as E1.
  pose proof (le16_stores (x1 - 1)) as E2. pose proof (le16_stores (y1 - 1)) as E3.
  unfold le16 in *.
  injection E0 as E0a E0b. injection E1 as E1a E1b.
  injection E2 as E2a E2b. injection E3 as E3a E3b.
  unfold blit_cmd, wr, excmd_header. cbn.
  rewrite E0a, E0b, E1a, E1b, E2a, E2b, E3a, E3b. reflexivity.
Qed.

Lemma blit_len_bytes (x0 y0 x1 y1 : Z) :
  0 <= (x1 - x0) * (y1 - y0) <= 2147483647 ->
  blit_len (x0, y0, x1, y1) = (x1 - x0) * (y1 - y0) * 2.
Proof.
  intros H. unfold blit_len.
  rewrite to_int_small by lia. rewrite (to_ulong_small ((x1 - x0) * (y1 - y0))) by lia.
  rewrite Z.shiftl_mul_pow2 by lia. change (2 ^ 1) with 2.
  apply to_ulong_small. lia.
Qed.

Lemma dpf_ax_screen_blit_unfold (h : DPFContext) (buf : list Z) (rect : rect_t)
    (w : usb_t) :
  dpf_ax_screen_blit h buf rect w =
    (tt, snd (wrap_scsi h (blit_cmd (g_excmd w) rect) 16 DIR_OUT (Some buf)
                (blit_len rect) (with_g_excmd (blit_cmd (g_excmd w) rect) w))).
Proof.
  unfold dpf_ax_screen_blit.
  destruct (wrap_scsi _ _ _ _ _ _ _) as [[r d] w2]. reflexivity.
Qed.

(** C8.  For a rectangle [[x0, y0, x1, y1)] with [x0 <= x1], [y0 <= y1]
    and an area that fits an [int], the command handed to
    [wrap_scsi] is the 16 bytes of [g_excmd]: its fixed header, then the
    blit opcode, then x0, y0, x1 - 1 and y1 - 1 each as 16 bits little
    endian, then a zero byte; the command length is 16, the direction is
    [DIR_OUT], the buffer is the pixel data and the length of the data phase
    is (x1 - x0) * (y1 - y0) * 2. *)
Theorem dpf_ax_screen_blit_command (h : DPFContext) (buf : list Z)
    (x0 y0 x1 y1 : Z) (w : usb_t) :
  excmd_ok w ->
  x0 <= x1 -> y0 <= y1 -> (x1 - x0) * (y1 - y0) <= 2147483647 ->
  let cmd := excmd_header ++ [USBCMD_BLIT] ++ le16 x0 ++ le16 y0 ++
             le16 (x1 - 1) ++ le16 (y1 - 1) ++ [0] in
  let len := (x1 - x0) * (y1 - y0) * 2 in
  blit_cmd (g_excmd w) (x0, y0, x1, y1) = cmd /\
  blit_len (x0, y0, x1, y1) = len /\
  dpf_ax_screen_blit h buf (x0, y0, x1, y1) w =
    (tt, snd (wrap_scsi h cmd 16 DIR_OUT (Some buf) len (with_g_excmd cmd w))).
Proof.
  intros (t & Hg & Ht) Hx Hy Harea cmd len.
  assert (Ec : blit_cmd (g_excmd w) (x0, y0, x1, y1) = cmd)
    by (apply (blit_cmd_bytes _ t); assumption).
  assert (El : blit_len (x0, y0, x1, y1) = len) by (apply blit_len_bytes; nia).
  repeat split; [exact Ec | exact El |].
  rewrite dpf_ax_screen_blit_unfold, Ec, El. reflexivity.
Qed.

Lemma excmd_ok_init (replies : list bulk_reply) : excmd_ok (usb_init replies).
Proof. exists (replicate 10 0). split; reflexivity. Qed.

Lemma dpf_ax_screen_blit_command_witness :
  blit_cmd (g_excmd (usb_init [])) (10, 10, 21, 21) =
    [205; 0; 0; 0; 0; 6; 18; 10; 0; 10; 0; 20; 0; 20; 0; 0] /\
  blit_len (10, 10, 21, 21) = 242.
Proof.
  destruct (dpf_ax_screen_blit_command h0 [] 10 10 21 21 (usb_init []))
    as (H1 & H2 & _);
    [apply excmd_ok_init | lia .. | ].
  split; [exact H1 | exact H2].
Defined.

(** C2, as the code has it.  [dpf_ax_screen_blit] is [void]: it calls
    [wrap_scsi] once, with direction [DIR_OUT], passes on the state that
    call leaves, and returns nothing; its caller gets the same value
    whatever the device answers, so neither a transport failure nor the
    return code of the peer reaches it. *)
Theorem dpf_ax_screen_blit_discards_result (h : DPFContext) (buf : list Z)
    (rect : rect_t) (w : usb_t) :
  dpf_ax_screen_blit h buf rect w =
    (tt, snd (wrap_scsi h (blit_cmd (g_excmd w) rect) 16 DIR_OUT (Some buf)
                (blit_len rect) (with_g_excmd (blit_cmd (g_excmd w) rect) w))) /\
  forall w', fst (dpf_ax_screen_blit h buf rect w') =
             fst (dpf_ax_screen_blit h buf rect w).
Proof.
  split; [apply dpf_ax_screen_blit_unfold |].
  intros w'. rewrite !dpf_ax_screen_blit_unfold. reflexivity.
Qed.

(** C2, as stated, fails: the result of the [wrap_scsi] call cannot be
    recovered from what [dpf_ax_screen_blit] returns.  The same one-pixel
    blit returns the same value to its caller when the device accepts it
    ([wrap_scsi] returns 0) and when every transfer times out ([wrap_scsi]
    returns -7). *)
Lemma dpf_ax_screen_blit_result_not_propagated :
  ~ exists decode : unit -> Z,
      forall w : usb_t,
        decode (fst (dpf_ax_screen_blit h0 [0; 0] (0, 0, 1, 1) w)) =
        fst (fst (wrap_scsi h0 (blit_cmd (g_excmd w) (0, 0, 1, 1)) 16 DIR_OUT
                    (Some [0; 0]) (blit_len (0, 0, 1, 1))
                    (with_g_excmd (blit_cmd (g_excmd w) (0, 0, 1, 1)) w))).
Proof.
  intros [decode H].
  pose proof (H (usb_init [ok_reply 31 []; ok_reply 2 []; ok_reply 13 (csw 0)])) as Hok.
  pose proof (H (usb_init [])) as Hfail.
  vm_compute in Hok, Hfail.
  rewrite Hok in Hfail. discriminate Hfail.
Qed.

(** ** Command transport *)

(** [strncmp (a, "USBS", 4)] is zero exactly when the first four bytes of
    [a] are the signature. *)
Lemma strncmp_USBS (a : list Z) : strncmp a USBS 4 = 0 <-> take 4 a = signature.
Proof.
  unfold USBS, signature.
  destruct a as [| a0 [| a1 [| a2 [| a3 t]]]]; cbn;
    repeat match goal with
           | |- context [?x =? ?y] => destruct (Z.eqb_spec x y); subst; cbn
           end;
    split; intros H; try reflexivity; try discriminate H;
    try (injection H; intros; lia); try lia.
Qed.

Lemma rd_app_l (d t : list Z) (i : Z) :
  (Z.to_nat i < length d)%nat -> rd (d ++ t) i = rd d i.
Proof. intros H. unfold rd. rewrite lookup_app_l by exact H. reflexivity. Qed.

(** One bulk transfer answered by the reply [r]. *)
Lemma libusb_bulk_transfer_reply (dev ep : Z) (buf : list Z) (len timeout : Z)
    (w : usb_t) (r : bulk_reply) (rest : list bulk_reply) :
  pending w = r :: rest ->
  exists w',
    libusb_bulk_transfer dev ep buf len timeout w =
      (br_ret r, br_transferred r,
       (if is_in_endpoint ep
        then take (Z.to_nat len) (br_data r) ++
             drop (length (take (Z.to_nat len) (br_data r))) buf
        else buf), w') /\
    pending w' = rest /\ ansbuf w' = ansbuf w /\ g_excmd w' = g_excmd w /\
    length (issued w') = S (length (issued w)).
Proof.
  intros Hp. unfold libusb_bulk_transfer. rewrite Hp. cbn [hd tl].
  eexists. split; [reflexivity |]. cbn.
  rewrite length_app. cbn. repeat split. lia.
Qed.

(** The status loop when a length-correct read arrives after at most
    [more] failed ones: it stops there with [ansbuf] holding the block. *)
Lemma ack_loop_reply (fails : list bulk_reply) :
  forall (more : nat) (dev : Z) (w : usb_t) (d : list Z) (rest : list bulk_reply),
    (length fails <= more)%nat ->
    Forall status_failed fails ->
    pending w = fails ++ ok_reply 13 d :: rest ->
    length d = 13%nat ->
    exists w',
      ack_loop more dev 13 w = (0, false, w') /\
      pending w' = rest /\ (exists t, ansbuf w' = d ++ t) /\
      length (issued w') = (length (issued w) + length fails + 1)%nat.
Proof.
  induction fails as [| f fails IH]; intros more dev w d rest Hlen Hf Hp Hd.
  - cbn [app] in Hp.
    destruct (libusb_bulk_transfer_reply dev ENDPT_IN (ansbuf w) 13 5000 w _ _ Hp)
      as (w1 & E & Hp1 & _ & _ & Hi).
    exists (with_ansbuf (d ++ drop 13 (ansbuf w)) w1).
    assert (Et : take (Z.to_nat 13) (br_data (ok_reply 13 d)) = d).
    { cbn [ok_reply br_data]. apply take_ge. rewrite Hd. reflexivity. }
    rewrite Et, Hd in E. cbn [is_in_endpoint ENDPT_IN ok_reply br_ret br_transferred] in E.
    change (Z.testbit 129 7) with true in E. cbn iota in E.
    split.
    { destruct more; cbn [ack_loop]; rewrite E; reflexivity. }
    cbn. split; [exact Hp1 |]. split; [eauto |]. lia.
  - destruct more as [| more]; [cbn in Hlen; lia |].
    cbn [app] in Hp. apply Forall_cons in Hf as [Hf1 Hf].
    destruct (libusb_bulk_transfer_reply dev ENDPT_IN (ansbuf w) 13 5000 w _ _ Hp)
      as (w1 & E & Hp1 & _ & _ & Hi).
    set (ans := if is_in_endpoint ENDPT_IN then _ else _) in E.
    assert (Ht : negb (br_ret f =? 0) || negb (br_transferred f =? to_int 13) = true).
    { change (to_int 13) with 13. destruct Hf1 as [H | H].
      - destruct (Z.eqb_spec (br_ret f) 0); [contradiction | reflexivity].
      - destruct (Z.eqb_spec (br_transferred f) 13); [contradiction |].
        apply orb_true_r. }
    destruct (IH more dev
                (fprintf (AckReadError (br_ret f) (br_transferred f) 13)
                   (with_ansbuf ans w1)) d rest)
      as (w' & E' & Hp' & Ha' & Hi'); [cbn in Hlen; lia | exact Hf | exact Hp1 | exact Hd |].
    exists w'. split; [| split; [exact Hp' |]; split; [exact Ha' |]].
    + cbn [ack_loop]. rewrite E. rewrite Ht. exact E'.
    + rewrite Hi'. cbn. lia.
Qed.

(** The status phase on such replies. *)
Lemma wrap_scsi_status_reply (h : DPFContext) (w : usb_t)
    (fails : list bulk_reply) (d : list Z) (rest : list bulk_reply) :
  (length fails <= 4)%nat ->
  Forall status_failed fails ->
  pending w = fails ++ ok_reply 13 d :: rest ->
  length d = 13%nat ->
  (take 4 d <> signature -> fst (wrap_scsi_status h w) = -1) /\
  (take 4 d = signature -> fst (wrap_scsi_status h w) = rd d 12).
Proof.
  intros Hlen Hf Hp Hd.
  destruct (ack_loop_reply fails 4 (udev h) w d rest Hlen Hf Hp Hd)
    as (w' & E & _ & (t & Ha) & _).
  unfold wrap_scsi_status. rewrite E.
  assert (Hsig : strncmp (ansbuf w') USBS 4 = 0 <-> take 4 d = signature).
  { rewrite strncmp_USBS, Ha. rewrite take_app_le by (rewrite Hd; lia). reflexivity. }
  destruct (Z.eqb_spec (strncmp (ansbuf w') USBS 4) 0) as [H0 | H0]; cbn [negb fst].
  - split; [intros Hn; exfalso; apply Hn, Hsig, H0 |].
    intros _. rewrite Ha. apply rd_app_l. rewrite Hd. cbn. lia.
  - split; [reflexivity |].
    intros Hs. exfalso. apply H0, Hsig, Hs.
Qed.

(** When the device accepts the envelope and the data phase completes,
    [wrap_scsi] returns what its status phase returns. *)
Lemma wrap_scsi_reaches_status (h : DPFContext) (cmd : list Z) (cmdlen out : Z)
    (data : option (list Z)) (block_len : Z) (w : usb_t)
    (env : bulk_reply) (pre tail : list bulk_reply) :
  pending w = env :: pre ++ tail ->
  br_ret env = 0 ->
  data_phase_ok data block_len pre ->
  exists w2,
    pending w2 = tail /\ ansbuf w2 = ansbuf w /\
    fst (fst (wrap_scsi h cmd cmdlen out data block_len w)) =
      fst (wrap_scsi_status h w2).
Proof.
  intros Hp Henv Hdata. unfold wrap_scsi.
  set (w0 := with_g_buf _ w).
  destruct (libusb_bulk_transfer_reply (udev h) ENDPT_OUT (g_buf w0) 31 1000 w0
              env (pre ++ tail) Hp) as (w1 & E & Hp1 & Ha1 & _).
  rewrite E, Henv. cbn [Z.eqb negb].
  destruct data as [d |]; cbn [data_phase_ok] in Hdata.
  - destruct Hdata as (r & -> & Hr & Ht). cbn [app] in Hp1.
    destruct (Z.eqb_spec out DIR_OUT) as [Ho | Ho].
    + destruct (libusb_bulk_transfer_reply (udev h) ENDPT_OUT d (to_int block_len)
                  3000 w1 r tail Hp1) as (w2 & E2 & Hp2 & Ha2 & _).
      rewrite E2, Hr, Ht, !Z.eqb_refl. cbn [negb orb].
      exists w2. split; [exact Hp2 |]. split; [rewrite Ha2, Ha1; reflexivity |].
      destruct (wrap_scsi_status h w2). reflexivity.
    + destruct (libusb_bulk_transfer_reply (udev h) ENDPT_IN d (to_int block_len)
                  4000 w1 r tail Hp1) as (w2 & E2 & Hp2 & Ha2 & _).
      rewrite E2, Hr, Ht, !Z.eqb_refl. cbn [negb orb].
      exists w2. split; [exact Hp2 |]. split; [rewrite Ha2, Ha1; reflexivity |].
      destruct (wrap_scsi_status h w2). reflexivity.
  - subst pre. cbn [app] in Hp1.
    exists w1. split; [exact Hp1 |]. split; [exact Ha1 |].
    destruct (wrap_scsi_status h w1). reflexivity.
Qed.

(** C6.  Let the device accept the envelope and complete the data phase,
    and let a length-correct status read (13 bytes [d]) arrive after at most
    four failed ones.  If the first four bytes of [d] are not the signature
    [USBS], [wrap_scsi] returns -1 (the protocol error) whatever byte 12 is;
    if they are, it returns byte 12 of [d] as it is. *)
Theorem wrap_scsi_status_block (h : DPFContext) (cmd : list Z) (cmdlen out : Z)
    (data : option (list Z)) (block_len : Z) (w : usb_t)
    (env : bulk_reply) (pre fails : list bulk_reply) (d : list Z)
    (rest : list bulk_reply) :
  pending w = env :: pre ++ fails ++ ok_reply 13 d :: rest ->
  br_ret env = 0 ->
  data_phase_ok data block_len pre ->
  (length fails <= 4)%nat ->
  Forall status_failed fails ->
  length d = 13%nat ->
  let result := fst (fst (wrap_scsi h cmd cmdlen out data block_len w)) in
  (take 4 d <> signature -> result = -1) /\
  (take 4 d = signature -> result = rd d 12).
Proof.
  intros Hp Henv Hdata Hlen Hf Hd result. unfold result.
  destruct (wrap_scsi_reaches_status h cmd cmdlen out data block_len w env pre _
              Hp Henv Hdata) as (w2 & Hp2 & _ & ->).
  apply (wrap_scsi_status_reply h w2 fails d rest); assumption.
Qed.

Lemma wrap_scsi_status_block_witness :
  fst (fst (wrap_scsi h0 (blit_cmd g_excmd_init (0, 0, 1, 1)) 16 DIR_OUT
              (Some [0; 0]) 2
              (usb_init [ok_reply 31 []; ok_reply 2 []; timed_out;
                         ok_reply 13 (csw 5)]))) = 5 /\
  fst (fst (wrap_scsi h0 (blit_cmd g_excmd_init (0, 0, 1, 1)) 16 DIR_OUT
              (Some [0; 0]) 2
              (usb_init [ok_reply 31 []; ok_reply 2 []; timed_out;
                         ok_reply 13 [85; 83; 66; 67; 0; 0; 0; 0; 0; 0; 0; 0; 0]])))
    = -1.
Proof.
  split.
  - apply (wrap_scsi_status_block h0 (blit_cmd g_excmd_init (0, 0, 1, 1)) 16
             DIR_OUT (Some [0; 0]) 2
             (usb_init [ok_reply 31 []; ok_reply 2 []; timed_out; ok_reply 13 (csw 5)])
             (ok_reply 31 []) [ok_reply 2 []] [timed_out] (csw 5) []);
      try reflexivity.
    + exists (ok_reply 2 []). repeat split.
    + cbn. lia.
    + constructor; [left; discriminate | constructor].
  - apply (wrap_scsi_status_block h0 (blit_cmd g_excmd_init (0, 0, 1, 1)) 16
             DIR_OUT (Some [0; 0]) 2
             (usb_init [ok_reply 31 []; ok_reply 2 []; timed_out;
                        ok_reply 13 [85; 83; 66; 67; 0; 0; 0; 0; 0; 0; 0; 0; 0]])
             (ok_reply 31 []) [ok_reply 2 []] [timed_out]
             [85; 83; 66; 67; 0; 0; 0; 0; 0; 0; 0; 0; 0] []);
      try reflexivity.
    + exists (ok_reply 2 []). repeat split.
    + cbn. lia.
    + constructor; [left; discriminate | constructor].
    + discriminate.
Defined.

(** The status loop issues at least one and at most [more + 1] reads: five
    from [wrap_scsi]. *)
Lemma ack_loop_attempts (more : nat) :
  forall (dev len : Z) (w : usb_t),
    (length (issued w) < length (issued (snd (ack_loop more dev len w)))
     <= length (issued w) + S more)%nat.
Proof.
  induction more as [| more IH]; intros dev len w; cbn [ack_loop];
    unfold libusb_bulk_transfer;
    destruct (negb _ || negb _); cbn [snd with_ansbuf fprintf issued];
    try (rewrite length_app; cbn; lia).
  match goal with
  | |- context [ack_loop more dev len ?w1] =>
      specialize (IH dev len w1); cbn [issued fprintf with_ansbuf] in IH;
      rewrite length_app in IH; cbn [length] in IH
  end.
  lia.
Qed.

(** C1, at a failing input.  A first command is answered normally and
    leaves the status block of return code 0 in the static [ansbuf].  For
    the next command (a one-pixel blit) the device accepts the envelope and
    the data, and then every status read times out.  [wrap_scsi] issues
    exactly five status reads, each logged as failed, then checks the
    signature of the stale [ansbuf] and returns its byte 12: the call
    reports 0, the success code, instead of a transfer error. *)
Theorem wrap_scsi_status_exhausted :
  let w := {| pending := [ok_reply 31 []; ok_reply 2 []; timed_out; timed_out;
                          timed_out; timed_out; timed_out];
              issued := []; g_excmd := g_excmd after_one_command;
              g_buf := g_buf after_one_command;
              ansbuf := ansbuf after_one_command; stderr := [] |} in
  let '(r, _, w') :=
    wrap_scsi h0 (blit_cmd g_excmd_init (0, 0, 1, 1)) 16 DIR_OUT (Some [0; 0]) 2 w in
  ansbuf w = csw 0 /\
  r = 0 /\
  map bc_endpoint (issued w') = [ENDPT_OUT; ENDPT_OUT; ENDPT_IN; ENDPT_IN;
                                 ENDPT_IN; ENDPT_IN; ENDPT_IN] /\
  stderr w' = replicate 5 (AckReadError LIBUSB_ERROR_TIMEOUT 0 13) /\
  pending w' = [].
Proof. vm_compute. repeat split; reflexivity. Qed.

(** ** The dirty rectangle as a bounding box *)

Section FoldCommutative.

Variable f : Z -> Z -> Z.
Hypothesis f_assoc : forall a b c, f a (f b c) = f (f a b) c.
Hypothesis f_comm : forall a b, f a b = f b a.

Lemma fold_left_shift (l : list Z) (a b : Z) :
  fold_left f l (f a b) = f (fold_left f l a) b.
Proof.
  revert a. induction l as [| v l IH]; intros a; cbn; [reflexivity |].
  rewrite <- IH. f_equal.
  rewrite <- !f_assoc. f_equal. apply f_comm.
Qed.

Lemma fold_left_foldr (l : list Z) (a : Z) : fold_left f l a = foldr f a l.
Proof.
  revert a. induction l as [| v l IH]; intros a; cbn; [reflexivity |].
  rewrite fold_left_shift, IH. apply f_comm.
Qed.

End FoldCommutative.

Lemma foldr_min_spec (l : list Z) (x : Z) :
  (forall v, In v (x :: l) -> foldr Z.min x l <= v) /\ In (foldr Z.min x l) (x :: l).
Proof.
  induction l as [| a l [IHle IHin]]; cbn [foldr].
  - split; [intros v [<- | []]; lia | left; reflexivity].
  - split.
    + intros v [<- | [<- | Hv]].
      * specialize (IHle x (or_introl eq_refl)). lia.
      * lia.
      * specialize (IHle v (or_intror Hv)). lia.
    + destruct (Z.min_spec a (foldr Z.min x l)) as [[_ ->] | [_ ->]].
      * right. left. reflexivity.
      * destruct IHin as [<- | H]; [left; reflexivity | right; right; exact H].
Qed.

Lemma foldr_max_spec (l : list Z) (x : Z) :
  (forall v, In v (x :: l) -> v <= foldr Z.max x l) /\ In (foldr Z.max x l) (x :: l).
Proof.
  induction l as [| a l [IHle IHin]]; cbn [foldr].
  - split; [intros v [<- | []]; lia | left; reflexivity].
  - split.
    + intros v [<- | [<- | Hv]].
      * specialize (IHle x (or_introl eq_refl)). lia.
      * lia.
      * specialize (IHle v (or_intror Hv)). lia.
    + destruct (Z.max_spec a (foldr Z.max x l)) as [[_ ->] | [_ ->]].
      * destruct IHin as [<- | H]; [left; reflexivity | right; right; exact H].
      * right. left. reflexivity.
Qed.

(** What [bbox_of] computes is the tight bounding box. *)
Lemma bbox_of_tight (cs : list (Z * Z)) (r : Z * Z * Z * Z) :
  bbox_of cs = Some r -> tight_bbox cs r.
Proof.
  destruct cs as [| [x y] cs]; [discriminate |].
  intros [= <-]. unfold tight_bbox.
  destruct (foldr_min_spec (map fst cs) x) as [Hx0 Ix0].
  destruct (foldr_max_spec (map fst cs) x) as [Hx1 Ix1].
  destruct (foldr_min_spec (map snd cs) y) as [Hy0 Iy0].
  destruct (foldr_max_spec (map snd cs) y) as [Hy1 Iy1].
  change (x :: map fst cs) with (map fst ((x, y) :: cs)) in *.
  change (y :: map snd cs) with (map snd ((x, y) :: cs)) in *.
  split; [| repeat split].
  - intros c Hc.
    pose proof (in_map fst _ _ Hc). pose proof (in_map snd _ _ Hc).
    repeat split; auto.
  - apply in_map_iff in Ix0 as (c & E & Hc). eauto.
  - apply in_map_iff in Ix1 as (c & E & Hc). eauto.
  - apply in_map_iff in Iy0 as (c & E & Hc). eauto.
  - apply in_map_iff in Iy1 as (c & E & Hc). eauto.
Qed.

Lemma rd_wr_ne (a : list Z) (i j v : Z) :
  Z.to_nat i <> Z.to_nat j -> rd (wr a i v) j = rd a j.
Proof. intros H. unfold rd, wr. rewrite list_lookup_insert_ne by exact H. reflexivity. Qed.

Lemma length_wr (a : list Z) (i v : Z) : length (wr a i v) = length a.
Proof. apply length_insert. Qed.

(** A call inside the panel that changes the stored colour: the two bytes
    are written and the rectangle grows to include the pixel. *)
Lemma drv_set_pixel_changed (x y : Z) (pix : RGBA) (s : dpf_t) :
  panel_ok s -> in_panel s (x, y) -> convert pix <> stored s (x, y) ->
  drv_set_pixel x y pix s =
    with_rect (Z.min (minx s) x) (Z.max (maxx s) x)
              (Z.min (miny s) y) (Z.max (maxy s) y)
      (with_lcdBuf
         (wr (wr (lcdBuf s) ((y * 480 + x) * 2) (to_uchar (RGB565_0 pix)))
             ((y * 480 + x) * 2 + 1) (to_uchar (RGB565_1 pix))) s).
Proof.
  intros (Hw & Hh & Hc & Hr & Hl) [Hx Hy] Hne.
  unfold in_panel in Hx, Hy. cbn [fst snd] in Hx, Hy. rewrite Hw in Hx. rewrite Hh in Hy.
  unfold stored, convert in Hne. cbn [fst snd] in Hne.
  unfold drv_set_pixel. rewrite Hc, Hr, Hw, Hh.
  rewrite !Z.rem_small by lia.
  destruct (Z.ltb_spec x 0); [lia |]. destruct (Z.geb_spec x 480); [lia |].
  destruct (Z.ltb_spec y 0); [lia |]. destruct (Z.geb_spec y 320); [lia |].
  cbn [orb]. unfold DPF_BPP in *. rewrite to_uint_small by lia.
  rewrite Hw in Hne.
  destruct (Z.eqb_spec (rd (lcdBuf s) ((y * 480 + x) * 2)) (to_uchar (RGB565_0 pix)))
    as [E1 | E1];
    [destruct (Z.eqb_spec (rd (lcdBuf s) ((y * 480 + x) * 2 + 1))
                 (to_uchar (RGB565_1 pix))) as [E2 | E2] |];
    [exfalso; apply Hne; rewrite E1, E2; reflexivity | |];
    cbn [negb orb with_lcdBuf minx maxx miny maxy];
    f_equal;
    repeat match goal with
           | |- context [?a <? ?b] => destruct (Z.ltb_spec a b)
           | |- context [?a >? ?b] => destruct (Z.gtb_spec a b)
           end; lia.
Qed.

(** A call inside the panel with the colour already stored changes
    nothing. *)
Lemma drv_set_pixel_same (x y : Z) (pix : RGBA) (s : dpf_t) :
  panel_ok s -> in_panel s (x, y) -> convert pix = stored s (x, y) ->
  drv_set_pixel x y pix s = s.
Proof.
  intros (Hw & Hh & Hc & Hr & Hl) [Hx Hy] He.
  unfold in_panel in Hx, Hy. cbn [fst snd] in Hx, Hy. rewrite Hw in Hx. rewrite Hh in Hy.
  unfold stored, convert in He. cbn [fst snd] in He. rewrite Hw in He.
  injection He as E1 E2.
  unfold drv_set_pixel. rewrite Hc, Hr, Hw, Hh.
  rewrite !Z.rem_small by lia.
  destruct (Z.ltb_spec x 0); [lia |]. destruct (Z.geb_spec x 480); [lia |].
  destruct (Z.ltb_spec y 0); [lia |]. destruct (Z.geb_spec y 320); [lia |].
  cbn [orb]. unfold DPF_BPP in *. rewrite to_uint_small by lia.
  rewrite <- E1, <- E2, !Z.eqb_refl. reflexivity.
Qed.

Lemma drv_set_pixel_changed_panel_ok (x y : Z) (pix : RGBA) (s : dpf_t) :
  panel_ok s -> in_panel s (x, y) -> convert pix <> stored s (x, y) ->
  panel_ok (drv_set_pixel x y pix s).
Proof.
  intros Hok Hin Hne. rewrite drv_set_pixel_changed by assumption.
  destruct Hok as (Hw & Hh & Hc & Hr & Hl).
  unfold panel_ok. cbn. rewrite !length_wr. auto.
Qed.

(** Such a call leaves the bytes of every other pixel of the panel alone. *)
Lemma drv_set_pixel_changed_frame (x y : Z) (pix : RGBA) (s : dpf_t) (c : Z * Z) :
  panel_ok s -> in_panel s (x, y) -> convert pix <> stored s (x, y) ->
  in_panel s c -> c <> (x, y) ->
  stored (drv_set_pixel x y pix s) c = stored s c.
Proof.
  intros Hok Hin Hne Hc Hd. rewrite drv_set_pixel_changed by assumption.
  destruct Hok as (Hw & Hh & _). destruct c as [x' y'].
  destruct Hin as [Hx Hy]. destruct Hc as [Hx' Hy']. cbn [fst snd] in *.
  assert (Hxy : x' <> x \/ y' <> y).
  { destruct (Z.eq_dec x' x) as [-> |]; [| left; assumption].
    right. intros ->. apply Hd. reflexivity. }
  unfold stored. cbn [fst snd with_rect with_lcdBuf lcdBuf pwidth].
  rewrite Hw in *. rewrite Hh in *. unfold DPF_BPP.
  rewrite !rd_wr_ne by lia. reflexivity.
Qed.

(** After a sequence of calls to distinct pixels of the panel, each changing
    the stored colour, every side of the rectangle is the fold of [min] or
    [max] over the coordinates. *)
Lemma set_pixels_dirty (cs : list (Z * Z * RGBA)) :
  forall s : dpf_t,
    panel_ok s ->
    NoDup (coords cs) ->
    Forall (in_panel s) (coords cs) ->
    Forall (fun c => convert c.2 <> stored s c.1) cs ->
    dirty (set_pixels cs s) =
      (fold_left Z.min (map fst (coords cs)) (minx s),
       fold_left Z.max (map fst (coords cs)) (maxx s),
       fold_left Z.min (map snd (coords cs)) (miny s),
       fold_left Z.max (map snd (coords cs)) (maxy s)).
Proof.
  induction cs as [| [[x y] pix] cs IH]; intros s Hok Hnd Hin Hne; [reflexivity |].
  cbn [coords map fst] in Hnd, Hin. fold (coords cs) in Hnd, Hin.
  apply NoDup_cons in Hnd as [Hnot Hnd].
  apply Forall_cons in Hin as [Hin1 Hin]. apply Forall_cons in Hne as [Hne1 Hne].
  cbn [fst snd] in Hne1.
  assert (E : drv_set_pixel x y pix s = _) by (apply drv_set_pixel_changed; assumption).
  unfold set_pixels. cbn [fold_left fst snd]. fold (set_pixels cs (drv_set_pixel x y pix s)).
  rewrite IH.
  - rewrite E. cbn. reflexivity.
  - apply drv_set_pixel_changed_panel_ok; assumption.
  - exact Hnd.
  - rewrite E. exact Hin.
  - rewrite List.Forall_forall in Hne, Hin. apply List.Forall_forall.
    intros c Hc. rewrite drv_set_pixel_changed_frame; try assumption.
    + apply Hne, Hc.
    + apply Hin. unfold coords. apply in_map, Hc.
    + intros Heq. apply Hnot. rewrite <- Heq. apply list_elem_of_In.
      unfold coords. apply in_map, Hc.
Qed.

Lemma panel_ok_idle : panel_ok idle.
Proof. unfold panel_ok. repeat split; vm_compute; reflexivity. Qed.

(** C5, as stated, fails.  On the idle panel (all black, nothing dirty) one
    call writes black to the pixel (10, 10): the stored colour does not
    change, the rectangle stays empty, and it is not the bounding box of the
    coordinate written to. *)
Lemma set_pixels_same_colour_not_tracked :
  let cs := [(10, 10, black)] in
  panel_ok idle /\ dirty idle = reset_rect idle /\ cs <> [] /\
  NoDup (coords cs) /\ Forall (in_panel idle) (coords cs) /\
  dirty (set_pixels cs idle) = (479, 0, 319, 0) /\
  ~ tight_bbox (coords cs) (dirty (set_pixels cs idle)).
Proof.
  intros cs.
  assert (E : dirty (set_pixels cs idle) = (479, 0, 319, 0))
    by (vm_compute; reflexivity).
  split; [exact panel_ok_idle |].
  split; [vm_compute; reflexivity |].
  split; [discriminate |].
  split; [apply (bool_decide_unpack _); vm_compute; exact I |].
  split; [repeat constructor; vm_compute; discriminate |].
  split; [exact E |].
  rewrite E. intros (Hall & _).
  specialize (Hall (10, 10) (or_introl eq_refl)). cbn in Hall. lia.
Qed.

(** ** Panel dimensions *)

Lemma drv_set_pixel_panel_ok (x y : Z) (pix : RGBA) (s : dpf_t) :
  panel_ok s -> panel_ok (drv_set_pixel x y pix s).
Proof.
  intros (Hw & Hh & Hc & Hr & Hl).
  destruct (drv_set_pixel_fields x y pix s) as (E1 & E2 & E3 & E4 & _ & _ & E5).
  unfold panel_ok. rewrite E1, E2, E3, E4, E5. auto.
Qed.

Lemma update_row_panel_ok (fb : list Z) (x w ly : Z) (s : dpf_t) :
  panel_ok s -> panel_ok (update_row fb x w ly s).
Proof.
  unfold update_row. generalize (seqZ x w) as l. intros l. revert s.
  induction l as [| lx l IH]; intros s Hok; cbn [fold_left]; [exact Hok |].
  apply IH, drv_set_pixel_panel_ok, Hok.
Qed.

Lemma update_pixels_panel_ok (fb : list Z) (x y w h : Z) (s : dpf_t) :
  panel_ok s -> panel_ok (update_pixels fb x y w h s).
Proof.
  unfold update_pixels. generalize (seqZ y h) as l. intros l. revert s.
  induction l as [| ly l IH]; intros s Hok; cbn [fold_left]; [exact Hok |].
  apply IH, update_row_panel_ok, Hok.
Qed.

Lemma update_flush_panel_ok (s : dpf_t) (w : usb_t) :
  panel_ok s -> panel_ok (fst (update_flush s w)).
Proof.
  intros Hok. unfold update_flush.
  destruct (_ || _); [exact Hok |].
  destruct (dpf_ax_screen_blit _ _ _ _) as [u w1]. exact Hok.
Qed.

Lemma update_row_dpfh (fb : list Z) (x w ly : Z) (s : dpf_t) :
  dpfh (update_row fb x w ly s) = dpfh s.
Proof.
  unfold update_row. generalize (seqZ x w) as l. intros l. revert s.
  induction l as [| lx l IH]; intros s; cbn [fold_left]; [reflexivity |].
  rewrite IH. apply drv_set_pixel_fields.
Qed.

Lemma update_pixels_dpfh (fb : list Z) (x y w h : Z) (s : dpf_t) :
  dpfh (update_pixels fb x y w h s) = dpfh s.
Proof.
  unfold update_pixels. generalize (seqZ y h) as l. intros l. revert s.
  induction l as [| ly l IH]; intros s; cbn [fold_left]; [reflexivity |].
  rewrite IH. apply update_row_dpfh.
Qed.

(** The handle enters [wrap_scsi] through [udev] only. *)
Lemma wrap_scsi_udev (h h' : DPFContext) (cmd : list Z) (cmdlen out : Z)
    (data : option (list Z)) (block_len : Z) (w : usb_t) :
  udev h' = udev h ->
  wrap_scsi h' cmd cmdlen out data block_len w =
  wrap_scsi h cmd cmdlen out data block_len w.
Proof.
  intros E. unfold wrap_scsi, wrap_scsi_status. rewrite E. reflexivity.
Qed.

Lemma dpf_ax_screen_blit_udev (h h' : DPFContext) (buf : list Z) (rect : rect_t)
    (w : usb_t) :
  udev h' = udev h ->
  dpf_ax_screen_blit h' buf rect w = dpf_ax_screen_blit h buf rect w.
Proof.
  intros E. unfold dpf_ax_screen_blit.
  rewrite (wrap_scsi_udev h h') by exact E. reflexivity.
Qed.

Lemma drv_set_pixel_with_dpfh (hd : DPFContext) (x y : Z) (pix : RGBA) (s : dpf_t) :
  drv_set_pixel x y pix (with_dpfh hd s) = with_dpfh hd (drv_set_pixel x y pix s).
Proof.
  unfold drv_set_pixel.
  cbn [with_dpfh DCOLS DROWS pwidth pheight lcdBuf minx maxx miny maxy].
  destruct (_ || _); [reflexivity |].
  destruct (_ || _); reflexivity.
Qed.

Lemma update_row_with_dpfh (hd : DPFContext) (fb : list Z) (x w ly : Z) (s : dpf_t) :
  update_row fb x w ly (with_dpfh hd s) = with_dpfh hd (update_row fb x w ly s).
Proof.
  unfold update_row. generalize (seqZ x w) as l. intros l. revert s.
  induction l as [| lx l IH]; intros s; cbn [fold_left]; [reflexivity |].
  rewrite <- IH. f_equal. apply drv_set_pixel_with_dpfh.
Qed.

Lemma update_pixels_with_dpfh (hd : DPFContext) (fb : list Z) (x y w h : Z)
    (s : dpf_t) :
  update_pixels fb x y w h (with_dpfh hd s) =
  with_dpfh hd (update_pixels fb x y w h s).
Proof.
  unfold update_pixels. generalize (seqZ y h) as l. intros l. revert s.
  induction l as [| ly l IH]; intros s; cbn [fold_left]; [reflexivity |].
  rewrite <- IH. f_equal. apply update_row_with_dpfh.
Qed.

Lemma update_flush_with_dpfh (hd : DPFContext) (s : dpf_t) (w : usb_t) :
  udev hd = udev (dpfh s) ->
  update_flush (with_dpfh hd s) w =
  (with_dpfh hd (fst (update_flush s w)), snd (update_flush s w)).
Proof.
  intros E. unfold update_flush.
  cbn [with_dpfh with_xferBuf minx maxx miny maxy dpfh xferBuf pwidth pheight].
  destruct (_ || _); [reflexivity |].
  change (copy_rows (with_dpfh hd s)) with (copy_rows s).
  rewrite (dpf_ax_screen_blit_udev (dpfh s) hd) by exact E.
  destruct (dpf_ax_screen_blit _ _ _ _) as [u w1]. reflexivity.
Qed.

(** The data an IN command returns when the device answers every phase. *)
Lemma wrap_scsi_in_ok (h : DPFContext) (cmd : list Z) (cmdlen : Z) (d : list Z)
    (block_len : Z) (w : usb_t) (env r : bulk_reply) (tail : list bulk_reply) :
  pending w = env :: r :: tail ->
  br_ret env = 0 -> br_ret r = 0 -> br_transferred r = to_int block_len ->
  exists w2,
    pending w2 = tail /\
    wrap_scsi h cmd cmdlen DIR_IN (Some d) block_len w =
      (fst (wrap_scsi_status h w2),
       Some (take (Z.to_nat (to_int block_len)) (br_data r) ++
             drop (length (take (Z.to_nat (to_int block_len)) (br_data r))) d),
       snd (wrap_scsi_status h w2)).
Proof.
  intros Hp Henv Hr Ht. unfold wrap_scsi.
  set (w0 := with_g_buf _ w).
  destruct (libusb_bulk_transfer_reply (udev h) ENDPT_OUT (g_buf w0) 31 1000 w0
              env (r :: tail) Hp) as (w1 & E & Hp1 & _).
  rewrite E, Henv. cbn [Z.eqb negb DIR_IN DIR_OUT].
  destruct (libusb_bulk_transfer_reply (udev h) ENDPT_IN d (to_int block_len)
              4000 w1 r tail Hp1) as (w2 & E2 & Hp2 & _).
  rewrite E2, Hr, Ht, !Z.eqb_refl. cbn [negb orb].
  exists w2. split; [exact Hp2 |].
  change (is_in_endpoint ENDPT_IN) with true. cbn iota.
  destruct (wrap_scsi_status h w2). reflexivity.
Qed.

(** The query of [dpf_ax_open] stores what the device reports. *)
Lemma dpf_ax_open_query_stores (u : Z) (w : usb_t) (env : bulk_reply)
    (a b c d e : Z) (rest : list bulk_reply) :
  pending w = env :: ok_reply 5 [a; b; c; d; e] :: ok_reply 13 (csw 0) :: rest ->
  br_ret env = 0 ->
  fst (dpf_ax_open_query u w) =
    Some {| udev := u;
            width := to_uint (Z.lor a (Z.shiftl b 8));
            height := to_uint (Z.lor c (Z.shiftl d 8)) |}.
Proof.
  intros Hp Henv. unfold dpf_ax_open_query.
  destruct (wrap_scsi_in_ok {| udev := u; width := 0; height := 0 |}
              get_parameters_cmd 16 (replicate 5 0) 5 w env
              (ok_reply 5 [a; b; c; d; e]) (ok_reply 13 (csw 0) :: rest)
              Hp Henv eq_refl eq_refl) as (w2 & Hp2 & ->).
  destruct (wrap_scsi_status_reply {| udev := u; width := 0; height := 0 |} w2 []
              (csw 0) rest) as [_ H0]; [cbn; lia | constructor | exact Hp2 | reflexivity |].
  rewrite (H0 eq_refl). reflexivity.
Qed.

(** C4.  The panel is 480x320 by the constants of [main], whatever handle
    [dpf_ax_open] returned: both buffers are allocated with 480 * 320 * 2
    bytes; the dimensions and the size of the resident buffer stay so under
    [drv_set_pixel] and [update]; the bounds check of [drv_set_pixel] is
    against 480 and 320; a flush resets the rectangle to (479, 0, 319, 0).
    The width and height that the query of [dpf_ax_open] stores on the
    handle are not read afterwards: [drv_set_pixel] and [update] do the same
    on a state whose handle carries any other width and height. *)
Theorem panel_dimensions_hardcoded :
  (forall (h : DPFContext) (heap : list Z),
      let s := main_init h heap in
      pwidth s = 480 /\ pheight s = 320 /\ DCOLS s = 480 /\ DROWS s = 320 /\
      Z.of_nat (length (lcdBuf s)) = 480 * 320 * 2 /\
      Z.of_nat (length (xferBuf s)) = 480 * 320 * 2 /\
      dpfh s = h /\ panel_ok s) /\
  (forall s : dpf_t,
      panel_ok s ->
      (forall x y pix, panel_ok (drv_set_pixel x y pix s)) /\
      (forall fb x y w h u, panel_ok (fst (update fb x y w h s u)))) /\
  (forall (s : dpf_t) (x y : Z) (pix : RGBA),
      panel_ok s ->
      (0 <= Z.rem x 480 < 480 /\ 0 <= Z.rem y 320 < 320 ->
       errlog (drv_set_pixel x y pix s) = errlog s) /\
      (~ (0 <= Z.rem x 480 < 480 /\ 0 <= Z.rem y 320 < 320) ->
       drv_set_pixel x y pix s =
         ErrorLog (OutOfBounds x y (Z.rem x 480) (Z.rem y 320)) s)) /\
  (forall (s : dpf_t) (w : usb_t),
      panel_ok s -> minx s <= maxx s -> miny s <= maxy s ->
      dirty (fst (update_flush s w)) = (479, 0, 319, 0)) /\
  (forall (hd : DPFContext) (s : dpf_t),
      udev hd = udev (dpfh s) ->
      (forall x y pix,
          drv_set_pixel x y pix (with_dpfh hd s) =
          with_dpfh hd (drv_set_pixel x y pix s)) /\
      (forall fb x y w h u,
          update fb x y w h (with_dpfh hd s) u =
          (with_dpfh hd (fst (update fb x y w h s u)),
           snd (update fb x y w h s u)))) /\
  (forall (u : Z) (w : usb_t) (env : bulk_reply) (a b c d e : Z)
          (rest : list bulk_reply),
      pending w = env :: ok_reply 5 [a; b; c; d; e] :: ok_reply 13 (csw 0) :: rest ->
      br_ret env = 0 ->
      fst (dpf_ax_open_query u w) =
        Some {| udev := u;
                width := to_uint (Z.lor a (Z.shiftl b 8));
                height := to_uint (Z.lor c (Z.shiftl d 8)) |}).
Proof.
  assert (Hinit : forall h heap,
             Z.of_nat (length (lcdBuf (main_init h heap))) = 480 * 320 * 2 /\
             Z.of_nat (length (xferBuf (main_init h heap))) = 480 * 320 * 2).
  { intros h heap. unfold main_init. cbn [lcdBuf xferBuf].
    rewrite length_replicate, length_resize.
    rewrite Z2Nat.id by (unfold DPF_BPP; lia). split; reflexivity. }
  split; [| split; [| split; [| split; [| split]]]].
  - intros h heap s. destruct (Hinit h heap) as [H1 H2].
    split; [reflexivity |]. split; [reflexivity |]. split; [reflexivity |].
    split; [reflexivity |]. split; [exact H1 |]. split; [exact H2 |].
    split; [reflexivity |].
    unfold panel_ok. split; [reflexivity |]. split; [reflexivity |].
    split; [reflexivity |]. split; [reflexivity |]. exact H1.
  - intros s Hok. split.
    + intros x y pix. apply drv_set_pixel_panel_ok, Hok.
    + intros fb x y w h u. unfold update.
      apply update_flush_panel_ok, update_pixels_panel_ok, Hok.
  - intros s x y pix (Hw & Hh & Hc & Hr & _). split; intros H.
    + apply drv_set_pixel_inside. rewrite Hw, Hh, Hc, Hr. exact H.
    + rewrite drv_set_pixel_outside by (rewrite Hw, Hh, Hc, Hr; exact H).
      rewrite Hc, Hr. reflexivity.
  - intros s w (Hw & Hh & _) Hx Hy.
    rewrite update_flush_nonempty by assumption.
    unfold dirty. cbn. rewrite Hw, Hh. reflexivity.
  - intros hd s E. split.
    + intros x y pix. apply drv_set_pixel_with_dpfh.
    + intros fb x y w h u. unfold update.
      rewrite update_pixels_with_dpfh. apply update_flush_with_dpfh.
      rewrite update_pixels_dpfh. exact E.
  - intros u w env a b c d e rest Hp Henv.
    apply (dpf_ax_open_query_stores u w env a b c d e rest Hp Henv).
Qed.

(** A device that reports 240x320: the handle stores 240 and 320, and the
    driver still works on 480x320. *)
Lemma panel_dimensions_hardcoded_witness :
  let w := usb_init [ok_reply 31 []; ok_reply 5 [240; 0; 64; 1; 0];
                     ok_reply 13 (csw 0)] in
  fst (dpf_ax_open_query 7 w) = Some {| udev := 7; width := 240; height := 320 |} /\
  pwidth (main_init {| udev := 7; width := 240; height := 320 |} []) = 480 /\
  pheight (main_init {| udev := 7; width := 240; height := 320 |} []) = 320.
Proof.
  intros w.
  destruct panel_dimensions_hardcoded as (Hinit & _ & _ & _ & _ & Hopen).
  split.
  - apply (Hopen 7 w (ok_reply 31 []) 240 0 64 1 0 []); reflexivity.
  - destruct (Hinit {| udev := 7; width := 240; height := 320 |} [])
      as (H1 & H2 & _).
    split; [exact H1 | exact H2].
Defined.

(** ** The dirty rectangle of a mixed sequence *)

Lemma in_panel_ok_transfer (s s' : dpf_t) (c : Z * Z) :
  panel_ok s -> panel_ok s' -> in_panel s c -> in_panel s' c.
Proof.
  intros (Hw & Hh & _) (Hw' & Hh' & _). unfold in_panel.
  rewrite Hw, Hh, Hw', Hh'. auto.
Qed.

Lemma set_pixels_panel_ok (cs : list (Z * Z * RGBA)) (s : dpf_t) :
  panel_ok s -> panel_ok (set_pixels cs s).
Proof.
  revert s. induction cs as [| c cs IH]; intros s Hok; [exact Hok |].
  apply IH, drv_set_pixel_panel_ok, Hok.
Qed.

(** After a sequence of calls to distinct pixels of the panel, every side of
    the rectangle is the fold of [min] or [max] over the coordinates of the
    calls that changed the stored colour. *)
Lemma set_pixels_dirty_changing (cs : list (Z * Z * RGBA)) :
  forall s : dpf_t,
    panel_ok s ->
    NoDup (coords cs) ->
    Forall (in_panel s) (coords cs) ->
    dirty (set_pixels cs s) =
      (fold_left Z.min (map fst (coords (changing s cs))) (minx s),
       fold_left Z.max (map fst (coords (changing s cs))) (maxx s),
       fold_left Z.min (map snd (coords (changing s cs))) (miny s),
       fold_left Z.max (map snd (coords (changing s cs))) (maxy s)).
Proof.
  induction cs as [| [[x y] pix] cs IH]; intros s Hok Hnd Hin; [reflexivity |].
  cbn [coords map fst] in Hnd, Hin. fold (coords cs) in Hnd, Hin.
  apply NoDup_cons in Hnd as [Hnot Hnd].
  apply Forall_cons in Hin as [Hin1 Hin].
  unfold set_pixels. cbn [fold_left fst snd].
  fold (set_pixels cs (drv_set_pixel x y pix s)).
  unfold changing. cbn [List.filter]. fold (changing s cs).
  destruct (decide (convert pix = stored s (x, y))) as [E | E].
  - assert (Hch : changes s (x, y, pix) = false).
    { unfold changes. cbn [fst snd]. rewrite bool_decide_eq_true_2 by exact E.
      reflexivity. }
    rewrite Hch.
    rewrite drv_set_pixel_same by assumption. apply IH; assumption.
  - assert (Hch : changes s (x, y, pix) = true).
    { unfold changes. cbn [fst snd]. rewrite bool_decide_eq_false_2 by exact E.
      reflexivity. }
    rewrite Hch.
    assert (Hsame : changing (drv_set_pixel x y pix s) cs = changing s cs).
    { unfold changing. apply List.filter_ext_in. intros c Hc. unfold changes.
      rewrite drv_set_pixel_changed_frame; try assumption; [reflexivity | |].
      - rewrite List.Forall_forall in Hin. apply Hin. unfold coords. apply in_map, Hc.
      - intros Heq. apply Hnot. rewrite <- Heq. apply list_elem_of_In.
        unfold coords. apply in_map, Hc. }
    rewrite IH.
    + rewrite Hsame. rewrite drv_set_pixel_changed by assumption. reflexivity.
    + apply drv_set_pixel_changed_panel_ok; assumption.
    + exact Hnd.
    + rewrite drv_set_pixel_changed by assumption. exact Hin.
Qed.

(** C5, as the code has it.  Starting from the empty rectangle a flush
    leaves, after any sequence of [drv_set_pixel] calls to distinct pixels
    of the panel, the dirty rectangle is the tight bounding box of the
    coordinates of those calls that changed the colour stored for their
    pixel, and it is still the empty rectangle of the flush when no call
    did.  A further call that writes the colour already stored does not
    grow the rectangle. *)
Theorem set_pixels_bounding_box (cs : list (Z * Z * RGBA)) (s : dpf_t) :
  panel_ok s ->
  dirty s = reset_rect s ->
  NoDup (coords cs) ->
  Forall (in_panel s) (coords cs) ->
  let changed := coords (changing s cs) in
  (changed = [] -> dirty (set_pixels cs s) = reset_rect s) /\
  (changed <> [] ->
   bbox_of changed = Some (dirty (set_pixels cs s)) /\
   tight_bbox changed (dirty (set_pixels cs s))) /\
  (forall x y pix,
      in_panel s (x, y) ->
      convert pix = stored (set_pixels cs s) (x, y) ->
      dirty (set_pixels (cs ++ [(x, y, pix)]) s) = dirty (set_pixels cs s)).
Proof.
  intros Hok Hreset Hnd Hin changed.
  pose proof (set_pixels_dirty_changing cs s Hok Hnd Hin) as D.
  fold changed in D.
  assert (Hch : Forall (in_panel s) changed).
  { apply List.Forall_forall. intros c Hc. unfold changed, coords in Hc.
    apply in_map_iff in Hc as (a & <- & Ha). apply List.filter_In in Ha as [Ha _].
    rewrite List.Forall_forall in Hin. apply Hin. unfold coords. apply in_map, Ha. }
  split; [| split].
  - intros E. rewrite D, E, <- Hreset. reflexivity.
  - intros Hne.
    assert (E : bbox_of changed = Some (dirty (set_pixels cs s))).
    { rewrite D. destruct changed as [| [x y] r]; [contradiction Hne; reflexivity |].
      apply Forall_cons in Hch as [[Hx Hy] _]. cbn [fst snd] in Hx, Hy.
      destruct Hok as (Hw & Hh & _). rewrite Hw in Hx. rewrite Hh in Hy.
      unfold dirty, reset_rect in Hreset. rewrite Hw, Hh in Hreset.
      injection Hreset as -> -> -> ->.
      cbn [map fst snd bbox_of fold_left].
      rewrite (Z.min_r (480 - 1) x), (Z.max_r 0 x), (Z.min_r (320 - 1) y),
        (Z.max_r 0 y) by lia.
      rewrite !(fold_left_foldr Z.min Z.min_assoc Z.min_comm).
      rewrite !(fold_left_foldr Z.max Z.max_assoc Z.max_comm).
      reflexivity. }
    split; [exact E | apply bbox_of_tight, E].
  - intros x y pix Hxy Esame.
    unfold set_pixels at 1. rewrite fold_left_app. cbn [fold_left fst snd].
    fold (set_pixels cs s).
    rewrite drv_set_pixel_same; [reflexivity | | | exact Esame].
    + apply set_pixels_panel_ok, Hok.
    + apply (in_panel_ok_transfer s); [exact Hok | apply set_pixels_panel_ok, Hok | exact Hxy].
Qed.

Lemma set_pixels_bounding_box_witness :
  let cs := [(10, 10, red); (15, 15, black); (20, 20, green)] in
  bbox_of (coords (changing idle cs)) = Some (10, 20, 10, 20) /\
  tight_bbox (coords (changing idle cs)) (dirty (set_pixels cs idle)).
Proof.
  intros cs.
  destruct (set_pixels_bounding_box cs idle) as (_ & H & _).
  - unfold panel_ok. repeat split; vm_compute; reflexivity.
  - vm_compute. reflexivity.
  - apply (bool_decide_unpack _). vm_compute. exact I.
  - repeat constructor; vm_compute; discriminate.
  - destruct H as [_ H2]; [vm_compute; discriminate |].
    split; [vm_compute; reflexivity | exact H2].
Defined.

(** ** More on the command transport *)

Lemma libusb_bulk_transfer_eq (dev ep : Z) (buf : list Z) (len timeout : Z)
    (w : usb_t) :
  exists w',
    libusb_bulk_transfer dev ep buf len timeout w =
      (br_ret (hd timed_out (pending w)),
       br_transferred (hd timed_out (pending w)),
       (if is_in_endpoint ep
        then take (Z.to_nat len) (br_data (hd timed_out (pending w))) ++
             drop (length (take (Z.to_nat len) (br_data (hd timed_out (pending w))))) buf
        else buf), w') /\
    issued w' = issued w ++
      [{| bc_dev := dev; bc_endpoint := ep;
          bc_bytes := if is_in_endpoint ep then [] else take (Z.to_nat len) buf;
          bc_length := len; bc_timeout := timeout |}] /\
    pending w' = drop 1 (pending w) /\ ansbuf w' = ansbuf w /\
    g_buf w' = g_buf w /\ g_excmd w' = g_excmd w /\ stderr w' = stderr w.
Proof.
  eexists. split; [reflexivity |]. cbn. repeat split.
Qed.

(** The status loop: between one and [more + 1] reads of 13 bytes on the IN
    endpoint, each with a timeout of 5 s, and nothing else. *)
Lemma ack_loop_trace (more : nat) :
  forall (dev : Z) (w : usb_t),
    exists n : nat,
      (1 <= n <= S more)%nat /\
      issued (snd (ack_loop more dev 13 w)) =
        issued w ++ replicate n (status_call dev) /\
      pending (snd (ack_loop more dev 13 w)) = drop n (pending w) /\
      g_buf (snd (ack_loop more dev 13 w)) = g_buf w /\
      g_excmd (snd (ack_loop more dev 13 w)) = g_excmd w.
Proof.
  induction more as [| more IH]; intros dev w; cbn [ack_loop];
    destruct (libusb_bulk_transfer_eq dev ENDPT_IN (ansbuf w) 13 5000 w)
      as (w1 & E & Hi & Hp & _ & Hg & Hx & _);
    rewrite E; change (is_in_endpoint ENDPT_IN) with true in *; cbn iota in *.
  - exists 1%nat. split; [lia |].
    destruct (negb _ || negb _); cbn; rewrite Hi, Hp, Hg, Hx; repeat split.
  - destruct (negb _ || negb _).
    + match goal with
      | |- context [ack_loop more dev 13 ?w3] =>
          destruct (IH dev w3) as (n & Hn & Ei & Ep & Eg & Ex)
      end.
      exists (S n). split; [lia |].
      rewrite Ei, Ep, Eg, Ex. cbn [issued pending g_buf g_excmd fprintf with_ansbuf].
      rewrite Hi, Hp, Hg, Hx, <- app_assoc, drop_drop. repeat split.
    + exists 1%nat. split; [lia |].
      cbn. rewrite Hi, Hp, Hg, Hx. repeat split.
Qed.

Lemma wrap_scsi_status_trace (h : DPFContext) (w : usb_t) :
  exists n : nat,
    (1 <= n <= 5)%nat /\
    issued (snd (wrap_scsi_status h w)) = issued w ++ replicate n (status_call (udev h)) /\
    pending (snd (wrap_scsi_status h w)) = drop n (pending w) /\
    g_buf (snd (wrap_scsi_status h w)) = g_buf w /\
    g_excmd (snd (wrap_scsi_status h w)) = g_excmd w.
Proof.
  destruct (ack_loop_trace 4 (udev h) w) as (n & Hn & Ei & Ep & Eg & Ex).
  exists n. split; [lia |]. unfold wrap_scsi_status.
  destruct (ack_loop 4 (udev h) 13 w) as [[r t] w1]. cbn [snd] in *.
  destruct (negb _); cbn; auto.
Qed.

(** The four stores of [block_len] into [g_buf] are its 32-bit
    little-endian encoding. *)
Lemma le32_stores (v : Z) :
  [to_uchar v; to_uchar (Z.shiftr v 8); to_uchar (Z.shiftr v 16);
   to_uchar (Z.shiftr v 24)] = le32 v.
Proof.
  unfold le32, to_uchar. rewrite !Z.shiftr_div_pow2 by lia. reflexivity.
Qed.

(** What [wrap_scsi] leaves in [g_buf] before it sends it. *)
Lemma g_buf_written (g cmd : list Z) (block_len : Z) :
  (exists l4 c t, g = cbw_header ++ l4 ++ [0; 0; c] ++ t /\
                  length l4 = 4%nat /\ length t = 16%nat) ->
  length cmd = 16%nat ->
  wr (wr (wr (wr (memcpy (wr g 14 (to_uchar 16)) 15 cmd 16)
                 8 (to_uchar block_len))
             9 (to_uchar (Z.shiftr block_len 8)))
         10 (to_uchar (Z.shiftr block_len 16)))
     11 (to_uchar (Z.shiftr block_len 24)) =
  envelope cmd block_len.
Proof.
  intros (l4 & c & t & -> & H4 & Ht) Hc.
  do 4 (destruct l4 as [| ? l4]; [discriminate H4 |]).
  destruct l4; [| discriminate H4].
  do 16 (destruct t as [| ? t]; [discriminate Ht |]).
  destruct t; [| discriminate Ht].
  do 16 (destruct cmd as [| ? cmd]; [discriminate Hc |]).
  destruct cmd; [| discriminate Hc].
  unfold envelope. rewrite <- le32_stores.
  generalize (to_uchar block_len) (to_uchar (Z.shiftr block_len 8))
    (to_uchar (Z.shiftr block_len 16)) (to_uchar (Z.shiftr block_len 24)).
  intros b0 b1 b2 b3. reflexivity.
Qed.

Lemma length_envelope (cmd : list Z) (block_len : Z) :
  length cmd = 16%nat -> length (envelope cmd block_len) = 31%nat.
Proof. intros H. unfold envelope. rewrite !length_app, H. reflexivity. Qed.

Lemma gbuf_ok_envelope (w : usb_t) (cmd : list Z) (block_len : Z) :
  length cmd = 16%nat -> g_buf w = envelope cmd block_len -> gbuf_ok w.
Proof.
  intros Hc E. exists (le32 block_len), 16, cmd.
  split; [exact E |]. split; [reflexivity | exact Hc].
Qed.

Lemma wrap_scsi_trace_aux (h : DPFContext) (cmd : list Z) (out : Z)
    (data : option (list Z)) (block_len : Z) (w : usb_t) :
  gbuf_ok w -> length cmd = 16%nat ->
  let w' := snd (wrap_scsi h cmd 16 out data block_len w) in
  exists (ds : list bulk_call) (k : nat),
    issued w' = issued w ++ envelope_call h cmd block_len :: ds ++
                replicate k (status_call (udev h)) /\
    (k <= 5)%nat /\
    (ds = [] \/ exists d, data = Some d /\ ds = [data_call h out d block_len]) /\
    g_buf w' = envelope cmd block_len /\ g_excmd w' = g_excmd w.
Proof.
  intros Hg Hc. unfold wrap_scsi.
  rewrite (g_buf_written (g_buf w) cmd block_len Hg Hc).
  set (w0 := with_g_buf (envelope cmd block_len) w).
  destruct (libusb_bulk_transfer_eq (udev h) ENDPT_OUT (g_buf w0) 31 1000 w0)
    as (w1 & E & Hi & Hp & _ & Hg1 & Hx1 & _).
  rewrite E. clear E.
  change (is_in_endpoint ENDPT_OUT) with false in Hi. cbn iota in Hi.
  cbn [w0 with_g_buf g_buf issued g_excmd] in Hi, Hg1, Hx1.
  rewrite take_ge in Hi by (rewrite length_envelope by exact Hc; cbn; lia).
  fold (envelope_call h cmd block_len) in Hi.
  destruct (negb (_ =? 0)).
  { exists [], 0%nat. cbn [snd app replicate]. rewrite Hi. auto 10 with lia. }
  destruct data as [d |].
  - destruct (Z.eqb_spec out DIR_OUT) as [Ho | Ho].
    + destruct (libusb_bulk_transfer_eq (udev h) ENDPT_OUT d (to_int block_len) 3000 w1)
        as (w2 & E2 & Hi2 & Hp2 & _ & Hg2 & Hx2 & _).
      rewrite E2. clear E2.
      change (is_in_endpoint ENDPT_OUT) with false in Hi2. cbn iota in Hi2.
      assert (Ed : data_call h out d block_len =
                   {| bc_dev := udev h; bc_endpoint := ENDPT_OUT;
                      bc_bytes := take (Z.to_nat (to_int block_len)) d;
                      bc_length := to_int block_len; bc_timeout := 3000 |})
        by (unfold data_call; rewrite Ho; reflexivity).
      rewrite <- Ed in Hi2.
      destruct (negb _ || negb _).
      * exists [data_call h out d block_len], 0%nat. cbn [snd fprintf issued g_buf g_excmd].
        rewrite Hi2, Hi, Hg2, Hg1, Hx2, Hx1, <- app_assoc. cbn. eauto 10 with lia.
      * destruct (wrap_scsi_status_trace h w2) as (n & Hn & Ei & _ & Eg & Ex).
        exists [data_call h out d block_len], n.
        destruct (wrap_scsi_status h w2) as [r w3]. cbn [snd] in *.
        rewrite Ei, Eg, Ex, Hi2, Hi, Hg2, Hg1, Hx2, Hx1, <- !app_assoc. cbn.
        eauto 10 with lia.
    + destruct (libusb_bulk_transfer_eq (udev h) ENDPT_IN d (to_int block_len) 4000 w1)
        as (w2 & E2 & Hi2 & Hp2 & _ & Hg2 & Hx2 & _).
      rewrite E2. clear E2.
      change (is_in_endpoint ENDPT_IN) with true in Hi2. cbn iota in Hi2.
      assert (Ed : data_call h out d block_len =
                   {| bc_dev := udev h; bc_endpoint := ENDPT_IN; bc_bytes := [];
                      bc_length := to_int block_len; bc_timeout := 4000 |}).
      { unfold data_call. destruct (Z.eqb_spec out DIR_OUT); [contradiction | reflexivity]. }
      rewrite <- Ed in Hi2.
      destruct (negb _ || negb _).
      * exists [data_call h out d block_len], 0%nat. cbn [snd fprintf issued g_buf g_excmd].
        rewrite Hi2, Hi, Hg2, Hg1, Hx2, Hx1, <- app_assoc. cbn. eauto 10 with lia.
      * destruct (wrap_scsi_status_trace h w2) as (n & Hn & Ei & _ & Eg & Ex).
        exists [data_call h out d block_len], n.
        destruct (wrap_scsi_status h w2) as [r w3]. cbn [snd] in *.
        rewrite Ei, Eg, Ex, Hi2, Hi, Hg2, Hg1, Hx2, Hx1, <- !app_assoc. cbn.
        eauto 10 with lia.
  - destruct (wrap_scsi_status_trace h w1) as (n & Hn & Ei & _ & Eg & Ex).
    exists [], n.
    destruct (wrap_scsi_status h w1) as [r w3]. cbn [snd] in *.
    rewrite Ei, Eg, Ex, Hi, Hg1, Hx1, <- !app_assoc. cbn. auto 10 with lia.
Qed.

(** X1.  The transfers of one [wrap_scsi] call with a 16-byte command, for
    any device: first the 31-byte wrapper on the OUT endpoint (signature,
    tag, the length as 32 bits little endian, zero flags and LUN, the
    command length 16 and the command), then at most one data transfer of
    [block_len] bytes in the direction asked for, then at most five status
    reads of 13 bytes; between one and seven transfers in all, every one on
    the device of the handle.  [g_buf] keeps its layout and [g_excmd] is not
    touched. *)
Theorem wrap_scsi_protocol (h : DPFContext) (cmd : list Z) (out : Z)
    (data : option (list Z)) (block_len : Z) (w : usb_t) :
  gbuf_ok w -> length cmd = 16%nat ->
  let w' := snd (wrap_scsi h cmd 16 out data block_len w) in
  exists (ds : list bulk_call) (k : nat),
    issued w' = issued w ++ envelope_call h cmd block_len :: ds ++
                replicate k (status_call (udev h)) /\
    (k <= 5)%nat /\
    (ds = [] \/ exists d, data = Some d /\ ds = [data_call h out d block_len]) /\
    (length (issued w) < length (issued w') <= length (issued w) + 7)%nat /\
    Forall (fun c => bc_dev c = udev h) (drop (length (issued w)) (issued w')) /\
    gbuf_ok w' /\ g_excmd w' = g_excmd w.
Proof.
  intros Hg Hc w'.
  destruct (wrap_scsi_trace_aux h cmd out data block_len w Hg Hc)
    as (ds & k & Ei & Hk & Hds & Eg & Ex).
  fold w' in Ei, Eg, Ex.
  exists ds, k. split; [exact Ei |]. split; [exact Hk |]. split; [exact Hds |].
  assert (Hlen : (length ds <= 1)%nat).
  { destruct Hds as [-> | (d & _ & ->)]; cbn; lia. }
  split; [| split; [| split; [eapply gbuf_ok_envelope; eassumption | exact Ex]]].
  - rewrite Ei, length_app. cbn [length]. rewrite length_app, length_replicate. lia.
  - rewrite Ei, drop_app_length. constructor; [reflexivity |].
    apply Forall_app. split.
    + destruct Hds as [-> | (d & _ & ->)]; [constructor |].
      constructor; [| constructor]. unfold data_call. destruct (out =? DIR_OUT); reflexivity.
    + apply Forall_replicate. reflexivity.
Qed.

Lemma gbuf_ok_init (replies : list bulk_reply) : gbuf_ok (usb_init replies).
Proof.
  exists [0; 128; 0; 0], 16, (drop 15 g_buf_init). repeat split.
Qed.

Lemma wrap_scsi_protocol_witness :
  let w := usb_init [ok_reply 31 []; ok_reply 5 [224; 1; 64; 1; 0];
                     ok_reply 13 (csw 0)] in
  let w' := snd (wrap_scsi h0 get_parameters_cmd 16 DIR_IN
                   (Some (replicate 5 0)) 5 w) in
  (length (issued w') <= 7)%nat.
Proof.
  intros w w'.
  destruct (wrap_scsi_protocol h0 get_parameters_cmd DIR_IN (Some (replicate 5 0)) 5 w)
    as (ds & k & _ & _ & _ & Hlen & _); [apply gbuf_ok_init | reflexivity |].
  apply Hlen.
Defined.

(** X2.  When the device does not accept the wrapper (the first transfer
    returns non-zero, or times out with no reply left), [wrap_scsi] returns
    that libusb code at once: one transfer, no data phase, no status read,
    nothing printed, the data buffer and the status buffer as they were. *)
Theorem wrap_scsi_command_phase_fails (h : DPFContext) (cmd : list Z)
    (cmdlen out : Z) (data : option (list Z)) (block_len : Z) (w : usb_t) :
  br_ret (hd timed_out (pending w)) <> 0 ->
  let '(r, d, w') := wrap_scsi h cmd cmdlen out data block_len w in
  r = br_ret (hd timed_out (pending w)) /\ d = data /\
  length (issued w') = S (length (issued w)) /\
  pending w' = drop 1 (pending w) /\
  ansbuf w' = ansbuf w /\ stderr w' = stderr w.
Proof.
  intros Hr. unfold wrap_scsi.
  set (w0 := with_g_buf _ w).
  destruct (libusb_bulk_transfer_eq (udev h) ENDPT_OUT (g_buf w0) 31 1000 w0)
    as (w1 & E & Hi & Hp & Ha & _ & _ & He).
  rewrite E. cbn [w0 with_g_buf pending] in *.
  destruct (Z.eqb_spec (br_ret (hd timed_out (pending w))) 0); [contradiction |].
  cbn [negb]. rewrite Hi, length_app. cbn. repeat split; auto; lia.
Qed.

Lemma wrap_scsi_command_phase_fails_witness :
  fst (fst (wrap_scsi h0 get_parameters_cmd 16 DIR_IN (Some (replicate 5 0)) 5
              (usb_init []))) = LIBUSB_ERROR_TIMEOUT.
Proof.
  pose proof (wrap_scsi_command_phase_fails h0 get_parameters_cmd 16 DIR_IN
                (Some (replicate 5 0)) 5 (usb_init [])) as H.
  destruct (wrap_scsi _ _ _ _ _ _ _) as [[r d] w'].
  apply H. discriminate.
Defined.

(** X3.  When the wrapper is accepted and the data transfer fails or is
    short, [wrap_scsi] returns the libusb code of the data transfer, which
    is 0 for a short transfer without error; it prints one message and does
    not read the status: two transfers in all, and the return code of the
    peer is never looked at. *)
Theorem wrap_scsi_data_phase_fails (h : DPFContext) (cmd : list Z)
    (cmdlen out : Z) (d : list Z) (block_len : Z) (w : usb_t)
    (env r : bulk_reply) (rest : list bulk_reply) :
  pending w = env :: r :: rest ->
  br_ret env = 0 ->
  br_ret r <> 0 \/ br_transferred r <> to_int block_len ->
  let '(res, _, w') := wrap_scsi h cmd cmdlen out (Some d) block_len w in
  res = br_ret r /\
  length (issued w') = S (S (length (issued w))) /\
  pending w' = rest /\ ansbuf w' = ansbuf w /\
  stderr w' = stderr w ++ [if out =? DIR_OUT then BulkWriteError else BulkReadError].
Proof.
  intros Hp Henv Hr. unfold wrap_scsi.
  set (w0 := with_g_buf _ w).
  destruct (libusb_bulk_transfer_eq (udev h) ENDPT_OUT (g_buf w0) 31 1000 w0)
    as (w1 & E & Hi & Hp1 & Ha & _ & _ & He).
  rewrite E. cbn [w0 with_g_buf pending issued ansbuf stderr] in *.
  rewrite Hp in *. cbn [hd drop] in *. rewrite Henv. cbn [Z.eqb negb].
  assert (Hfail : negb (br_ret r =? 0) || negb (br_transferred r =? to_int block_len)
                  = true).
  { destruct Hr as [H | H].
    - destruct (Z.eqb_spec (br_ret r) 0); [contradiction | reflexivity].
    - destruct (Z.eqb_spec (br_transferred r) (to_int block_len)); [contradiction |].
      apply orb_true_r. }
  destruct (out =? DIR_OUT).
  - destruct (libusb_bulk_transfer_eq (udev h) ENDPT_OUT d (to_int block_len) 3000 w1)
      as (w2 & E2 & Hi2 & Hp2 & Ha2 & _ & _ & He2).
    rewrite E2, Hp1 in *. cbn [hd drop] in *. rewrite Hfail.
    cbn [fprintf issued pending ansbuf stderr].
    rewrite Hi2, Hi, !length_app, Ha2, Ha, He2, He. cbn. repeat split; auto; lia.
  - destruct (libusb_bulk_transfer_eq (udev h) ENDPT_IN d (to_int block_len) 4000 w1)
      as (w2 & E2 & Hi2 & Hp2 & Ha2 & _ & _ & He2).
    rewrite E2, Hp1 in *. cbn [hd drop] in *. rewrite Hfail.
    cbn [fprintf issued pending ansbuf stderr].
    rewrite Hi2, Hi, !length_app, Ha2, Ha, He2, He. cbn. repeat split; auto; lia.
Qed.

Lemma wrap_scsi_data_phase_fails_witness :
  fst (fst (wrap_scsi h0 get_parameters_cmd 16 DIR_IN (Some (replicate 5 0)) 5
              (usb_init [ok_reply 31 []; ok_reply 3 [224; 1; 64];
                         ok_reply 13 (csw 9)]))) = 0.
Proof.
  pose proof (wrap_scsi_data_phase_fails h0 get_parameters_cmd 16 DIR_IN
                (replicate 5 0) 5
                (usb_init [ok_reply 31 []; ok_reply 3 [224; 1; 64]; ok_reply 13 (csw 9)])
                (ok_reply 31 []) (ok_reply 3 [224; 1; 64]) [ok_reply 13 (csw 9)]) as H.
  destruct (wrap_scsi _ _ _ _ _ _ _) as [[r d] w'].
  apply H; [reflexivity | reflexivity | right; discriminate].
Defined.

(** ** The query of the panel dimensions *)

Lemma lor_shiftl_8 (a b : Z) :
  0 <= a < 256 -> Z.lor a (Z.shiftl b 8) = a + b * 256.
Proof.
  intros Ha.
  assert (Hland : Z.land a (Z.shiftl b 8) = 0).
  { apply Z.bits_inj'. intros n Hn. rewrite Z.land_spec, Z.bits_0.
    destruct (Z.lt_ge_cases n 8).
    - rewrite Z.shiftl_spec_low by lia. apply andb_false_r.
    - rewrite <- (Z.mod_small a (2 ^ 8)) by (change (2 ^ 8) with 256; lia).
      rewrite Z.mod_pow2_bits_high by lia. reflexivity. }
  rewrite <- Z.lxor_lor by exact Hland.
  rewrite <- Z.add_nocarry_lxor by exact Hland.
  rewrite Z.shiftl_mul_pow2 by lia. reflexivity.
Qed.

(** Reading back a 16-bit little-endian value the way [dpf_ax_open] does. *)
Lemma le16_read_back (v : Z) :
  0 <= v < 65536 ->
  to_uint (Z.lor (v mod 65536 mod 256) (Z.shiftl (v mod 65536 / 256) 8)) = v.
Proof.
  intros Hv. rewrite lor_shiftl_8 by (apply Z.mod_pos_bound; lia).
  rewrite (Z.mod_small v 65536) by lia.
  rewrite to_uint_small by (Z.div_mod_to_equations; lia).
  Z.div_mod_to_equations; lia.
Qed.

Lemma dpf_ax_open_query_le16 (u W H e : Z) (w : usb_t) (env : bulk_reply)
    (rest : list bulk_reply) :
  0 <= W < 65536 -> 0 <= H < 65536 ->
  pending w = env :: ok_reply 5 (le16 W ++ le16 H ++ [e]) ::
              ok_reply 13 (csw 0) :: rest ->
  br_ret env = 0 ->
  fst (dpf_ax_open_query u w) = Some {| udev := u; width := W; height := H |}.
Proof.
  intros HW HH Hp Henv.
  rewrite (dpf_ax_open_query_stores u w env _ _ _ _ e rest Hp Henv).
  rewrite !le16_read_back by assumption. reflexivity.
Qed.

(** X4.  The dimensions round trip: when the device answers the query with
    a width and a height below 65536, each as 16 bits little endian, and
    reports return code 0, the handle [dpf_ax_open] builds stores exactly
    that width and height; the fifth byte of the answer is ignored. *)
Theorem dpf_ax_open_query_dimensions (u W H e : Z) (w : usb_t) (env : bulk_reply)
    (rest : list bulk_reply) :
  0 <= W < 65536 -> 0 <= H < 65536 ->
  pending w = env :: ok_reply 5 (le16 W ++ le16 H ++ [e]) ::
              ok_reply 13 (csw 0) :: rest ->
  br_ret env = 0 ->
  fst (dpf_ax_open_query u w) = Some {| udev := u; width := W; height := H |}.
Proof. apply dpf_ax_open_query_le16. Qed.

Lemma dpf_ax_open_query_dimensions_witness :
  fst (dpf_ax_open_query 7
         (usb_init [ok_reply 31 []; ok_reply 5 (le16 240 ++ le16 320 ++ [0]);
                    ok_reply 13 (csw 0)])) =
    Some {| udev := 7; width := 240; height := 320 |}.
Proof.
  apply (dpf_ax_open_query_dimensions 7 240 320 0 _ (ok_reply 31 []) []);
    [lia | lia | reflexivity | reflexivity].
Defined.

(** X5.  When every transfer of the query goes through but the status block
    carries a non-zero return code (or a wrong signature), the query fails:
    no handle is built. *)
Theorem dpf_ax_open_query_refused (u : Z) (w : usb_t) (env : bulk_reply)
    (d5 st : list Z) (rest : list bulk_reply) :
  pending w = env :: ok_reply 5 d5 :: ok_reply 13 st :: rest ->
  br_ret env = 0 ->
  length st = 13%nat ->
  take 4 st <> signature \/ rd st 12 <> 0 ->
  fst (dpf_ax_open_query u w) = None.
Proof.
  intros Hp Henv Hst Hbad. unfold dpf_ax_open_query.
  destruct (wrap_scsi_in_ok {| udev := u; width := 0; height := 0 |}
              get_parameters_cmd 16 (replicate 5 0) 5 w env
              (ok_reply 5 d5) (ok_reply 13 st :: rest)
              Hp Henv eq_refl eq_refl) as (w2 & Hp2 & ->).
  destruct (wrap_scsi_status_reply {| udev := u; width := 0; height := 0 |} w2 []
              st rest) as [Hn Hs]; [cbn; lia | constructor | exact Hp2 | exact Hst |].
  destruct (list_eq_dec (take 4 st) signature) as [Esig | Esig].
  - destruct Hbad as [Hbad | Hbad]; [contradiction |].
    rewrite (Hs Esig).
    destruct (Z.eqb_spec (rd st 12) 0); [contradiction | reflexivity].
  - rewrite (Hn Esig). reflexivity.
Qed.

Lemma dpf_ax_open_query_refused_witness :
  fst (dpf_ax_open_query 7
         (usb_init [ok_reply 31 []; ok_reply 5 [224; 1; 64; 1; 0];
                    ok_reply 13 (csw 1)])) = None.
Proof.
  apply (dpf_ax_open_query_refused 7 _ (ok_reply 31 []) [224; 1; 64; 1; 0]
           (csw 1) []); [reflexivity | reflexivity | reflexivity |].
  right. discriminate.
Defined.

(** ** More on [drv_set_pixel] *)

Lemma rd_wr_eq (a : list Z) (i v : Z) :
  (Z.to_nat i < length a)%nat -> rd (wr a i v) i = v.
Proof. intros H. unfold rd, wr. rewrite list_lookup_insert_eq by exact H. reflexivity. Qed.

(** The coordinates enter [drv_set_pixel] through their remainders only,
    once these are inside the panel. *)
Lemma drv_set_pixel_reduce (x y : Z) (pix : RGBA) (s : dpf_t) :
  panel_ok s ->
  0 <= Z.rem x 480 -> 0 <= Z.rem y 320 ->
  drv_set_pixel x y pix s = drv_set_pixel (Z.rem x 480) (Z.rem y 320) pix s.
Proof.
  intros (Hw & Hh & Hc & Hr & Hl) Hx Hy.
  pose proof (Z.rem_bound_abs x 480 ltac:(lia)).
  pose proof (Z.rem_bound_abs y 320 ltac:(lia)).
  unfold drv_set_pixel. rewrite Hc, Hr, Hw, Hh.
  rewrite (Z.rem_small (Z.rem x 480) 480), (Z.rem_small (Z.rem y 320) 320) by lia.
  destruct (Z.ltb_spec (Z.rem x 480) 0); [lia |].
  destruct (Z.geb_spec (Z.rem x 480) 480); [lia |].
  destruct (Z.ltb_spec (Z.rem y 320) 0); [lia |].
  destruct (Z.geb_spec (Z.rem y 320) 320); [lia |].
  reflexivity.
Qed.

Lemma drv_set_pixel_stored (x y : Z) (pix : RGBA) (s : dpf_t) :
  panel_ok s -> in_panel s (x, y) ->
  stored (drv_set_pixel x y pix s) (x, y) = convert pix.
Proof.
  intros Hok Hin.
  destruct (list_eq_dec (convert pix) (stored s (x, y))) as [E | E].
  - rewrite drv_set_pixel_same by assumption. symmetry. exact E.
  - rewrite drv_set_pixel_changed by assumption.
    destruct Hok as (Hw & Hh & Hc & Hr & Hl). destruct Hin as [Hx Hy].
    cbn [fst snd] in Hx, Hy. rewrite Hw in Hx. rewrite Hh in Hy.
    unfold stored, convert. cbn [fst snd with_rect with_lcdBuf lcdBuf pwidth].
    rewrite Hw. unfold DPF_BPP.
    rewrite rd_wr_ne by lia. rewrite !rd_wr_eq by (rewrite ?length_wr; lia).
    reflexivity.
Qed.

(** X6.  Write and read back: after a call inside the panel the resident
    buffer holds the converted colour for that pixel, and the same call
    again changes nothing more (neither the buffer nor the rectangle). *)
Theorem drv_set_pixel_write_read (x y : Z) (pix : RGBA) (s : dpf_t) :
  panel_ok s -> in_panel s (x, y) ->
  stored (drv_set_pixel x y pix s) (x, y) = convert pix /\
  drv_set_pixel x y pix (drv_set_pixel x y pix s) = drv_set_pixel x y pix s.
Proof.
  intros Hok Hin.
  pose proof (drv_set_pixel_stored x y pix s Hok Hin) as E.
  split; [exact E |].
  apply drv_set_pixel_same.
  - apply drv_set_pixel_panel_ok, Hok.
  - destruct (drv_set_pixel_fields x y pix s) as (E1 & E2 & _).
    unfold in_panel. rewrite E1, E2. exact Hin.
  - symmetry. exact E.
Qed.

Lemma drv_set_pixel_write_read_witness :
  stored (drv_set_pixel 10 10 red idle) (10, 10) = [248; 0].
Proof.
  apply (drv_set_pixel_write_read 10 10 red idle).
  - exact panel_ok_idle.
  - vm_compute. repeat split; discriminate.
Defined.

(** A call leaves the bytes of every pixel other than its own alone. *)
Lemma drv_set_pixel_frame (x y : Z) (pix : RGBA) (s : dpf_t) (c : Z * Z) :
  panel_ok s -> in_panel s c -> c <> (Z.rem x 480, Z.rem y 320) ->
  stored (drv_set_pixel x y pix s) c = stored s c.
Proof.
  intros Hok Hc Hne.
  pose proof Hok as (Hw & Hh & Hcols & Hrows & Hl).
  pose proof (Z.rem_bound_abs x 480 ltac:(lia)).
  pose proof (Z.rem_bound_abs y 320 ltac:(lia)).
  destruct (Z_lt_le_dec (Z.rem x 480) 0) as [Hx | Hx];
    [| destruct (Z_lt_le_dec (Z.rem y 320) 0) as [Hy | Hy]].
  - rewrite drv_set_pixel_outside by (rewrite Hcols; lia). reflexivity.
  - rewrite drv_set_pixel_outside by (rewrite Hrows; lia). reflexivity.
  - rewrite drv_set_pixel_reduce by assumption.
    assert (Hin : in_panel s (Z.rem x 480, Z.rem y 320)).
    { unfold in_panel. cbn [fst snd]. rewrite Hw, Hh. lia. }
    destruct (list_eq_dec (convert pix) (stored s (Z.rem x 480, Z.rem y 320))) as [E | E].
    + rewrite drv_set_pixel_same by assumption. reflexivity.
    + apply drv_set_pixel_changed_frame; assumption.
Qed.

(** X7.  A call touches one pixel only: the bytes stored for every other
    pixel of the panel are as before, whatever the coordinates and the
    colour of the call. *)
Theorem drv_set_pixel_other_pixels (x y : Z) (pix : RGBA) (s : dpf_t) (c : Z * Z) :
  panel_ok s -> in_panel s c -> c <> (Z.rem x 480, Z.rem y 320) ->
  stored (drv_set_pixel x y pix s) c = stored s c.
Proof. apply drv_set_pixel_frame. Qed.

Lemma drv_set_pixel_other_pixels_witness :
  stored (drv_set_pixel 490 10 red idle) (11, 10) = stored idle (11, 10).
Proof.
  apply (drv_set_pixel_other_pixels 490 10 red idle (11, 10)).
  - exact panel_ok_idle.
  - vm_compute. repeat split; discriminate.
  - vm_compute. discriminate.
Defined.

(** X8.  Which coordinates are accepted on the panel of [main]: the
    non-negative ones, which wrap around the canvas (the call acts on
    [(x mod 480, y mod 320)]), and the negative multiples of the canvas
    size.  Any other negative coordinate is rejected with a diagnostic,
    since the remainder of C keeps the sign of the dividend. *)
Theorem drv_set_pixel_accepts (x y : Z) (pix : RGBA) (s : dpf_t) :
  panel_ok s ->
  (errlog (drv_set_pixel x y pix s) = errlog s <->
   (0 <= x \/ Z.rem x 480 = 0) /\ (0 <= y \/ Z.rem y 320 = 0)) /\
  (0 <= x -> 0 <= y ->
   drv_set_pixel x y pix s = drv_set_pixel (x mod 480) (y mod 320) pix s /\
   stored (drv_set_pixel x y pix s) (x mod 480, y mod 320) = convert pix).
Proof.
  intros Hok. pose proof Hok as (Hw & Hh & Hcols & Hrows & Hl).
  pose proof (Z.rem_bound_abs x 480 ltac:(lia)) as Bx.
  pose proof (Z.rem_bound_abs y 320 ltac:(lia)) as By.
  assert (Sx : 0 <= Z.rem x 480 <-> 0 <= x \/ Z.rem x 480 = 0).
  { destruct (Z_lt_le_dec x 0) as [Hneg | Hpos].
    - pose proof (Z.rem_nonpos x 480 ltac:(lia) ltac:(lia)). lia.
    - pose proof (Z.rem_nonneg x 480 ltac:(lia) Hpos). lia. }
  assert (Sy : 0 <= Z.rem y 320 <-> 0 <= y \/ Z.rem y 320 = 0).
  { destruct (Z_lt_le_dec y 0) as [Hneg | Hpos].
    - pose proof (Z.rem_nonpos y 320 ltac:(lia) ltac:(lia)). lia.
    - pose proof (Z.rem_nonneg y 320 ltac:(lia) Hpos). lia. }
  split.
  - rewrite <- Sx, <- Sy. split.
    + intros E.
      destruct (Z_lt_le_dec (Z.rem x 480) 0) as [Hx | Hx];
        [| destruct (Z_lt_le_dec (Z.rem y 320) 0) as [Hy | Hy]]; [| | lia].
      * rewrite drv_set_pixel_outside in E by (rewrite Hcols; lia).
        cbn in E. apply (f_equal length) in E. rewrite length_app in E. cbn in E. lia.
      * rewrite drv_set_pixel_outside in E by (rewrite Hrows; lia).
        cbn in E. apply (f_equal length) in E. rewrite length_app in E. cbn in E. lia.
    + intros [Hx Hy]. apply drv_set_pixel_inside. rewrite Hw, Hh, Hcols, Hrows. lia.
  - intros Hx Hy.
    assert (Ex : Z.rem x 480 = x mod 480) by (apply Z.rem_mod_nonneg; lia).
    assert (Ey : Z.rem y 320 = y mod 320) by (apply Z.rem_mod_nonneg; lia).
    rewrite <- Ex, <- Ey.
    assert (R : drv_set_pixel x y pix s =
                drv_set_pixel (Z.rem x 480) (Z.rem y 320) pix s)
      by (apply drv_set_pixel_reduce; [exact Hok | lia | lia]).
    split; [exact R |].
    rewrite R. apply drv_set_pixel_stored; [exact Hok |].
    unfold in_panel. cbn [fst snd]. rewrite Hw, Hh. lia.
Qed.

Lemma drv_set_pixel_accepts_witness :
  errlog (drv_set_pixel (-480) 330 red idle) = errlog idle.
Proof.
  destruct (drv_set_pixel_accepts (-480) 330 red idle panel_ok_idle) as [[_ H] _].
  apply H. split; [right; reflexivity | left; lia].
Defined.

(** ** The dirty rectangle and the buffers over a session *)

Lemma update_flush_empty_eq (s : dpf_t) (w : usb_t) :
  minx s > maxx s \/ miny s > maxy s ->
  update_flush s w = (s, w).
Proof.
  intros H. unfold update_flush.
  destruct (Z.gtb_spec (minx s) (maxx s)); [reflexivity |].
  destruct (Z.gtb_spec (miny s) (maxy s)); [reflexivity |].
  lia.
Qed.

(** One call moves each side of the rectangle outwards or not at all, and
    keeps it inside the panel. *)
Lemma drv_set_pixel_rect (x y : Z) (pix : RGBA) (s : dpf_t) :
  let s' := drv_set_pixel x y pix s in
  (minx s' <= minx s /\ maxx s <= maxx s' /\
   miny s' <= miny s /\ maxy s <= maxy s') /\
  (rect_in_panel s -> rect_in_panel s').
Proof.
  unfold drv_set_pixel, rect_in_panel. cbv zeta.
  assert (Hlog : forall d,
             (minx (ErrorLog d s) <= minx s /\ maxx s <= maxx (ErrorLog d s) /\
              miny (ErrorLog d s) <= miny s /\ maxy s <= maxy (ErrorLog d s)) /\
             (0 <= minx s < pwidth s /\ 0 <= maxx s < pwidth s /\
              0 <= miny s < pheight s /\ 0 <= maxy s < pheight s ->
              0 <= minx (ErrorLog d s) < pwidth (ErrorLog d s) /\
              0 <= maxx (ErrorLog d s) < pwidth (ErrorLog d s) /\
              0 <= miny (ErrorLog d s) < pheight (ErrorLog d s) /\
              0 <= maxy (ErrorLog d s) < pheight (ErrorLog d s))).
  { intros d. cbn [ErrorLog minx maxx miny maxy pwidth pheight]. lia. }
  destruct (Z.ltb_spec (Z.rem x (DCOLS s)) 0); [apply Hlog |].
  destruct (Z.geb_spec (Z.rem x (DCOLS s)) (pwidth s)); [apply Hlog |].
  destruct (Z.ltb_spec (Z.rem y (DROWS s)) 0); [apply Hlog |].
  destruct (Z.geb_spec (Z.rem y (DROWS s)) (pheight s)); [apply Hlog |].
  clear Hlog. cbn [orb]. destruct (_ || _); [| lia].
  cbn [with_rect with_lcdBuf minx maxx miny maxy pwidth pheight].
  destruct (Z.ltb_spec (Z.rem x (DCOLS s)) (minx s));
    destruct (Z.gtb_spec (Z.rem x (DCOLS s)) (maxx s));
    destruct (Z.ltb_spec (Z.rem y (DROWS s)) (miny s));
    destruct (Z.gtb_spec (Z.rem y (DROWS s)) (maxy s)); lia.
Qed.

Lemma update_row_fields (fb : list Z) (x w ly : Z) (s : dpf_t) :
  let s' := update_row fb x w ly s in
  xferBuf s' = xferBuf s /\
  (minx s' <= minx s /\ maxx s <= maxx s' /\
   miny s' <= miny s /\ maxy s <= maxy s') /\
  (rect_in_panel s -> rect_in_panel s').
Proof.
  unfold update_row. generalize (seqZ x w) as l. intros l. revert s.
  induction l as [| lx l IH]; intros s; cbn [fold_left]; cbv zeta; [split; [reflexivity | split; [lia | auto]] |].
  destruct (IH (drv_set_pixel lx ly (fb_pixel fb s lx ly) s)) as (E & M & R).
  destruct (drv_set_pixel_rect lx ly (fb_pixel fb s lx ly) s) as (M1 & R1).
  destruct (drv_set_pixel_fields lx ly (fb_pixel fb s lx ly) s)
    as (_ & _ & _ & _ & _ & E1 & _).
  cbv zeta in *. rewrite E, E1. split; [reflexivity | split; [lia | auto]].
Qed.

Lemma update_pixels_fields (fb : list Z) (x y w h : Z) (s : dpf_t) :
  let s' := update_pixels fb x y w h s in
  xferBuf s' = xferBuf s /\
  (minx s' <= minx s /\ maxx s <= maxx s' /\
   miny s' <= miny s /\ maxy s <= maxy s') /\
  (rect_in_panel s -> rect_in_panel s').
Proof.
  unfold update_pixels. generalize (seqZ y h) as l. intros l. revert s.
  induction l as [| ly l IH]; intros s; cbn [fold_left]; cbv zeta; [split; [reflexivity | split; [lia | auto]] |].
  destruct (IH (update_row fb x w ly s)) as (E & M & R).
  destruct (update_row_fields fb x w ly s) as (E1 & M1 & R1).
  cbv zeta in *. rewrite E, E1. split; [reflexivity | split; [lia | auto]].
Qed.

(** X9.  Between two flushes the rectangle only grows: no call of
    [drv_set_pixel], and no pixel loop of [update], moves a side of the
    dirty rectangle inwards, whatever the coordinates and colours. *)
Theorem dirty_rectangle_grows (fb : list Z) (x y w h : Z) (pix : RGBA) (s : dpf_t) :
  (let s' := drv_set_pixel x y pix s in
   minx s' <= minx s /\ maxx s <= maxx s' /\
   miny s' <= miny s /\ maxy s <= maxy s') /\
  (let s' := update_pixels fb x y w h s in
   minx s' <= minx s /\ maxx s <= maxx s' /\
   miny s' <= miny s /\ maxy s <= maxy s').
Proof.
  split.
  - apply drv_set_pixel_rect.
  - apply update_pixels_fields.
Qed.

(** ** The copy of the dirty rectangle *)

Lemma length_memcpy (dst : list Z) (off : Z) (src : list Z) (n : Z) :
  0 <= off -> 0 <= n ->
  off + n <= Z.of_nat (length dst) -> n <= Z.of_nat (length src) ->
  length (memcpy dst off src n) = length dst.
Proof.
  intros Ho Hn Hd Hs. unfold memcpy.
  rewrite !length_app, length_drop, !length_take. lia.
Qed.

Lemma rd_memcpy_before (dst : list Z) (off : Z) (src : list Z) (n i : Z) :
  0 <= i < off -> off <= Z.of_nat (length dst) ->
  rd (memcpy dst off src n) i = rd dst i.
Proof.
  intros Hi Hd. unfold memcpy, rd.
  rewrite lookup_app_l by (rewrite length_take; lia).
  rewrite lookup_take_lt by lia. reflexivity.
Qed.

Lemma rd_memcpy_in (dst : list Z) (off : Z) (src : list Z) (n j : Z) :
  0 <= off -> 0 <= j < n ->
  off <= Z.of_nat (length dst) -> n <= Z.of_nat (length src) ->
  rd (memcpy dst off src n) (off + j) = rd src j.
Proof.
  intros Ho Hj Hd Hs. unfold memcpy, rd.
  rewrite lookup_app_r by (rewrite length_take; lia).
  rewrite length_take.
  replace (Z.to_nat (off + j) - Z.to_nat off `min` length dst)%nat
    with (Z.to_nat j) by lia.
  rewrite lookup_app_l by (rewrite length_take; lia).
  rewrite lookup_take_lt by lia. reflexivity.
Qed.

Lemma rd_drop (a : list Z) (ps j : Z) :
  0 <= ps -> 0 <= j -> rd (drop (Z.to_nat ps) a) j = rd a (ps + j).
Proof.
  intros Hp Hj. unfold rd. rewrite lookup_drop.
  replace (Z.to_nat ps + Z.to_nat j)%nat with (Z.to_nat (ps + j)) by lia.
  reflexivity.
Qed.

(** The loop of [copy_rows]: after it has run over [l], the destination
    holds row [r] of the source at [pd + r * cpy], is untouched below [pd],
    and has kept its length. *)
Lemma copy_loop (lcd : list Z) (stride cpy : Z) (l : list Z) :
  0 <= stride -> 0 <= cpy ->
  forall (ps pd : Z) (xfer : list Z),
    0 <= ps -> 0 <= pd ->
    pd + Z.of_nat (length l) * cpy <= Z.of_nat (length xfer) ->
    (forall r, 0 <= r < Z.of_nat (length l) ->
               ps + r * stride + cpy <= Z.of_nat (length lcd)) ->
    let res :=
      snd (fold_left
             (fun (acc : Z * Z * list Z) (_ : Z) =>
                let '(ps, pd, xfer) := acc in
                (ps + stride, pd + cpy,
                 memcpy xfer pd (drop (Z.to_nat ps) lcd) cpy))
             l (ps, pd, xfer)) in
    length res = length xfer /\
    (forall i, 0 <= i < pd -> rd res i = rd xfer i) /\
    (forall r j, 0 <= r < Z.of_nat (length l) -> 0 <= j < cpy ->
                 rd res (pd + r * cpy + j) = rd lcd (ps + r * stride + j)).
Proof.
  intros stride_nonneg cpy_nonneg.
  induction l as [| a l IH]; intros ps pd xfer Hps Hpd Hx Hl; cbv zeta.
  - cbn. repeat split; intros; lia.
  - cbn [fold_left]. cbn [length] in Hx, Hl.
    rewrite Nat2Z.inj_succ in Hx, Hl.
    rewrite Z.mul_succ_l in Hx.
    pose proof (Hl 0 ltac:(lia)) as Hl0. rewrite Z.mul_0_l, Z.add_0_r in Hl0.
    assert (Hlen : length (memcpy xfer pd (drop (Z.to_nat ps) lcd) cpy) = length xfer).
    { apply length_memcpy; try lia. rewrite length_drop. lia. }
    destruct (IH (ps + stride) (pd + cpy)
                (memcpy xfer pd (drop (Z.to_nat ps) lcd) cpy)) as (E1 & E2 & E3);
      [lia | lia | rewrite Hlen; lia | |].
    { intros r Hr. specialize (Hl (r + 1) ltac:(lia)).
      rewrite Z.mul_add_distr_r, Z.mul_1_l in Hl. lia. }
    cbv zeta in E1, E2, E3.
    split; [rewrite E1; exact Hlen |]. split.
    + intros i Hi. rewrite E2 by lia. apply rd_memcpy_before; lia.
    + intros r j Hr Hj. cbn [length] in Hr. rewrite Nat2Z.inj_succ in Hr.
      destruct (Z.eq_dec r 0) as [-> | Hr0].
      * rewrite !Z.mul_0_l, !Z.add_0_r.
        rewrite E2 by lia.
        rewrite rd_memcpy_in by (try lia; rewrite length_drop; lia).
        apply rd_drop; lia.
      * specialize (E3 (r - 1) j ltac:(lia) Hj).
        rewrite !Z.mul_sub_distr_r, !Z.mul_1_l in E3.
        replace (pd + cpy + (r * cpy - cpy) + j) with (pd + r * cpy + j) in E3 by lia.
        replace (ps + stride + (r * stride - stride) + j)
          with (ps + r * stride + j) in E3 by lia.
        exact E3.
Qed.

Lemma copy_rows_spec (s : dpf_t) :
  driver_inv s -> minx s <= maxx s -> miny s <= maxy s ->
  length (copy_rows s) = length (xferBuf s) /\
  (forall r j, 0 <= r < maxy s - miny s + 1 ->
               0 <= j < (maxx s - minx s + 1) * 2 ->
               rd (copy_rows s) (r * ((maxx s - minx s + 1) * 2) + j) =
               rd (lcdBuf s) (((miny s + r) * 480 + minx s) * 2 + j)).
Proof.
  intros ((Hw & Hh & _ & _ & Hl) & (Hx0 & Hx1 & Hy0 & Hy1) & Hxf) Hx Hy.
  rewrite Hw in *. rewrite Hh in *.
  set (cpy := to_uint ((maxx s - minx s + 1) * DPF_BPP)).
  assert (Ecpy : cpy = (maxx s - minx s + 1) * 2).
  { unfold cpy, DPF_BPP. apply to_uint_small. lia. }
  set (rows := seqZ (miny s) (maxy s - miny s + 1)).
  assert (Hrows : Z.of_nat (length rows) = maxy s - miny s + 1).
  { unfold rows. rewrite length_seqZ. lia. }
  assert (K : length (copy_rows s) = length (xferBuf s) /\
              (forall i, 0 <= i < 0 -> rd (copy_rows s) i = rd (xferBuf s) i) /\
              (forall r j, 0 <= r < Z.of_nat (length rows) -> 0 <= j < cpy ->
                           rd (copy_rows s) (0 + r * cpy + j) =
                           rd (lcdBuf s)
                              ((miny s * pwidth s + minx s) * DPF_BPP +
                               r * (pwidth s * DPF_BPP) + j))).
  { refine (copy_loop (lcdBuf s) (pwidth s * DPF_BPP) cpy rows _ _
              ((miny s * pwidth s + minx s) * DPF_BPP) 0 (xferBuf s) _ _ _ _);
      rewrite ?Hw, ?Hrows, ?Ecpy; unfold DPF_BPP; try lia;
      try (intros r Hr; lia); nia. }
  destruct K as (K1 & _ & K3). split; [exact K1 |].
  intros r j Hr Hj.
  specialize (K3 r j ltac:(lia) ltac:(lia)).
  rewrite Ecpy, Hw in K3. unfold DPF_BPP in K3.
  rewrite Z.add_0_l in K3. rewrite K3. f_equal. lia.
Qed.

(** X10.  What a flush puts in the transfer buffer: for a non-empty dirty
    rectangle of width W and height H inside the panel, the buffer keeps
    its size, and its first W * H * 2 bytes are the rows of the rectangle
    without padding: the pixel in row [r] and column [c] of the rectangle
    sits at byte [(r * W + c) * 2] and is the pixel the resident buffer
    stores for [(minx + c, miny + r)]. *)
Theorem copy_rows_payload (s : dpf_t) (r c : Z) :
  driver_inv s -> minx s <= maxx s -> miny s <= maxy s ->
  let W := maxx s - minx s + 1 in
  let H := maxy s - miny s + 1 in
  0 <= r < H -> 0 <= c < W ->
  length (copy_rows s) = length (xferBuf s) /\
  [rd (copy_rows s) ((r * W + c) * 2); rd (copy_rows s) ((r * W + c) * 2 + 1)] =
    stored s (minx s + c, miny s + r).
Proof.
  intros Hinv Hx Hy W H Hr Hc.
  destruct (copy_rows_spec s Hinv Hx Hy) as (E & K).
  split; [exact E |].
  destruct Hinv as ((Hw & _) & _).
  unfold stored. cbn [fst snd]. rewrite Hw. unfold DPF_BPP.
  pose proof (K r (c * 2) ltac:(lia) ltac:(lia)) as K0.
  pose proof (K r (c * 2 + 1) ltac:(lia) ltac:(lia)) as K1.
  fold W in K0, K1.
  replace ((r * W + c) * 2) with (r * (W * 2) + c * 2) by lia.
  replace (r * (W * 2) + c * 2 + 1) with (r * (W * 2) + (c * 2 + 1)) by lia.
  rewrite K0, K1. f_equal; [f_equal; lia | f_equal; f_equal; lia].
Qed.

(** ** Invariants of a session and the transfers of a flush *)

Lemma driver_inv_main_init (h : DPFContext) (heap : list Z) :
  driver_inv (main_init h heap).
Proof.
  assert (Hl : Z.of_nat (length (lcdBuf (main_init h heap))) = 307200).
  { unfold main_init. cbn [lcdBuf]. rewrite length_replicate.
    rewrite Z2Nat.id by (unfold DPF_BPP; lia). reflexivity. }
  assert (Hx : Z.of_nat (length (xferBuf (main_init h heap))) = 307200).
  { unfold main_init. cbn [xferBuf]. rewrite length_resize.
    rewrite Z2Nat.id by (unfold DPF_BPP; lia). reflexivity. }
  split; [| split; [| exact Hx]].
  - unfold panel_ok. split; [reflexivity |]. split; [reflexivity |].
    split; [reflexivity |]. split; [reflexivity |]. exact Hl.
  - unfold rect_in_panel, main_init.
    cbn [minx maxx miny maxy pwidth pheight]. lia.
Qed.

Lemma driver_inv_drv_set_pixel (x y : Z) (pix : RGBA) (s : dpf_t) :
  driver_inv s -> driver_inv (drv_set_pixel x y pix s).
Proof.
  intros (Hok & Hr & Hx). split; [| split].
  - apply drv_set_pixel_panel_ok, Hok.
  - apply drv_set_pixel_rect, Hr.
  - destruct (drv_set_pixel_fields x y pix s) as (_ & _ & _ & _ & _ & E & _).
    rewrite E. exact Hx.
Qed.

Lemma driver_inv_update_pixels (fb : list Z) (x y w h : Z) (s : dpf_t) :
  driver_inv s -> driver_inv (update_pixels fb x y w h s).
Proof.
  intros (Hok & Hr & Hx). split; [| split].
  - apply update_pixels_panel_ok, Hok.
  - apply update_pixels_fields, Hr.
  - destruct (update_pixels_fields fb x y w h s) as (E & _). rewrite E. exact Hx.
Qed.

Lemma driver_inv_update_flush (s : dpf_t) (w : usb_t) :
  driver_inv s -> driver_inv (fst (update_flush s w)).
Proof.
  intros Hinv.
  destruct (Z_le_gt_dec (minx s) (maxx s)) as [Hx |];
    [destruct (Z_le_gt_dec (miny s) (maxy s)) as [Hy |] |].
  - rewrite update_flush_nonempty by assumption. cbn [fst].
    destruct (copy_rows_spec s Hinv Hx Hy) as (El & _).
    destruct Hinv as ((Hw & Hh & Hc & Hr & Hl) & _ & Hxf).
    split; [| split].
    + unfold panel_ok. cbn. auto.
    + unfold rect_in_panel. cbn. rewrite Hw, Hh. lia.
    + cbn. rewrite El. exact Hxf.
  - rewrite update_flush_empty_eq by (right; lia). exact Hinv.
  - rewrite update_flush_empty_eq by (left; lia). exact Hinv.
Qed.

Lemma to_short_small (z : Z) : -32768 <= z < 32768 -> to_short z = z.
Proof. intros H. unfold to_short. rewrite Z.mod_small; lia. Qed.

(** The command of a blit for the inclusive rectangle
    [(x0, y0) .. (x1, y1)]. *)
Lemma blit_cmd_length (g t : list Z) (rect : rect_t) :
  g = excmd_header ++ t -> length t = 10%nat -> length (blit_cmd g rect) = 16%nat.
Proof.
  intros -> Ht. destruct rect as [[[r0 r1] r2] r3]. unfold blit_cmd, wr.
  rewrite !length_insert, length_app, Ht. reflexivity.
Qed.

(** The transfers of a flush of a non-empty rectangle. *)
Lemma update_flush_trace (s : dpf_t) (u : usb_t) :
  driver_inv s -> gbuf_ok u -> excmd_ok u ->
  minx s <= maxx s -> miny s <= maxy s ->
  let len := (maxx s - minx s + 1) * (maxy s - miny s + 1) * 2 in
  let cmd := excmd_header ++ [USBCMD_BLIT] ++ le16 (minx s) ++ le16 (miny s) ++
             le16 (maxx s) ++ le16 (maxy s) ++ [0] in
  let u' := snd (update_flush s u) in
  exists (ds : list bulk_call) (k : nat),
    issued u' = issued u ++ envelope_call (dpfh s) cmd len :: ds ++
                replicate k (status_call (udev (dpfh s))) /\
    (k <= 5)%nat /\
    (ds = [] \/
     ds = [{| bc_dev := udev (dpfh s); bc_endpoint := ENDPT_OUT;
              bc_bytes := take (Z.to_nat len) (copy_rows s);
              bc_length := len; bc_timeout := 3000 |}]) /\
    gbuf_ok u' /\ excmd_ok u'.
Proof.
  intros ((Hw & Hh & _) & (Hx0 & Hx1 & Hy0 & Hy1) & _) Hg (t & Ex & Ht) Hx Hy len cmd u'.
  rewrite Hw in *. rewrite Hh in *.
  unfold u'. rewrite update_flush_nonempty by assumption. cbn [snd].
  rewrite !to_short_small by lia.
  rewrite dpf_ax_screen_blit_unfold. cbn [snd].
  assert (Ec : blit_cmd (g_excmd u) (minx s, miny s, maxx s + 1, maxy s + 1) = cmd).
  { rewrite (blit_cmd_bytes _ t) by assumption.
    rewrite !Z.add_simpl_r. reflexivity. }
  assert (El : blit_len (minx s, miny s, maxx s + 1, maxy s + 1) = len).
  { rewrite blit_len_bytes by nia. unfold len. ring. }
  rewrite Ec, El.
  assert (Hlc : length cmd = 16%nat) by reflexivity.
  destruct (wrap_scsi_trace_aux (dpfh s) cmd DIR_OUT (Some (copy_rows s)) len
              (with_g_excmd cmd u) Hg Hlc) as (ds & k & Ei & Hk & Hds & Eg & Exx).
  exists ds, k. split; [exact Ei |]. split; [exact Hk |].
  split; [| split].
  - destruct Hds as [-> | (d & [= <-] & ->)]; [left; reflexivity | right].
    unfold data_call. rewrite Z.eqb_refl.
    rewrite to_int_small by (unfold len; nia). reflexivity.
  - eapply gbuf_ok_envelope; eassumption.
  - unfold excmd_ok. rewrite Exx. cbn [with_g_excmd g_excmd].
    exists ([USBCMD_BLIT] ++ le16 (minx s) ++ le16 (miny s) ++
            le16 (maxx s) ++ le16 (maxy s) ++ [0]).
    split; reflexivity.
Qed.

Lemma driver_inv_two_pixels :
  driver_inv (drv_set_pixel 20 20 green (drv_set_pixel 10 10 red idle)).
Proof.
  unfold driver_inv, panel_ok, rect_in_panel.
  repeat split; vm_compute; solve [reflexivity | discriminate].
Qed.

Lemma copy_rows_payload_witness :
  let s := drv_set_pixel 20 20 green (drv_set_pixel 10 10 red idle) in
  [rd (copy_rows s) 240; rd (copy_rows s) 241] = stored s (20, 20).
Proof.
  intros s.
  destruct (copy_rows_payload s 10 10) as [_ H].
  - unfold driver_inv, panel_ok, rect_in_panel.
    repeat split; vm_compute; solve [reflexivity | discriminate].
  - vm_compute. discriminate.
  - vm_compute. discriminate.
  - vm_compute. split; [discriminate | reflexivity].
  - vm_compute. split; [discriminate | reflexivity].
  - exact H.
Defined.

(** X11.  The invariants of a session.  [main] starts with a 480x320
    panel, a dirty rectangle inside it and two buffers of 307200 bytes, and
    the transport starts with its two static buffers laid out; every
    [drv_set_pixel] and every [update] keeps all of this, whatever the
    coordinates, the frame buffer and the answers of the device. *)
Theorem session_invariant :
  (forall h heap, driver_inv (main_init h heap)) /\
  (forall replies, gbuf_ok (usb_init replies) /\ excmd_ok (usb_init replies)) /\
  (forall x y pix s, driver_inv s -> driver_inv (drv_set_pixel x y pix s)) /\
  (forall fb x y w h s u,
      driver_inv s -> gbuf_ok u -> excmd_ok u ->
      driver_inv (fst (update fb x y w h s u)) /\
      gbuf_ok (snd (update fb x y w h s u)) /\
      excmd_ok (snd (update fb x y w h s u))).
Proof.
  split; [exact driver_inv_main_init |].
  split; [intros replies; split; [apply gbuf_ok_init | apply excmd_ok_init] |].
  split; [intros x y pix s; apply driver_inv_drv_set_pixel |].
  intros fb x y w h s u Hinv Hg He. unfold update.
  pose proof (driver_inv_update_pixels fb x y w h s Hinv) as Hinv1.
  split; [apply driver_inv_update_flush, Hinv1 |].
  set (s1 := update_pixels fb x y w h s) in *.
  destruct (Z_le_gt_dec (minx s1) (maxx s1)) as [Hx |];
    [destruct (Z_le_gt_dec (miny s1) (maxy s1)) as [Hy |] |].
  - destruct (update_flush_trace s1 u Hinv1 Hg He Hx Hy) as (_ & _ & _ & _ & _ & G & E).
    split; [exact G | exact E].
  - rewrite update_flush_empty_eq by (right; lia). split; assumption.
  - rewrite update_flush_empty_eq by (left; lia). split; assumption.
Qed.

Lemma session_invariant_witness :
  driver_inv (fst (update [] 0 0 0 0 (main_init h0 []) (usb_init []))).
Proof.
  destruct session_invariant as (Hinit & Husb & _ & Hupd).
  apply Hupd; [apply Hinit | apply Husb | apply Husb].
Defined.

(** An OUT command with a data buffer, transfer by transfer: what is sent
    depends on the answers to the wrapper and to the data transfer only. *)
Lemma wrap_scsi_out_trace (h : DPFContext) (cmd d : list Z) (block_len : Z)
    (w : usb_t) :
  gbuf_ok w -> length cmd = 16%nat ->
  let w' := snd (wrap_scsi h cmd 16 DIR_OUT (Some d) block_len w) in
  let env := hd timed_out (pending w) in
  let dr := hd timed_out (drop 1 (pending w)) in
  (br_ret env <> 0 -> issued w' = issued w ++ [envelope_call h cmd block_len]) /\
  (br_ret env = 0 ->
   exists k : nat,
     issued w' = issued w ++ envelope_call h cmd block_len ::
                 data_call h DIR_OUT d block_len ::
                 replicate k (status_call (udev h)) /\
     (k <= 5)%nat /\
     (br_ret dr = 0 /\ br_transferred dr = to_int block_len -> (1 <= k)%nat) /\
     (br_ret dr <> 0 \/ br_transferred dr <> to_int block_len -> k = 0%nat)).
Proof.
  intros Hg Hc. cbv zeta. unfold wrap_scsi.
  rewrite (g_buf_written (g_buf w) cmd block_len Hg Hc).
  set (w0 := with_g_buf (envelope cmd block_len) w).
  destruct (libusb_bulk_transfer_eq (udev h) ENDPT_OUT (g_buf w0) 31 1000 w0)
    as (w1 & E & Hi & Hp & _).
  rewrite E. clear E.
  change (is_in_endpoint ENDPT_OUT) with false in Hi. cbn iota in Hi.
  cbn [w0 with_g_buf g_buf issued pending] in Hi, Hp |- *.
  rewrite take_ge in Hi by (rewrite length_envelope by exact Hc; cbn; lia).
  fold (envelope_call h cmd block_len) in Hi.
  destruct (Z.eqb_spec (br_ret (hd timed_out (pending w))) 0) as [He | He];
    cbn [negb].
  2: { split; [intros _; cbn [snd]; exact Hi | intros H0; contradiction]. }
  split; [intros H0; contradiction |]. intros _.
  rewrite Z.eqb_refl.
  destruct (libusb_bulk_transfer_eq (udev h) ENDPT_OUT d (to_int block_len) 3000 w1)
    as (w2 & E2 & Hi2 & Hp2 & _).
  rewrite E2. clear E2.
  change (is_in_endpoint ENDPT_OUT) with false in Hi2. cbn iota in Hi2.
  assert (Ed : data_call h DIR_OUT d block_len =
               {| bc_dev := udev h; bc_endpoint := ENDPT_OUT;
                  bc_bytes := take (Z.to_nat (to_int block_len)) d;
                  bc_length := to_int block_len; bc_timeout := 3000 |})
    by reflexivity.
  rewrite <- Ed in Hi2. rewrite Hp.
  destruct (Z.eqb_spec (br_ret (hd timed_out (drop 1 (pending w)))) 0) as [Hr | Hr];
    [destruct (Z.eqb_spec (br_transferred (hd timed_out (drop 1 (pending w))))
                 (to_int block_len)) as [Ht | Ht] |]; cbn [negb orb].
  - destruct (wrap_scsi_status_trace h w2) as (n & Hn & Ei & _).
    exists n. destruct (wrap_scsi_status h w2) as [r w3]. cbn [snd] in *.
    rewrite Ei, Hi2, Hi, <- !app_assoc. cbn.
    split; [reflexivity |]. split; [lia |]. split; [intros _; lia |].
    intros [H | H]; contradiction.
  - exists 0%nat. cbn [snd fprintf issued replicate].
    rewrite Hi2, Hi, <- !app_assoc. cbn.
    split; [reflexivity |]. split; [lia |]. split; [| reflexivity].
    intros [_ H]. contradiction.
  - exists 0%nat. cbn [snd fprintf issued replicate].
    rewrite Hi2, Hi, <- !app_assoc. cbn.
    split; [reflexivity |]. split; [lia |]. split; [| reflexivity].
    intros [H _]. contradiction.
Qed.

(** X12.  The transfers of a flush.  For a non-empty dirty rectangle of
    width W and height H the flush sends one wrapper whose command is the
    blit of the inclusive rectangle (minx, miny) .. (maxx, maxy) and whose
    length field is W * H * 2.  If the device rejects the wrapper, nothing
    else is sent.  If the device accepts it, one OUT data transfer of exactly
    the first W * H * 2 bytes of the transfer buffer follows, and then the
    status reads: between one and five when the data transfer went through
    in full, none when it failed or was short.  Nothing else is sent. *)
Theorem update_flush_transfers (s : dpf_t) (u : usb_t) :
  driver_inv s -> gbuf_ok u -> excmd_ok u ->
  minx s <= maxx s -> miny s <= maxy s ->
  let len := (maxx s - minx s + 1) * (maxy s - miny s + 1) * 2 in
  let cmd := excmd_header ++ [USBCMD_BLIT] ++ le16 (minx s) ++ le16 (miny s) ++
             le16 (maxx s) ++ le16 (maxy s) ++ [0] in
  let data := {| bc_dev := udev (dpfh s); bc_endpoint := ENDPT_OUT;
                 bc_bytes := take (Z.to_nat len) (copy_rows s);
                 bc_length := len; bc_timeout := 3000 |} in
  let u' := snd (update_flush s u) in
  let env := hd timed_out (pending u) in
  let dr := hd timed_out (drop 1 (pending u)) in
  (br_ret env <> 0 ->
   issued u' = issued u ++ [envelope_call (dpfh s) cmd len]) /\
  (br_ret env = 0 ->
   exists k : nat,
     issued u' = issued u ++ envelope_call (dpfh s) cmd len :: data ::
                 replicate k (status_call (udev (dpfh s))) /\
     (k <= 5)%nat /\
     (br_ret dr = 0 /\ br_transferred dr = len -> (1 <= k)%nat) /\
     (br_ret dr <> 0 \/ br_transferred dr <> len -> k = 0%nat)).
Proof.
  intros ((Hw & Hh & _) & (Hx0 & Hx1 & Hy0 & Hy1) & _) Hg (t & Ex & Ht) Hx Hy
         len cmd data u' env dr.
  rewrite Hw in *. rewrite Hh in *.
  unfold u'. rewrite update_flush_nonempty by assumption. cbn [snd].
  rewrite !to_short_small by lia.
  rewrite dpf_ax_screen_blit_unfold. cbn [snd].
  assert (Ec : blit_cmd (g_excmd u) (minx s, miny s, maxx s + 1, maxy s + 1) = cmd).
  { rewrite (blit_cmd_bytes _ t) by assumption.
    rewrite !Z.add_simpl_r. reflexivity. }
  assert (El : blit_len (minx s, miny s, maxx s + 1, maxy s + 1) = len).
  { rewrite blit_len_bytes by nia. unfold len. ring. }
  rewrite Ec, El.
  assert (Hlc : length cmd = 16%nat) by reflexivity.
  assert (Eint : to_int len = len) by (apply to_int_small; unfold len; nia).
  assert (Ed : data_call (dpfh s) DIR_OUT (copy_rows s) len = data).
  { unfold data_call, data. rewrite Z.eqb_refl, Eint. reflexivity. }
  pose proof (wrap_scsi_out_trace (dpfh s) cmd (copy_rows s) len
                (with_g_excmd cmd u) Hg Hlc) as [T1 T2].
  cbv zeta in T1, T2. cbn [with_g_excmd pending issued] in T1, T2.
  rewrite Ed, Eint in T2.
  split; [exact T1 | exact T2].
Qed.

Lemma update_flush_transfers_witness :
  let s := drv_set_pixel 20 20 green (drv_set_pixel 10 10 red idle) in
  let u := usb_init [ok_reply 31 []; ok_reply 242 []; ok_reply 13 (csw 0)] in
  exists k : nat,
    issued (snd (update_flush s u)) =
      envelope_call h0 [205; 0; 0; 0; 0; 6; 18; 10; 0; 10; 0; 20; 0; 20; 0; 0] 242 ::
      {| bc_dev := 7; bc_endpoint := ENDPT_OUT;
         bc_bytes := take 242 (copy_rows s);
         bc_length := 242; bc_timeout := 3000 |} ::
      replicate k (status_call 7) /\
    (1 <= k <= 5)%nat.
Proof.
  intros s u.
  destruct (update_flush_transfers s u) as (_ & H).
  - unfold driver_inv, panel_ok, rect_in_panel.
    repeat split; vm_compute; solve [reflexivity | discriminate].
  - apply gbuf_ok_init.
  - apply excmd_ok_init.
  - vm_compute. discriminate.
  - vm_compute. discriminate.
  - destruct (H eq_refl) as (k & E & Hk & Hok & _).
    exists k. split; [exact E |]. split; [| exact Hk].
    apply Hok. split; vm_compute; reflexivity.
Defined.

(** X13.  The first [update] after start-up sends the whole panel,
    whatever region it is called for: the rectangle [main] leaves is the
    full panel and the pixel loop cannot shrink it, so the wrapper carries
    the blit of (0, 0) .. (479, 319) with length 307200, and the rectangle
    is empty afterwards. *)
Theorem first_update_sends_whole_panel (h : DPFContext) (heap fb : list Z)
    (x y w hh : Z) (u : usb_t) :
  gbuf_ok u -> excmd_ok u ->
  let s' := fst (update fb x y w hh (main_init h heap) u) in
  let u' := snd (update fb x y w hh (main_init h heap) u) in
  dirty s' = (479, 0, 319, 0) /\
  exists tail,
    issued u' = issued u ++
      envelope_call h [205; 0; 0; 0; 0; 6; 18; 0; 0; 0; 0; 223; 1; 63; 1; 0] 307200 ::
      tail.
Proof.
  intros Hg He s' u'. unfold s', u', update.
  pose proof (driver_inv_main_init h heap) as Hinv0.
  pose proof (driver_inv_update_pixels fb x y w hh _ Hinv0) as Hinv1.
  destruct (update_pixels_fields fb x y w hh (main_init h heap)) as (_ & M & _).
  pose proof (update_pixels_dpfh fb x y w hh (main_init h heap)) as Eh.
  set (s1 := update_pixels fb x y w hh (main_init h heap)) in *.
  cbv zeta in M. cbn [main_init minx maxx miny maxy] in M.
  destruct Hinv1 as (Hok & Hr & Hxf).
  pose proof Hok as (Hw & Hh & _). pose proof Hr as (R1 & R2 & R3 & R4).
  rewrite Hw in R1, R2. rewrite Hh in R3, R4.
  assert (E1 : minx s1 = 0) by lia. assert (E2 : maxx s1 = 479) by lia.
  assert (E3 : miny s1 = 0) by lia. assert (E4 : maxy s1 = 319) by lia.
  split.
  - rewrite update_flush_nonempty by lia. unfold dirty. cbn. rewrite Hw, Hh. reflexivity.
  - destruct (update_flush_trace s1 u (conj Hok (conj Hr Hxf)) Hg He)
      as (ds & k & Ei & _); [lia | lia |].
    rewrite E1, E2, E3, E4, Eh in Ei. cbn [main_init dpfh] in Ei.
    eexists. exact Ei.
Qed.

Lemma first_update_sends_whole_panel_witness :
  dirty (fst (update [] 5 5 1 1 (main_init h0 []) (usb_init []))) = (479, 0, 319, 0).
Proof.
  apply (first_update_sends_whole_panel h0 [] [] 5 5 1 1 (usb_init []));
    [apply gbuf_ok_init | apply excmd_ok_init].
Defined.

Lemma fold_left_fixed {A B : Type} (f : A -> B -> A) (l : list B) (a : A) :
  (forall b, In b l -> f a b = a) -> fold_left f l a = a.
Proof.
  induction l as [| b l IH]; intros H; cbn [fold_left]; [reflexivity |].
  rewrite (H b (or_introl eq_refl)). apply IH. intros b' Hb'. apply H. right. exact Hb'.
Qed.

(** X14.  An [update] for a region of the panel in which every pixel of
    the frame buffer converts to the colour already stored, made while the
    dirty rectangle is empty, does nothing at all: no transfer is issued
    and the driver state is unchanged. *)
Theorem update_unchanged_frame (fb : list Z) (x y w h : Z) (s : dpf_t) (u : usb_t) :
  panel_ok s ->
  minx s > maxx s \/ miny s > maxy s ->
  0 <= x -> 0 <= y -> x + w <= 480 -> y + h <= 320 ->
  (forall lx ly, x <= lx < x + w -> y <= ly < y + h ->
                 convert (fb_pixel fb s lx ly) = stored s (lx, ly)) ->
  update fb x y w h s u = (s, u).
Proof.
  intros Hok Hempty Hx Hy Hw Hh Hsame. unfold update.
  assert (E : update_pixels fb x y w h s = s).
  { unfold update_pixels. apply fold_left_fixed. intros ly Hly.
    apply list_elem_of_In, elem_of_seqZ in Hly.
    unfold update_row. apply fold_left_fixed. intros lx Hlx.
    apply list_elem_of_In, elem_of_seqZ in Hlx.
    apply drv_set_pixel_same; [exact Hok | | apply Hsame; lia].
    destruct Hok as (Ew & Eh & _). unfold in_panel. cbn [fst snd].
    rewrite Ew, Eh. lia. }
  rewrite E. apply update_flush_empty_eq, Hempty.
Qed.

Lemma update_unchanged_frame_witness :
  update (replicate 1000 0) 0 0 10 1 idle (usb_init []) = (idle, usb_init []).
Proof.
  apply (update_unchanged_frame (replicate 1000 0) 0 0 10 1 idle (usb_init []));
    [exact panel_ok_idle | left; vm_compute; reflexivity | lia | lia | lia | lia |].
  intros lx ly Hlx Hly. assert (ly = 0) as -> by lia.
  assert (lx = 0 \/ lx = 1 \/ lx = 2 \/ lx = 3 \/ lx = 4 \/ lx = 5 \/ lx = 6 \/
          lx = 7 \/ lx = 8 \/ lx = 9) as Hc by lia.
  repeat (destruct Hc as [-> | Hc]; [vm_compute; reflexivity |]).
  subst lx. vm_compute. reflexivity.
Defined.

(** ** Device locator *)

Lemma strlen_c_string (s : list Z) : strlen s = Z.of_nat (length (c_string s)).
Proof.
  induction s as [| c r IH]; cbn [strlen c_string]; [reflexivity |].
  destruct (c =? 0); [reflexivity |]. cbn [length]. lia.
Qed.

Lemma c_string_cons (s : list Z) (c : Z) (t : list Z) :
  c_string s = c :: t -> exists r, s = c :: r /\ c <> 0 /\ c_string r = t.
Proof.
  destruct s as [| c0 r]; cbn [c_string]; [discriminate |].
  destruct (Z.eqb_spec c0 0); [discriminate |].
  intros [= -> <-]. eauto.
Qed.

Lemma c_string_four (s : list Z) (c0 c1 c2 c3 : Z) :
  c_string s = [c0; c1; c2; c3] ->
  exists r, s = c0 :: c1 :: c2 :: c3 :: r /\ c_string r = [].
Proof.
  intros H.
  apply c_string_cons in H as (r0 & -> & _ & H).
  apply c_string_cons in H as (r1 & -> & _ & H).
  apply c_string_cons in H as (r2 & -> & _ & H).
  apply c_string_cons in H as (r3 & -> & _ & H).
  eauto.
Qed.

(** [strncmp (s, lit, 3)] for a literal of three non-NUL characters. *)
Lemma strncmp_three (s : list Z) (a b c : Z) :
  a <> 0 -> b <> 0 -> c <> 0 ->
  (strncmp s [a; b; c; 0] 3 = 0 <-> take 3 s = [a; b; c]).
Proof.
  intros Ha Hb Hc.
  destruct s as [| s0 [| s1 [| s2 t]]]; cbn [strncmp hd tl take];
    repeat match goal with
           | |- context [?x =? ?y] =>
               destruct (Z.eqb_spec x y); subst; cbn [strncmp hd tl take]
           end;
    split; intros H; try reflexivity; try discriminate H; try contradiction;
    try (injection H; intros; subst; lia); try lia.
Qed.

Lemma selector_index_valid (s : list Z) (d : Z) :
  selector_of s d -> selector_index (Some s) = d - 48.
Proof.
  intros H. unfold selector_index.
  rewrite strlen_c_string.
  destruct H as [H | H]; rewrite H; cbn [length Z.of_nat];
    apply c_string_four in H as (r & -> & _).
  - assert (E : strncmp (117 :: 115 :: 98 :: d :: r) str_usb 3 = 0)
      by (apply strncmp_three; [lia | lia | lia | reflexivity]).
    rewrite E. reflexivity.
  - assert (E : strncmp (100 :: 112 :: 102 :: d :: r) str_dpf 3 = 0)
      by (apply strncmp_three; [lia | lia | lia | reflexivity]).
    rewrite E. cbn [Z.eqb orb andb Pos.eqb]. rewrite orb_true_r. reflexivity.
Qed.

Lemma selector_index_other (dev : option (list Z)) :
  selector_index dev <> -1 ->
  exists s d, dev = Some s /\ selector_of s d /\ selector_index dev = d - 48.
Proof.
  destruct dev as [s |]; [| intros H; contradiction H; reflexivity].
  intros Hne.
  assert (Hcond : strlen s = 4 /\
                  (strncmp s str_usb 3 = 0 \/ strncmp s str_dpf 3 = 0)).
  { unfold selector_index in Hne.
    destruct (Z.eqb_spec (strlen s) 4); [| contradiction Hne; reflexivity].
    destruct (Z.eqb_spec (strncmp s str_usb 3) 0); [auto |].
    destruct (Z.eqb_spec (strncmp s str_dpf 3) 0); [auto |].
    contradiction Hne. reflexivity. }
  destruct Hcond as [Hlen Hpre].
  rewrite strlen_c_string in Hlen.
  destruct (c_string s) as [| c0 [| c1 [| c2 [| c3 [| c4 t]]]]] eqn:Ec;
    cbn [length] in Hlen; try lia.
  pose proof (c_string_four s c0 c1 c2 c3 Ec) as (r & -> & _).
  assert (Hsel : selector_of (c0 :: c1 :: c2 :: c3 :: r) c3).
  { unfold selector_of. rewrite Ec.
    destruct Hpre as [H | H]; apply strncmp_three in H; try lia;
      cbn in H; injection H as -> -> ->; auto. }
  exists (c0 :: c1 :: c2 :: c3 :: r), c3.
  split; [reflexivity |]. split; [exact Hsel |].
  apply selector_index_valid, Hsel.
Qed.

(** X15.  The selector.  [dpf_ax_open] reads an index from its argument
    exactly when the C string is "usb" or "dpf" followed by one more
    character, and the index is that character minus '0'; it goes on to
    libusb exactly when that character is a decimal digit.  For a null
    pointer or any other string it logs the error and returns the null
    handle without a single libusb call and without any transfer. *)
Theorem dpf_ax_open_selector (dev : option (list Z)) (b : bus_t) (w : usb_t) :
  (forall s d, dev = Some s -> selector_of s d -> selector_index dev = d - 48) /\
  (valid_selector dev <-> 0 <= selector_index dev <= 9) /\
  (~ valid_selector dev ->
   dpf_ax_open dev b w = (None, bus_log_add WrongDevice b, w)).
Proof.
  assert (Hiff : valid_selector dev <-> 0 <= selector_index dev <= 9).
  { split.
    - intros (s & d & -> & Hd & Hsel).
      rewrite (selector_index_valid s d Hsel). lia.
    - intros Hr.
      destruct (selector_index_other dev ltac:(lia)) as (s & d & -> & Hsel & E).
      exists s, d. split; [reflexivity |]. split; [lia | exact Hsel]. }
  split; [| split; [exact Hiff |]].
  - intros s d -> Hsel. apply selector_index_valid, Hsel.
  - intros Hnv. unfold dpf_ax_open.
    destruct (Z.ltb_spec (selector_index dev) 0); [reflexivity |].
    destruct (Z.gtb_spec (selector_index dev) 9); [reflexivity |].
    exfalso. apply Hnv, Hiff. lia.
Qed.

Lemma dpf_ax_open_selector_witness :
  dpf_ax_open (Some [97; 98; 99; 100]) quiet_bus (usb_init []) =
    (None, bus_log_add WrongDevice quiet_bus, usb_init []).
Proof.
  destruct (dpf_ax_open_selector (Some [97; 98; 99; 100]) quiet_bus (usb_init []))
    as (_ & _ & H).
  apply H. intros (s & d & [= <-] & _ & [Hs | Hs]); discriminate Hs.
Defined.

(** The scan returns the device number [index - enumeration] among the
    AX206 devices, when every descriptor can be read. *)
Lemma scan_devices_spec (devs : list usb_device) :
  forall (index enumeration : Z) (log : list open_msg),
    Forall (fun d => 0 <= ud_desc_ret d) devs ->
    enumeration <= index ->
    fst (scan_devices devs index enumeration log) =
      match ax206_devices devs !! Z.to_nat (index - enumeration) with
      | Some d => ScanFound d
      | None => ScanNone
      end.
Proof.
  induction devs as [| dv devs IH]; intros index e log Hr He; [reflexivity |].
  apply Forall_cons in Hr as [Hr1 Hr].
  cbn [scan_devices]. unfold ax206_devices. cbn [List.filter].
  fold (ax206_devices devs). fold (is_ax206 dv).
  destruct (Z.ltb_spec (ud_desc_ret dv) 0); [lia |].
  destruct (is_ax206 dv).
  - destruct (Z.eqb_spec e index) as [-> | Hne].
    + rewrite Z.sub_diag. reflexivity.
    + rewrite IH by (assumption || lia).
      replace (Z.to_nat (index - e)) with (S (Z.to_nat (index - (e + 1)))) by lia.
      reflexivity.
  - apply IH; assumption.
Qed.

(** The scan stops with an error at the first descriptor that cannot be
    read, if the wanted device was not found before it. *)
Lemma scan_devices_unreadable (pre : list usb_device) :
  forall (bad : usb_device) (post : list usb_device) (index enumeration : Z)
         (log : list open_msg),
    Forall (fun d => 0 <= ud_desc_ret d) pre ->
    ud_desc_ret bad < 0 ->
    enumeration <= index ->
    ax206_devices pre !! Z.to_nat (index - enumeration) = None ->
    fst (scan_devices (pre ++ bad :: post) index enumeration log) = ScanFailed.
Proof.
  induction pre as [| dv pre IH]; intros bad post index e log Hr Hb He Hn.
  - cbn [app scan_devices]. destruct (Z.ltb_spec (ud_desc_ret bad) 0); [reflexivity | lia].
  - apply Forall_cons in Hr as [Hr1 Hr].
    cbn [app scan_devices]. unfold ax206_devices in Hn. cbn [List.filter] in Hn.
    fold (ax206_devices pre) in Hn. fold (is_ax206 dv) in Hn. fold (is_ax206 dv).
    destruct (Z.ltb_spec (ud_desc_ret dv) 0); [lia |].
    destruct (is_ax206 dv).
    + destruct (Z.eqb_spec e index) as [-> | Hne].
      * rewrite Z.sub_diag in Hn. discriminate Hn.
      * apply IH; try assumption; [lia |].
        replace (Z.to_nat (index - e)) with (S (Z.to_nat (index - (e + 1)))) in Hn by lia.
        exact Hn.
    + apply IH; assumption.
Qed.

(** [dpf_ax_open] up to the end of the scan, for a valid selector on a bus
    where libusb answers. *)
Lemma dpf_ax_open_scanned (s : list Z) (d : Z) (b : bus_t) (w : usb_t)
    (devs : list usb_device) :
  selector_of s d -> 48 <= d <= 57 ->
  0 <= bus_init_ret b -> bus_list b = Some devs ->
  let b1 := bus_log_set (snd (scan_devices devs (d - 48) 0 (bus_log b)))
              (bus_event_add EvGetList (bus_event_add EvInit b)) in
  dpf_ax_open (Some s) b w =
    match fst (scan_devices devs (d - 48) 0 (bus_log b)) with
    | ScanFailed => (None, b1, w)
    | ScanNone => (None, bus_log_add NoMatch b1, w)
    | ScanFound dv =>
        let b2 := bus_event_add EvMalloc b1 in
        if negb (bus_malloc_ok b2) then (None, bus_log_add AllocFailed b2, w)
        else
          let b3 := bus_event_add (EvOpen (ud_open_ret dv) (ud_handle dv)) b2 in
          if negb (ud_open_ret dv =? 0) || (ud_handle dv =? 0) then
            (None, bus_event_add EvFree (bus_log_add OpenFailed b3), w)
          else
            let b4 := bus_event_add (EvClaim (ud_handle dv) (ud_claim_ret dv))
                        (bus_event_add EvFreeList b3) in
            if ud_claim_ret dv <? 0 then
              (None,
               bus_event_add EvFree
                 (bus_event_add (EvClose (ud_handle dv))
                    (bus_log_add (ClaimFailed (ud_claim_ret dv)) b4)), w)
            else
              match dpf_ax_open_query (ud_handle dv) w with
              | (Some h, w1) =>
                  (Some h, bus_log_add (GotDimensions (width h) (height h)) b4, w1)
              | (None, w1) =>
                  (None,
                   dpf_ax_close {| udev := ud_handle dv; width := 0; height := 0 |}
                     (bus_log_add ReadDimensionsFailed b4), w1)
              end
    end.
Proof.
  intros Hsel Hd Hinit Hlist b1. unfold dpf_ax_open.
  rewrite (selector_index_valid s d Hsel).
  destruct (Z.ltb_spec (d - 48) 0); [lia |].
  destruct (Z.gtb_spec (d - 48) 9); [lia |].
  cbn [orb bus_event_add bus_init_ret bus_list bus_log].
  destruct (Z.ltb_spec (bus_init_ret b) 0); [lia |].
  rewrite Hlist.
  destruct (scan_devices devs (d - 48) 0 (bus_log b)) as [found log].
  cbn [fst snd] in *. reflexivity.
Qed.

(** X16.  Device not found.  For a valid selector with digit [d], on a bus
    that answers and on which fewer than [d - '0' + 1] devices have the
    identity of the AX206, [dpf_ax_open] returns the null handle after
    [libusb_init] and [libusb_get_device_list] only: it logs that no device
    matches, opens nothing, allocates nothing and issues no transfer. *)
Theorem dpf_ax_open_not_found (s : list Z) (d : Z) (b : bus_t) (w : usb_t)
    (devs : list usb_device) :
  selector_of s d -> 48 <= d <= 57 ->
  bus_readable b devs ->
  Z.of_nat (length (ax206_devices devs)) <= d - 48 ->
  let '(r, b', w') := dpf_ax_open (Some s) b w in
  r = None /\ w' = w /\
  bus_events b' = bus_events b ++ [EvInit; EvGetList] /\
  last (bus_log b') = Some NoMatch.
Proof.
  intros Hsel Hd (Hinit & Hlist & Hread) Hfew.
  rewrite (dpf_ax_open_scanned s d b w devs Hsel Hd Hinit Hlist).
  rewrite scan_devices_spec by (assumption || lia).
  rewrite lookup_ge_None_2 by lia.
  cbn. rewrite <- app_assoc, last_snoc. auto.
Qed.

Lemma dpf_ax_open_not_found_witness :
  fst (fst (dpf_ax_open (Some [117; 115; 98; 50]) two_frames (usb_init []))) = None.
Proof.
  pose proof (dpf_ax_open_not_found [117; 115; 98; 50] 50 two_frames (usb_init [])
                [frame 11; mouse; frame 12]) as H.
  destruct (dpf_ax_open _ _ _) as [[r b'] w'].
  apply H.
  - left. reflexivity.
  - lia.
  - split; [reflexivity |]. split; [reflexivity |].
    repeat constructor; discriminate.
  - vm_compute. discriminate.
Defined.

(** X17.  Device found.  For a valid selector with digit [d], on a bus
    that answers, when the AX206 number [d - '0'] in bus order (counting
    from 0, other devices skipped) opens and can be claimed and answers the
    query with width W and height H, [dpf_ax_open] returns a handle on that
    very device with these dimensions, having allocated the context, opened
    the device, freed the device list and claimed the interface, in that
    order. *)
Theorem dpf_ax_open_found (s : list Z) (d : Z) (b : bus_t) (w : usb_t)
    (devs : list usb_device) (dv : usb_device) (W H e : Z) (env : bulk_reply)
    (rest : list bulk_reply) :
  selector_of s d -> 48 <= d <= 57 ->
  bus_readable b devs ->
  ax206_devices devs !! Z.to_nat (d - 48) = Some dv ->
  bus_malloc_ok b = true ->
  ud_open_ret dv = 0 -> ud_handle dv <> 0 -> 0 <= ud_claim_ret dv ->
  0 <= W < 65536 -> 0 <= H < 65536 ->
  pending w = env :: ok_reply 5 (le16 W ++ le16 H ++ [e]) ::
              ok_reply 13 (csw 0) :: rest ->
  br_ret env = 0 ->
  let '(r, b', w') := dpf_ax_open (Some s) b w in
  r = Some {| udev := ud_handle dv; width := W; height := H |} /\
  bus_events b' =
    bus_events b ++ [EvInit; EvGetList; EvMalloc; EvOpen 0 (ud_handle dv);
                     EvFreeList; EvClaim (ud_handle dv) (ud_claim_ret dv)] /\
  pending w' = rest.
Proof.
  intros Hsel Hd (Hinit & Hlist & Hread) Hdv Hm Ho Hu Hc HW HH Hp Henv.
  rewrite (dpf_ax_open_scanned s d b w devs Hsel Hd Hinit Hlist).
  rewrite scan_devices_spec by (assumption || lia).
  rewrite Z.sub_0_r, Hdv. cbv zeta.
  cbn [bus_event_add bus_log_set bus_malloc_ok]. rewrite Hm, Ho. cbn [negb Z.eqb orb].
  destruct (Z.eqb_spec (ud_handle dv) 0); [contradiction |].
  destruct (Z.ltb_spec (ud_claim_ret dv) 0); [lia |].
  pose proof (dpf_ax_open_query_le16 (ud_handle dv) W H e w env rest
                HW HH Hp Henv) as Eq.
  assert (Ew : pending (snd (dpf_ax_open_query (ud_handle dv) w)) = rest).
  { unfold dpf_ax_open_query.
    destruct (wrap_scsi_in_ok {| udev := ud_handle dv; width := 0; height := 0 |}
                get_parameters_cmd 16 (replicate 5 0) 5 w env
                (ok_reply 5 (le16 W ++ le16 H ++ [e])) (ok_reply 13 (csw 0) :: rest)
                Hp Henv eq_refl eq_refl) as (w2 & Hp2 & ->).
    destruct (ack_loop_reply [] 4 (ud_handle dv) w2 (csw 0) rest) as (w3 & E3 & P3 & _);
      [cbn; lia | constructor | exact Hp2 | reflexivity |].
    unfold wrap_scsi_status. cbn [udev]. rewrite E3.
    destruct (negb _); cbn [snd fst]; destruct (_ =? 0); cbn [snd fprintf pending];
      exact P3. }
  destruct (dpf_ax_open_query (ud_handle dv) w) as [[h |] w1]; cbn [fst snd] in *;
    [| discriminate Eq].
  injection Eq as ->. cbn. rewrite <- !app_assoc. cbn. auto.
Qed.

Lemma dpf_ax_open_found_witness :
  fst (fst (dpf_ax_open (Some [100; 112; 102; 49]) two_frames
              (usb_init [ok_reply 31 []; ok_reply 5 (le16 480 ++ le16 320 ++ [0]);
                         ok_reply 13 (csw 0)]))) =
    Some {| udev := 12; width := 480; height := 320 |}.
Proof.
  pose proof (dpf_ax_open_found [100; 112; 102; 49] 49 two_frames
                (usb_init [ok_reply 31 []; ok_reply 5 (le16 480 ++ le16 320 ++ [0]);
                           ok_reply 13 (csw 0)])
                [frame 11; mouse; frame 12] (frame 12) 480 320 0
                (ok_reply 31 []) []) as H.
  destruct (dpf_ax_open _ _ _) as [[r b'] w'].
  apply H; try reflexivity; try lia; try discriminate;
    try (right; reflexivity);
    try (split; [reflexivity |]; split; [reflexivity |];
         repeat constructor; discriminate).
Defined.

(** X18.  A descriptor that cannot be read.  If, before the wanted AX206
    is reached, the descriptor of some device cannot be read, [dpf_ax_open]
    gives up at that device and returns the null handle, whatever devices
    follow it on the bus; nothing is opened and no transfer is issued. *)
Theorem dpf_ax_open_descriptor_error (s : list Z) (d : Z) (b : bus_t) (w : usb_t)
    (pre post : list usb_device) (bad : usb_device) :
  selector_of s d -> 48 <= d <= 57 ->
  0 <= bus_init_ret b -> bus_list b = Some (pre ++ bad :: post) ->
  Forall (fun dv => 0 <= ud_desc_ret dv) pre ->
  ud_desc_ret bad < 0 ->
  Z.of_nat (length (ax206_devices pre)) <= d - 48 ->
  let '(r, b', w') := dpf_ax_open (Some s) b w in
  r = None /\ w' = w /\
  bus_events b' = bus_events b ++ [EvInit; EvGetList].
Proof.
  intros Hsel Hd Hinit Hlist Hread Hbad Hfew.
  rewrite (dpf_ax_open_scanned s d b w _ Hsel Hd Hinit Hlist).
  rewrite scan_devices_unreadable; try assumption; try lia.
  - cbn. rewrite <- app_assoc. auto.
  - apply lookup_ge_None_2. lia.
Qed.

Lemma dpf_ax_open_descriptor_error_witness :
  let broken := {| ud_desc_ret := -1; ud_vendor := 0; ud_product := 0;
                   ud_open_ret := 0; ud_handle := 5; ud_claim_ret := 0 |} in
  let b := {| bus_init_ret := 0; bus_list := Some [mouse; broken; frame 11];
              bus_malloc_ok := true; bus_events := []; bus_log := [] |} in
  fst (fst (dpf_ax_open (Some [117; 115; 98; 48]) b (usb_init []))) = None.
Proof.
  intros broken b.
  pose proof (dpf_ax_open_descriptor_error [117; 115; 98; 48] 48 b (usb_init [])
                [mouse] [frame 11] broken) as H.
  destruct (dpf_ax_open _ _ _) as [[r b'] w'].
  apply H; try reflexivity; try lia; try (left; reflexivity);
    try (repeat constructor; discriminate).
Defined.

Ltac no_such_event H :=
  cbn in H; repeat (destruct H as [H | H]; [discriminate H |]); destruct H.

Lemma dpf_ax_open_query_udev (u : Z) (w : usb_t) (h : DPFContext) :
  fst (dpf_ax_open_query u w) = Some h -> udev h = u.
Proof.
  unfold dpf_ax_open_query.
  destruct (wrap_scsi _ _ _ _ _ _ _) as [[r buf] w1].
  destruct (r =? 0); cbn [fst]; [| discriminate].
  intros [= <-]. reflexivity.
Qed.

(** X19.  Handles and memory.  Whatever the selector, the bus and the
    device do: when [dpf_ax_open] returns the null handle, every device
    handle it opened has been closed again and the context, if [malloc]
    gave one, has been freed; when it returns a handle, the device of that handle is
    open, its interface is claimed and not released, and the context is not
    freed. *)
Theorem dpf_ax_open_handles (dev : option (list Z)) (b : bus_t) (w : usb_t) :
  bus_events b = [] ->
  let '(r, b', _) := dpf_ax_open dev b w in
  match r with
  | None =>
      (forall u, u <> 0 -> ~ handle_leaked (bus_events b') u) /\
      (bus_malloc_ok b = true ->
       In EvMalloc (bus_events b') -> In EvFree (bus_events b'))
  | Some h =>
      udev h <> 0 /\ handle_leaked (bus_events b') (udev h) /\
      (exists r, 0 <= r /\ In (EvClaim (udev h) r) (bus_events b')) /\
      ~ In (EvRelease (udev h)) (bus_events b') /\
      ~ In EvFree (bus_events b')
  end.
Proof.
  intros Hev. destruct b as [ir bl mo ev lg]. cbn [bus_events] in Hev. subst ev.
  unfold dpf_ax_open, handle_leaked.
  destruct (_ || _).
  { cbn. split; [intros u _ [[] _] | intros _ []]. }
  cbn [bus_event_add bus_init_ret bus_list bus_log bus_events bus_malloc_ok].
  destruct (ir <? 0).
  { cbn. split; [intros u _ [H _] | intros _ H]; no_such_event H. }
  destruct bl as [devs |].
  2: { cbn. split; [intros u _ [H _] | intros _ H]; no_such_event H. }
  destruct (scan_devices devs (selector_index dev) 0 lg) as [found log].
  destruct found as [| dv |].
  { cbn. split; [intros u _ [H _] | intros _ H]; no_such_event H. }
  2: { cbn. split; [intros u _ [H _] | intros _ H]; no_such_event H. }
  cbn [bus_event_add bus_log_set bus_malloc_ok bus_events].
  destruct mo.
  2: { cbn. split; [intros u _ [H _]; no_such_event H | intros Hm; discriminate Hm]. }
  cbn [negb].
  destruct (Z.eqb_spec (ud_open_ret dv) 0) as [Ho | Ho]; cbn [negb orb];
    [destruct (Z.eqb_spec (ud_handle dv) 0) as [Hu | Hu] |].
  - cbn. split; [intros u Hne [H _] | intros _ _; auto 10].
    destruct H as [H | [H | [H | [H | [H | []]]]]]; try discriminate H.
    injection H as _ E. congruence.
  - destruct (Z.ltb_spec (ud_claim_ret dv) 0) as [Hc | Hc].
    + cbn. split; [intros u Hne [H Hn] | intros _ _; auto 10].
      destruct H as [H | [H | [H | [H | [H | [H | [H | [H | []]]]]]]]];
        try discriminate H.
      injection H as _ E. apply Hn. subst u. auto 10.
    + destruct (dpf_ax_open_query (ud_handle dv) w) as [[h |] w1] eqn:Eq.
      * pose proof (dpf_ax_open_query_udev (ud_handle dv) w h ltac:(rewrite Eq; reflexivity))
          as Eh.
        cbn. rewrite Eh, Ho.
        split; [exact Hu |]. split; [split; [auto 10 |] |].
        { intros H. no_such_event H. }
        split; [exists (ud_claim_ret dv); split; [exact Hc | auto 10] |].
        split; intros H; no_such_event H.
      * cbn. split; [intros u Hne [H Hn] | intros _ _; auto 12].
        destruct H as [H | [H | [H | [H | [H | [H | [H | [H | [H | []]]]]]]]]];
          try discriminate H.
        injection H as _ E. apply Hn. subst u. auto 12.
  - cbn. split; [intros u Hne [H _] | intros _ _; auto 10].
    destruct H as [H | [H | [H | [H | [H | []]]]]]; try discriminate H.
    injection H as E _. congruence.
Qed.

Lemma dpf_ax_open_handles_witness :
  ~ handle_leaked
      (bus_events (snd (fst (dpf_ax_open (Some [117; 115; 98; 48]) two_frames
                               (usb_init [])))))
      11.
Proof.
  pose proof (dpf_ax_open_handles (Some [117; 115; 98; 48]) two_frames (usb_init [])
                eq_refl) as H.
  destruct (dpf_ax_open _ _ _) as [[[h |] b'] w'] eqn:E.
  - vm_compute in E. discriminate E.
  - apply H. discriminate.
Defined.

(** The events of a successful [dpf_ax_open]. *)
Lemma dpf_ax_open_some (dev : option (list Z)) (b : bus_t) (w : usb_t)
    (h : DPFContext) :
  fst (fst (dpf_ax_open dev b w)) = Some h ->
  exists r,
    0 <= r /\ udev h <> 0 /\
    bus_events (snd (fst (dpf_ax_open dev b w))) =
      bus_events b ++ [EvInit; EvGetList; EvMalloc; EvOpen 0 (udev h);
                       EvFreeList; EvClaim (udev h) r].
Proof.
  destruct b as [ir bl mo ev lg]. unfold dpf_ax_open.
  destruct (_ || _); [discriminate |].
  cbn [bus_event_add bus_init_ret bus_list bus_log bus_events bus_malloc_ok].
  destruct (ir <? 0); [discriminate |].
  destruct bl as [devs |]; [| discriminate].
  destruct (scan_devices devs (selector_index dev) 0 lg) as [found log].
  destruct found as [| dv |]; [discriminate | | discriminate].
  cbn [bus_event_add bus_log_set bus_malloc_ok bus_events].
  destruct mo; [| discriminate]. cbn [negb].
  destruct (Z.eqb_spec (ud_open_ret dv) 0) as [Ho | Ho]; cbn [negb orb];
    [| discriminate].
  destruct (Z.eqb_spec (ud_handle dv) 0) as [Hu | Hu]; [discriminate |].
  destruct (Z.ltb_spec (ud_claim_ret dv) 0) as [Hc | Hc]; [discriminate |].
  destruct (dpf_ax_open_query (ud_handle dv) w) as [[h' |] w1] eqn:Eq; [| discriminate].
  cbn. intros [= ->].
  pose proof (dpf_ax_open_query_udev (ud_handle dv) w h ltac:(rewrite Eq; reflexivity))
    as Eh.
  exists (ud_claim_ret dv). rewrite Eh, Ho, <- !app_assoc. cbn. auto.
Qed.

(** X22.  Open, then close.  After a successful [dpf_ax_open] on a fresh
    bus, [dpf_ax_close] on the handle it returned releases the interface
    that was claimed, closes the one device that was opened and frees the
    context: no handle is left open. *)
Theorem dpf_ax_open_close (dev : option (list Z)) (b : bus_t) (w : usb_t)
    (h : DPFContext) :
  bus_events b = [] ->
  fst (fst (dpf_ax_open dev b w)) = Some h ->
  let b' := dpf_ax_close h (snd (fst (dpf_ax_open dev b w))) in
  (exists r,
      bus_events b' =
        [EvInit; EvGetList; EvMalloc; EvOpen 0 (udev h); EvFreeList;
         EvClaim (udev h) r; EvRelease (udev h); EvClose (udev h); EvFree]) /\
  (forall u, ~ handle_leaked (bus_events b') u).
Proof.
  intros Hev Hsome b'.
  destruct (dpf_ax_open_some dev b w h Hsome) as (r & Hr & Hu & E).
  rewrite Hev in E. cbn [app] in E.
  assert (E' : bus_events b' =
               [EvInit; EvGetList; EvMalloc; EvOpen 0 (udev h); EvFreeList;
                EvClaim (udev h) r; EvRelease (udev h); EvClose (udev h); EvFree]).
  { unfold b', dpf_ax_close. cbn [bus_event_add bus_events]. rewrite E. reflexivity. }
  split; [exists r; exact E' |].
  intros u [Hopen Hclose]. rewrite E' in Hopen, Hclose.
  cbn in Hopen.
  destruct Hopen as [H | [H | [H | [H | [H | [H | [H | [H | [H | []]]]]]]]]];
    try discriminate H.
  injection H as <-. apply Hclose. cbn. auto 12.
Qed.

Lemma dpf_ax_open_close_witness :
  let w := usb_init [ok_reply 31 []; ok_reply 5 (le16 480 ++ le16 320 ++ [0]);
                     ok_reply 13 (csw 0)] in
  ~ handle_leaked
      (bus_events
         (dpf_ax_close {| udev := 11; width := 480; height := 320 |}
            (snd (fst (dpf_ax_open (Some [117; 115; 98; 48]) two_frames w))))) 11.
Proof.
  intros w.
  apply (dpf_ax_open_close (Some [117; 115; 98; 48]) two_frames w
           {| udev := 11; width := 480; height := 320 |}).
  - reflexivity.
  - vm_compute. reflexivity.
Defined.

(** ** What [update] does to the resident buffer *)

Lemma in_panel_panel_ok (s s' : dpf_t) (c : Z * Z) :
  panel_ok s -> panel_ok s' -> in_panel s c -> in_panel s' c.
Proof.
  intros (Hw & Hh & _) (Hw' & Hh' & _). unfold in_panel.
  rewrite Hw, Hh, Hw', Hh'. auto.
Qed.

Lemma stored_panel_ok (s s' : dpf_t) (c : Z * Z) :
  panel_ok s -> panel_ok s' -> lcdBuf s' = lcdBuf s -> stored s' c = stored s c.
Proof.
  intros (Hw & _) (Hw' & _) E. unfold stored. rewrite E, Hw, Hw'. reflexivity.
Qed.

Section StepFold.

Context {B : Type}.
Variable f : dpf_t -> B -> dpf_t.
Hypothesis f_ok : forall s b, panel_ok s -> panel_ok (f s b).
Hypothesis f_grow :
  forall s b, minx (f s b) <= minx s /\ maxx s <= maxx (f s b) /\
              miny (f s b) <= miny s /\ maxy s <= maxy (f s b).
Hypothesis f_cover :
  forall s b c, panel_ok s -> in_panel s c ->
                stored (f s b) c <> stored s c -> inside_dirty (f s b) c.

Lemma fold_step_ok (l : list B) (s : dpf_t) :
  panel_ok s -> panel_ok (fold_left f l s).
Proof.
  revert s. induction l as [| b l IH]; intros s Hok; cbn [fold_left]; auto.
Qed.

Lemma fold_step_grow (l : list B) (s : dpf_t) :
  minx (fold_left f l s) <= minx s /\ maxx s <= maxx (fold_left f l s) /\
  miny (fold_left f l s) <= miny s /\ maxy s <= maxy (fold_left f l s).
Proof.
  revert s. induction l as [| b l IH]; intros s; cbn [fold_left]; [lia |].
  pose proof (IH (f s b)). pose proof (f_grow s b). lia.
Qed.

Lemma fold_step_cover (l : list B) (s : dpf_t) (c : Z * Z) :
  panel_ok s -> in_panel s c ->
  stored (fold_left f l s) c <> stored s c -> inside_dirty (fold_left f l s) c.
Proof.
  revert s. induction l as [| b l IH]; intros s Hok Hin Hne; cbn [fold_left] in *;
    [contradiction Hne; reflexivity |].
  destruct (list_eq_dec (stored (fold_left f l (f s b)) c) (stored (f s b) c)) as [E | E].
  - rewrite E in Hne. pose proof (f_cover s b c Hok Hin Hne) as Hc.
    pose proof (fold_step_grow l (f s b)). unfold inside_dirty in *. lia.
  - apply IH; [apply f_ok, Hok | | exact E].
    apply (in_panel_panel_ok s); auto.
Qed.

End StepFold.

(** One call: a pixel whose stored bytes change is inside the rectangle
    afterwards. *)
Lemma drv_set_pixel_cover (x y : Z) (pix : RGBA) (s : dpf_t) (c : Z * Z) :
  panel_ok s -> in_panel s c ->
  stored (drv_set_pixel x y pix s) c <> stored s c ->
  inside_dirty (drv_set_pixel x y pix s) c.
Proof.
  intros Hok Hin Hne.
  destruct (decide (c = (Z.rem x 480, Z.rem y 320))) as [-> | Hc];
    [| contradiction Hne; apply drv_set_pixel_frame; assumption].
  pose proof Hok as (Hw & Hh & _).
  destruct Hin as [Hx Hy]. cbn [fst snd] in Hx, Hy. rewrite Hw in Hx. rewrite Hh in Hy.
  rewrite drv_set_pixel_reduce in * by (assumption || lia).
  assert (Hin : in_panel s (Z.rem x 480, Z.rem y 320)).
  { unfold in_panel. cbn [fst snd]. rewrite Hw, Hh. lia. }
  destruct (list_eq_dec (convert pix) (stored s (Z.rem x 480, Z.rem y 320))) as [E | E].
  - rewrite drv_set_pixel_same in Hne by assumption. contradiction Hne. reflexivity.
  - rewrite drv_set_pixel_changed by assumption.
    unfold inside_dirty. cbn [with_rect minx maxx miny maxy fst snd]. lia.
Qed.

Lemma update_row_cover (fb : list Z) (x w ly : Z) (s : dpf_t) (c : Z * Z) :
  panel_ok s -> in_panel s c ->
  stored (update_row fb x w ly s) c <> stored s c ->
  inside_dirty (update_row fb x w ly s) c.
Proof.
  unfold update_row.
  apply (fold_step_cover (fun s lx => drv_set_pixel lx ly (fb_pixel fb s lx ly) s)).
  - intros s0 b. apply drv_set_pixel_panel_ok.
  - intros s0 b. apply drv_set_pixel_rect.
  - intros s0 b c0. apply drv_set_pixel_cover.
Qed.

Lemma update_pixels_cover (fb : list Z) (x y w h : Z) (s : dpf_t) (c : Z * Z) :
  panel_ok s -> in_panel s c ->
  stored (update_pixels fb x y w h s) c <> stored s c ->
  inside_dirty (update_pixels fb x y w h s) c.
Proof.
  unfold update_pixels.
  apply (fold_step_cover (fun s ly => update_row fb x w ly s)).
  - intros s0 b. apply update_row_panel_ok.
  - intros s0 b. apply update_row_fields.
  - intros s0 b c0. apply update_row_cover.
Qed.

Lemma set_pixels_cover (cs : list (Z * Z * RGBA)) (s : dpf_t) (c : Z * Z) :
  panel_ok s -> in_panel s c ->
  stored (set_pixels cs s) c <> stored s c ->
  inside_dirty (set_pixels cs s) c.
Proof.
  unfold set_pixels.
  apply (fold_step_cover (fun s a => drv_set_pixel a.1.1 a.1.2 a.2 s)).
  - intros s0 b. apply drv_set_pixel_panel_ok.
  - intros s0 b. apply drv_set_pixel_rect.
  - intros s0 b c0. apply drv_set_pixel_cover.
Qed.

(** X20.  The dirty rectangle covers every change.  After any sequence of
    [drv_set_pixel] calls, and after the pixel loop of any [update], every
    pixel of the panel whose stored bytes differ from those before lies
    inside the dirty rectangle: a flush of the rectangle misses no
    change. *)
Theorem dirty_rectangle_covers_changes (s : dpf_t) (c : Z * Z) :
  panel_ok s -> in_panel s c ->
  (forall cs, stored (set_pixels cs s) c <> stored s c ->
              inside_dirty (set_pixels cs s) c) /\
  (forall fb x y w h, stored (update_pixels fb x y w h s) c <> stored s c ->
                      inside_dirty (update_pixels fb x y w h s) c).
Proof.
  intros Hok Hin. split.
  - intros cs. apply set_pixels_cover; assumption.
  - intros fb x y w h. apply update_pixels_cover; assumption.
Qed.

Lemma dirty_rectangle_covers_changes_witness :
  inside_dirty (set_pixels [(10, 10, red); (20, 20, green)] idle) (20, 20).
Proof.
  destruct (dirty_rectangle_covers_changes idle (20, 20)) as [H _].
  - exact panel_ok_idle.
  - vm_compute. repeat split; discriminate.
  - apply H. vm_compute. discriminate.
Defined.

Lemma fb_pixel_panel_ok (fb : list Z) (s s' : dpf_t) (lx ly : Z) :
  panel_ok s -> panel_ok s' -> fb_pixel fb s' lx ly = fb_pixel fb s lx ly.
Proof. intros (Hw & _) (Hw' & _). unfold fb_pixel. rewrite Hw, Hw'. reflexivity. Qed.

Lemma update_flush_lcdBuf (s : dpf_t) (w : usb_t) :
  lcdBuf (fst (update_flush s w)) = lcdBuf s.
Proof.
  unfold update_flush. destruct (_ || _); [reflexivity |].
  destruct (dpf_ax_screen_blit _ _ _ _). reflexivity.
Qed.

(** One row of the pixel loop, over any list of columns of the panel. *)
Lemma update_row_mirror (fb : list Z) (ly : Z) (l : list Z) :
  forall s : dpf_t,
    panel_ok s -> 0 <= ly < 320 -> Forall (fun lx => 0 <= lx < 480) l ->
    let s' := fold_left (fun s lx => drv_set_pixel lx ly (fb_pixel fb s lx ly) s) l s in
    (forall lx, In lx l -> stored s' (lx, ly) = convert (fb_pixel fb s lx ly)) /\
    (forall c, in_panel s c -> (forall lx, In lx l -> c <> (lx, ly)) ->
               stored s' c = stored s c).
Proof.
  induction l as [| a l IH]; intros s Hok Hly Hl; cbv zeta; cbn [fold_left].
  - split; [intros lx [] | reflexivity].
  - apply Forall_cons in Hl as [Ha Hl].
    set (s1 := drv_set_pixel a ly (fb_pixel fb s a ly) s).
    assert (Hok1 : panel_ok s1) by (apply drv_set_pixel_panel_ok, Hok).
    assert (Hina : in_panel s (a, ly)).
    { destruct Hok as (Hw & Hh & _). unfold in_panel. cbn [fst snd].
      rewrite Hw, Hh. lia. }
    destruct (IH s1 Hok1 Hly Hl) as [I1 I2]. cbv zeta in I1, I2.
    assert (Hframe : forall c, in_panel s c -> c <> (a, ly) -> stored s1 c = stored s c).
    { intros c Hc Hne. apply drv_set_pixel_frame; [exact Hok | exact Hc |].
      rewrite !Z.rem_small by lia. exact Hne. }
    split.
    + intros lx Hlx.
      destruct (In_dec Z.eq_dec lx l) as [Hin | Hnin].
      * rewrite I1 by exact Hin. rewrite (fb_pixel_panel_ok fb s s1) by assumption.
        reflexivity.
      * destruct Hlx as [<- | Hlx]; [| contradiction].
        rewrite I2.
        -- apply drv_set_pixel_stored; assumption.
        -- apply (in_panel_panel_ok s); assumption.
        -- intros lx Hlx [= ->]. contradiction.
    + intros c Hc Hne.
      rewrite I2.
      * apply Hframe; [exact Hc |]. apply Hne. left. reflexivity.
      * apply (in_panel_panel_ok s); assumption.
      * intros lx Hlx. apply Hne. right. exact Hlx.
Qed.

(** The pixel loop, over any list of rows of the panel. *)
Lemma update_pixels_mirror (fb : list Z) (x w : Z) (l : list Z) :
  forall s : dpf_t,
    panel_ok s -> 0 <= x -> x + w <= 480 -> Forall (fun ly => 0 <= ly < 320) l ->
    let s' := fold_left (fun s ly => update_row fb x w ly s) l s in
    (forall lx ly, x <= lx < x + w -> In ly l ->
                   stored s' (lx, ly) = convert (fb_pixel fb s lx ly)) /\
    (forall c, in_panel s c ->
               (forall ly, In ly l -> ~ (x <= c.1 < x + w /\ c.2 = ly)) ->
               stored s' c = stored s c).
Proof.
  induction l as [| a l IH]; intros s Hok Hx Hw Hl; cbv zeta; cbn [fold_left].
  - split; [intros lx ly _ [] | reflexivity].
  - apply Forall_cons in Hl as [Ha Hl].
    set (s1 := update_row fb x w a s).
    assert (Hok1 : panel_ok s1) by (apply update_row_panel_ok, Hok).
    assert (Hcols : Forall (fun lx => 0 <= lx < 480) (seqZ x w)).
    { apply Forall_forall. intros lx Hlx. apply elem_of_seqZ in Hlx. lia. }
    destruct (update_row_mirror fb a (seqZ x w) s Hok Ha Hcols) as [R1 R2].
    cbv zeta in R1, R2. fold (update_row fb x w a s) in R1, R2. fold s1 in R1, R2.
    destruct (IH s1 Hok1 Hx Hw Hl) as [I1 I2]. cbv zeta in I1, I2.
    split.
    + intros lx ly Hlx Hly.
      destruct (In_dec Z.eq_dec ly l) as [Hin | Hnin].
      * rewrite I1 by assumption. rewrite (fb_pixel_panel_ok fb s s1) by assumption.
        reflexivity.
      * destruct Hly as [<- | Hly]; [| contradiction].
        rewrite I2.
        -- apply R1. apply list_elem_of_In, elem_of_seqZ. lia.
        -- apply (in_panel_panel_ok s); [assumption | assumption |].
           destruct Hok as (Ew & Eh & _). unfold in_panel. cbn [fst snd].
           rewrite Ew, Eh. lia.
        -- intros ly Hly [_ E]. cbn [snd] in E. subst ly. contradiction.
    + intros c Hc Hne.
      rewrite I2.
      * apply R2; [exact Hc |]. intros lx Hlx ->.
        apply list_elem_of_In, elem_of_seqZ in Hlx.
        apply (Hne a (or_introl eq_refl)). cbn [fst snd]. lia.
      * apply (in_panel_panel_ok s); assumption.
      * intros ly Hly. apply Hne. right. exact Hly.
Qed.

(** X21.  [update] mirrors the frame buffer.  For a region inside the
    panel, after [update] every pixel of the region stores the converted
    colour of the frame-buffer pixel read for it (three bytes at offset
    [(ly * 480 + lx) * 4]), and every pixel of the panel outside the region
    stores what it stored before; the flush that ends [update] does not
    change the resident buffer. *)
Theorem update_mirrors_frame_buffer (fb : list Z) (x y w h : Z) (s : dpf_t)
    (u : usb_t) :
  panel_ok s -> 0 <= x -> 0 <= y -> x + w <= 480 -> y + h <= 320 ->
  let s' := fst (update fb x y w h s u) in
  (forall c, in_region x y w h c -> stored s' c = convert (fb_pixel fb s c.1 c.2)) /\
  (forall c, in_panel s c -> ~ in_region x y w h c -> stored s' c = stored s c).
Proof.
  intros Hok Hx Hy Hw Hh s'.
  assert (Hrows : Forall (fun ly => 0 <= ly < 320) (seqZ y h)).
  { apply Forall_forall. intros ly Hly. apply elem_of_seqZ in Hly. lia. }
  destruct (update_pixels_mirror fb x w (seqZ y h) s Hok Hx Hw Hrows) as [M1 M2].
  cbv zeta in M1, M2. fold (update_pixels fb x y w h s) in M1, M2.
  assert (Hok1 : panel_ok (update_pixels fb x y w h s))
    by (apply update_pixels_panel_ok, Hok).
  assert (E : forall c, stored s' c = stored (update_pixels fb x y w h s) c).
  { intros c. unfold s', update. apply stored_panel_ok.
    - exact Hok1.
    - apply update_flush_panel_ok, Hok1.
    - apply update_flush_lcdBuf. }
  split.
  - intros [lx ly] [Hcx Hcy]. cbn [fst snd] in *. rewrite E.
    apply M1; [lia |]. apply list_elem_of_In, elem_of_seqZ. lia.
  - intros c Hc Hout. rewrite E. apply M2; [exact Hc |].
    intros ly Hly [Hcx Hcy]. apply list_elem_of_In, elem_of_seqZ in Hly.
    apply Hout. unfold in_region. lia.
Qed.

Lemma update_mirrors_frame_buffer_witness :
  stored (fst (update [255; 0; 0; 0] 0 0 1 1 idle (usb_init []))) (0, 0) = [248; 0].
Proof.
  destruct (update_mirrors_frame_buffer [255; 0; 0; 0] 0 0 1 1 idle (usb_init []))
    as [H _]; [exact panel_ok_idle | lia | lia | lia | lia |].
  apply (H (0, 0)). unfold in_region. cbn. lia.
Defined.
